(** * Prompt Optimizer Platform: the multi-provider dispatcher

    A shallow embedding of the backend of the platform:
    - [OpenAI.testPrompt] and [Anthropic.testPrompt], the two provider
      adapters (services/openai.js and services/anthropic.js, listed in
      src/backend/config/database.js after the database module);
    - [Server.prompts_test], the handler of [POST /api/prompts/test]
      (server.js, listed in src/database/schema.sql after the schema):
      validation, routing by model id, the sequential loop over the requested
      models and the summary statistics.

    Conventions of the embedding.
    - A JavaScript string is the list of its UTF-16 code units ([jsstring]).
    - A JavaScript Number is an exact rational or [NaN] ([number]); quantities
      that the code only ever produces as integers (milliseconds, token
      counts, lengths) are typed [Z] or [nat].  Rounding error of IEEE-754
      arithmetic and the infinities are outside the model.
    - A property read [table[key]] on an object literal finds the entries of
      the literal and the members of [Object.prototype] ([get]); the own
      keys alone are what [Object.keys] lists ([lookup], [has_key]).
    - [Math.random()], [Date.now()], [new Date()] and the upstream
      [openai.chat.completions.create] call read from oracles carried by the
      [World]; every theorem quantifies over all oracles.
    - [async]/[await] is sequential composition in the monad [M]; a rejected
      promise is [Throw]. *)

From Stdlib Require Import List Permutation ZArith NArith QArith Qround Qabs String Ascii Bool Lia Lqa.
Import ListNotations.

(** ** Strings *)

Module JS.

Definition jsstring := list N.

(** The code units of an ASCII literal of the source. *)
Definition lit (s : string) : jsstring :=
  List.map N_of_ascii (list_ascii_of_string s).

Fixpoint jseqb (s t : jsstring) : bool :=
  match s, t with
  | [], [] => true
  | c :: s', d :: t' => (c =? d)%N && jseqb s' t'
  | _, _ => false
  end.

(** [s.startsWith(p)] *)
Fixpoint startsWith (s p : jsstring) : bool :=
  match p, s with
  | [], _ => true
  | c :: p', d :: s' => (d =? c)%N && startsWith s' p'
  | _ :: _, [] => false
  end.

(** [s.includes(p)] *)
Fixpoint includes (s p : jsstring) : bool :=
  startsWith s p ||
  match s with
  | [] => false
  | _ :: s' => includes s' p
  end.

(** WhiteSpace and LineTerminator code points of ECMAScript, the characters
    [String.prototype.trim] removes. *)
Definition whiteSpace : list N :=
  [ 9; 10; 11; 12; 13; 32; 160; 5760;
    8192; 8193; 8194; 8195; 8196; 8197; 8198; 8199; 8200; 8201; 8202;
    8232; 8233; 8239; 8287; 12288; 65279 ]%N.

Definition isWhiteSpace (c : N) : bool :=
  existsb (N.eqb c) whiteSpace.

Fixpoint trimStart (s : jsstring) : jsstring :=
  match s with
  | [] => []
  | c :: s' => if isWhiteSpace c then trimStart s' else s
  end.

Definition trimEnd (s : jsstring) : jsstring :=
  rev (trimStart (rev s)).

(** [s.trim()] *)
Definition trim (s : jsstring) : jsstring :=
  trimEnd (trimStart s).

(** [s.substring(0, n)] for a non-negative integer [n]. *)
Definition substring0 (n : nat) (s : jsstring) : jsstring :=
  firstn n s.

(** Truthiness of a string: every string but the empty one. *)
Definition truthy_string (s : jsstring) : bool :=
  match s with
  | [] => false
  | _ :: _ => true
  end.

End JS.
Export JS.

(** ** Numbers *)

Module Num.

Inductive number : Type :=
| NaN
| Num (q : Q).

Definition zero : number := Num 0.

(** [a + b] on Numbers. *)
Definition add (a b : number) : number :=
  match a, b with
  | Num x, Num y => Num (x + y)
  | _, _ => NaN
  end.

(** Truthiness of a Number: every Number but [0] and [NaN]. *)
Definition truthy (n : number) : bool :=
  match n with
  | NaN => false
  | Num q => negb (Qeq_bool q 0)
  end.

(** [Math.floor(x)] and [Math.round(x)] ([floor(x + 0.5)]) of a finite [x]. *)
Definition Math_floor (q : Q) : Z := Qfloor q.
Definition Math_round (q : Q) : Z := Qfloor (q + (1 # 2)).

(** A value that is a Number or a String, as [metadata.cost.total] is. *)
Inductive jsval : Type :=
| VNum (n : number)
| VStr (s : jsstring).

Definition truthy_val (v : jsval) : bool :=
  match v with
  | VNum n => truthy n
  | VStr s => truthy_string s
  end.

(** *** Decimal digits *)

Definition digit_code (d : N) : N := (48 + d)%N.

Definition is_digit (c : N) : bool := ((48 <=? c) && (c <=? 57))%N.

Definition digit_val (c : N) : N := (c - 48)%N.

(** The decimal digits of [n], most significant first, pushed on [acc]. *)
Fixpoint digits_fuel (fuel : nat) (n : N) (acc : jsstring) : jsstring :=
  match fuel with
  | O => acc
  | S fuel' =>
      let acc' := digit_code (n mod 10) :: acc in
      if (n / 10 =? 0)%N then acc' else digits_fuel fuel' (n / 10) acc'
  end.

Definition digits (n : N) : jsstring :=
  digits_fuel (S (N.to_nat (N.log2 n))) n [].

(** The six digits of a fraction [k < 10^6], zero-padded on the left. *)
Definition digits6 (k : N) : jsstring :=
  List.map (fun p => digit_code ((k / p) mod 10))
    [100000; 10000; 1000; 100; 10; 1]%N.

(** *** [x.toFixed(6)]

    Let [n] be the integer for which [n / 10^6 - |x|] is as close to zero as
    possible, the larger [n] if there are two; the result is the sign, the
    digits of [n] above the sixth, a point and the last six digits of [n]. *)
Definition micro (q : Q) : N :=
  Z.to_N (Qfloor (Qabs q * inject_Z 1000000 + (1 # 2))).

Definition toFixed6 (x : number) : jsstring :=
  match x with
  | NaN => lit "NaN"
  | Num q =>
      let n := micro q in
      (if Qlt_le_dec q 0 then lit "-" else []) ++
      digits (n / 1000000) ++ lit "." ++ digits6 (n mod 1000000)
  end.

(** *** [parseFloat(string)]

    Leading white space is skipped and the longest prefix that is a
    StrDecimalLiteral is read: a sign, digits with an optional point and
    fraction, an optional exponent.  No such prefix gives [NaN]. *)

(** The longest prefix of digits (as digit values) and the rest. *)
Fixpoint scan_digits (s : jsstring) : list N * jsstring :=
  match s with
  | [] => ([], [])
  | c :: s' =>
      if is_digit c
      then let (ds, rest) := scan_digits s' in (digit_val c :: ds, rest)
      else ([], s)
  end.

Definition digits_value (ds : list N) : N :=
  fold_left (fun acc d => (10 * acc + d)%N) ds 0%N.

(** The exponent part [e[+-]ddd], if one is there. *)
Definition scan_exponent (s : jsstring) : Z :=
  match s with
  | c :: s' =>
      if ((c =? 101) || (c =? 69))%N then
        let '(neg, s'') :=
          match s' with
          | d :: t => if (d =? 45)%N then (true, t)
                      else if (d =? 43)%N then (false, t) else (false, s')
          | [] => (false, s')
          end in
        match fst (scan_digits s'') with
        | [] => 0%Z
        | ds => let e := Z.of_N (digits_value ds) in if neg then (- e)%Z else e
        end
      else 0%Z
  | [] => 0%Z
  end.

(** [m * 10^e] for an integer mantissa [m]. *)
Definition scale10 (m : Z) (e : Z) : Q :=
  if (0 <=? e)%Z then inject_Z (m * 10 ^ e)
  else m # Z.to_pos (10 ^ (- e)).

Definition parseFloat_string (s : jsstring) : number :=
  let s0 := trimStart s in
  let '(neg, s1) :=
    match s0 with
    | c :: t => if (c =? 45)%N then (true, t)
                else if (c =? 43)%N then (false, t) else (false, s0)
    | [] => (false, s0)
    end in
  let (ip, s2) := scan_digits s1 in
  let (fp, s3) :=
    match s2 with
    | c :: t => if (c =? 46)%N then scan_digits t else ([], s2)
    | [] => ([], s2)
    end in
  match ip ++ fp with
  | [] => NaN
  | ds =>
      let m := Z.of_N (digits_value ds) in
      let e := (scan_exponent s3 - Z.of_nat (List.length fp))%Z in
      Num (scale10 (if neg then (- m)%Z else m) e)
  end.

(** [parseFloat(v)]: the argument is converted to a string first; a Number
    reads back as itself. *)
Definition parseFloat (v : jsval) : number :=
  match v with
  | VNum n => n
  | VStr s => parseFloat_string s
  end.

End Num.
Export Num.

(** ** Effects: the world, completions and the monad of async code *)

(** An [Error] object, as thrown by the runtime or by the provider's SDK. *)
Record Error : Type := mkError { message : jsstring }.

(** What the chat-completions endpoint of the provider is asked and what it
    answers ([response.choices[0]?.message?.content], [response.usage]). *)
Module Api.

Record ChatRequest : Type := {
  model : jsstring;
  content : jsstring;          (* messages: [{ role: 'user', content }] *)
  temperature : Q;
  max_tokens : Z
}.

Record Message : Type := { message_content : option jsstring }.
Record Choice : Type := { message : option Message }.
Record Usage : Type := {
  prompt_tokens : option Z;
  completion_tokens : option Z;
  total_tokens : option Z
}.
Record ChatCompletion : Type := {
  choices : option (list Choice);
  usage : option Usage
}.

Inductive outcome : Type :=
| Resolved (response : ChatCompletion)
| Rejected (error : Error).

End Api.

Inductive adapter : Type := OpenAIAdapter | AnthropicAdapter.

(** The oracles and how far each has been read.  [invoked] records the
    [testPrompt] calls made so far, as a spy on the two services would. *)
Record World : Type := {
  random : nat -> Q;
  random_reads : nat;
  clock : nat -> Z;
  clock_reads : nat;
  upstream : nat -> Api.ChatRequest -> Api.outcome;
  upstream_calls : nat;
  invoked : list (adapter * jsstring)
}.

Inductive completion (A : Type) : Type :=
| Return (a : A)
| Throw (e : Error).
Arguments Return {A} a.
Arguments Throw {A} e.

Definition M (A : Type) : Type := World -> completion A * World.

Definition ret {A : Type} (a : A) : M A := fun w => (Return a, w).

Definition throw {A : Type} (e : Error) : M A := fun w => (Throw e, w).

Definition bind {A B : Type} (c : M A) (k : A -> M B) : M B :=
  fun w =>
    match c w with
    | (Return a, w') => k a w'
    | (Throw e, w') => (Throw e, w')
    end.

(** [try { c } catch (error) { handler }] *)
Definition try_catch {A : Type} (c : M A) (handler : Error -> M A) : M A :=
  fun w =>
    match c w with
    | (Return a, w') => (Return a, w')
    | (Throw e, w') => handler e w'
    end.

Declare Scope js_scope.
Delimit Scope js_scope with js.
Notation "x <- c ;; k" := (bind c (fun x => k))
  (at level 61, c at next level, right associativity) : js_scope.
Notation "c ;; k" := (bind c (fun _ => k))
  (at level 61, right associativity) : js_scope.
Open Scope js_scope.

(** [Math.random()] *)
Definition Math_random : M Q :=
  fun w =>
    (Return (random w (random_reads w)),
     {| random := random w; random_reads := S (random_reads w);
        clock := clock w; clock_reads := clock_reads w;
        upstream := upstream w; upstream_calls := upstream_calls w;
        invoked := invoked w |}).

(** [Date.now()]; [new Date()] reads the same clock, and the instant stands
    for its [toISOString()]. *)
Definition Date_now : M Z :=
  fun w =>
    (Return (clock w (clock_reads w)),
     {| random := random w; random_reads := random_reads w;
        clock := clock w; clock_reads := S (clock_reads w);
        upstream := upstream w; upstream_calls := upstream_calls w;
        invoked := invoked w |}).

Definition new_Date : M Z := Date_now.

(** [await new Promise(resolve => setTimeout(resolve, ms))]: the promise
    always resolves; the time that passes shows in later clock readings. *)
Definition sleep (ms : Q) : M unit := ret tt.

(** [await openai.chat.completions.create(request)] *)
Definition chat_completions_create (request : Api.ChatRequest)
  : M Api.ChatCompletion :=
  fun w =>
    let w' :=
      {| random := random w; random_reads := random_reads w;
         clock := clock w; clock_reads := clock_reads w;
         upstream := upstream w; upstream_calls := S (upstream_calls w);
         invoked := invoked w |} in
    match upstream w (upstream_calls w) request with
    | Api.Resolved response => (Return response, w')
    | Api.Rejected error => (Throw error, w')
    end.

(** The spy: note that [testPrompt] of adapter [a] was entered for [model]. *)
Definition enter (a : adapter) (model : jsstring) : M unit :=
  fun w =>
    (Return tt,
     {| random := random w; random_reads := random_reads w;
        clock := clock w; clock_reads := clock_reads w;
        upstream := upstream w; upstream_calls := upstream_calls w;
        invoked := invoked w ++ [(a, model)] |}).

(** [for (const x of xs) { body }], the loop state threaded through. *)
Fixpoint for_of {A S : Type} (xs : list A) (body : A -> S -> M S) (s : S)
  : M S :=
  match xs with
  | [] => ret s
  | x :: xs' => s' <- body x s ;; for_of xs' body s'
  end.

(** ** The normalized result of one model *)

Module Tokens.
Record t : Type := {
  prompt : option Z;
  completion : option Z;
  total : Z
}.
End Tokens.

Module Cost.
Record t : Type := {
  input : option number;
  output : option number;
  total : jsval
}.
End Cost.

Record Metadata : Type := {
  responseTime : Z;
  tokens : option Tokens.t;
  cost : option Cost.t;
  timestamp : Z
}.

Record Result : Type := {
  success : bool;
  model : jsstring;
  provider : jsstring;
  prompt : jsstring;
  response : option jsstring;
  error : option jsstring;
  errorCode : option jsstring;
  metadata : option Metadata
}.

Record Options : Type := {
  temperature : Q;
  maxTokens : Z
}.

(** Model pricing (per 1K tokens). *)
Record Pricing : Type := {
  input : Q;
  output : Q
}.

(** The own property [key] of an object literal used as a table, as
    [Object.keys] lists them. *)
Fixpoint lookup {V : Type} (table : list (jsstring * V)) (key : jsstring)
  : option V :=
  match table with
  | [] => None
  | (k, v) :: table' => if jseqb k key then Some v else lookup table' key
  end.

(** The names every object literal inherits from [Object.prototype]. *)
Definition Object_prototype : list jsstring :=
  [ lit "constructor"; lit "__defineGetter__"; lit "__defineSetter__";
    lit "hasOwnProperty"; lit "__lookupGetter__"; lit "__lookupSetter__";
    lit "isPrototypeOf"; lit "propertyIsEnumerable"; lit "toString";
    lit "valueOf"; lit "__proto__"; lit "toLocaleString" ].

(** What the property read [table[key]] finds: an entry of the literal, a
    member of [Object.prototype] (a function or an object: truthy, and
    without the fields of an entry), or [undefined]. *)
Inductive property (V : Type) : Type :=
| Own (v : V)
| Inherited
| Undefined.
Arguments Own {V} v.
Arguments Inherited {V}.
Arguments Undefined {V}.

(** [table[key]] *)
Definition get {V : Type} (table : list (jsstring * V)) (key : jsstring)
  : property V :=
  match lookup table key with
  | Some v => Own v
  | None =>
      if existsb (jseqb key) Object_prototype then Inherited else Undefined
  end.

(** [a || b] on what two property reads find. *)
Definition or_found {V : Type} (a b : property V) : property V :=
  match a with
  | Undefined => b
  | _ => a
  end.

(** [x || d] for an optional integer and for a rational. *)
Definition orZ (x : option Z) (d : Z) : Z :=
  match x with
  | Some z => if (z =? 0)%Z then d else z
  | None => d
  end.

Definition orQ (x : Q) (d : Q) : Q :=
  if Qeq_bool x 0 then d else x.

(** [pricing.input] and [pricing.output]: [undefined] on an inherited
    member. *)
Definition price_of (f : Pricing -> Q) (pricing : property Pricing)
  : option Q :=
  match pricing with
  | Own entry => Some (f entry)
  | _ => None
  end.

(** [tokens * price / 1000]; with [undefined] for the price it is NaN. *)
Definition token_cost (tokens : Z) (price : option Q) : number :=
  match price with
  | Some x => Num (inject_Z tokens * x / inject_Z 1000)
  | None => NaN
  end.

(** The provider's client object. *)
Inductive Client : Type := mkClient (apiKey : jsstring).

(** [process.env.KEY && process.env.KEY !== 'mock_key_for_development'
     ? new Client({ apiKey }) : null] *)
Definition init_client (key : option jsstring) : option Client :=
  match key with
  | Some k =>
      if truthy_string k && negb (jseqb k (lit "mock_key_for_development"))
      then Some (mkClient k)
      else None
  | None => None
  end.

(** The double quote of the template literals. *)
Definition dquote : jsstring := [34%N].

(** [`${prompt.substring(0, 50)}${prompt.length > 50 ? '...' : ''}`] *)
Definition excerpt50 (prompt : jsstring) : jsstring :=
  substring0 50 prompt ++
  (if (50 <? List.length prompt)%nat then lit "..." else []).

(** [new TypeError(...)] of reading a property of [undefined]. *)
Definition TypeError_undefined (property : string) : Error :=
  mkError (lit "Cannot read properties of undefined (reading '"
           ++ lit property ++ lit "')").

(** [s || d] on an optional string. *)
Definition orS (s : option jsstring) (d : jsstring) : jsstring :=
  match s with
  | Some x => if truthy_string x then x else d
  | None => d
  end.

(** Optional chaining [o?.f]. *)
Definition chain {A B : Type} (o : option A) (f : A -> option B) : option B :=
  match o with
  | Some a => f a
  | None => None
  end.

(** An entry of the model catalog, as [getAvailableModels] builds it. *)
Module Catalog.
Record entry : Type := {
  id : jsstring;
  name : jsstring;
  provider : jsstring;
  description : jsstring;
  maxTokens : Z;
  costPer1kTokens : Q;
  capabilities : list jsstring;
  status : jsstring
}.
End Catalog.

(** [table[key].output] for an own key of the table, as the catalogs read it;
    reading [output] of a missing entry throws. *)
Definition output_of (table : list (jsstring * Pricing)) (key : jsstring)
  : completion Q :=
  match lookup table key with
  | Some pricing => Return (output pricing)
  | None => Throw (TypeError_undefined "output")
  end.

(** [Object.keys(table).includes(key)] *)
Definition has_key {V : Type} (table : list (jsstring * V)) (key : jsstring)
  : bool :=
  existsb (jseqb key) (List.map fst table).

(** A synchronous call inside async code. *)
Definition lift {A : Type} (c : completion A) : M A := fun w => (c, w).

(** ** services/openai.js *)

Module OpenAI.

Definition MODEL_PRICING : list (jsstring * Pricing) :=
  [ (lit "gpt-3.5-turbo", {| input := 1 # 1000; output := 2 # 1000 |});
    (lit "gpt-4", {| input := 1 # 100; output := 3 # 100 |});
    (lit "gpt-4-turbo", {| input := 1 # 100; output := 3 # 100 |}) ].

(** The mock branch, taken when no client was created. *)
Definition mock (prompt model : jsstring) : M Result :=
  r <- Math_random ;;
  let responseTime := inject_Z 1000 + r * inject_Z 1500 in
  sleep responseTime ;;
  r_tokens <- Math_random ;;
  r_cost <- Math_random ;;
  now <- new_Date ;;
  ret {| success := true;
         model := model;
         provider := lit "OpenAI";
         prompt := prompt;
         response := Some
           (lit "Mock response from " ++ model ++
            lit ": This would be a real AI response if you had configured your OpenAI API key. Your prompt was: "
            ++ dquote ++ excerpt50 prompt ++ dquote);
         error := None;
         errorCode := None;
         metadata := Some
           {| responseTime := Math_round responseTime;
              tokens := Some
                {| Tokens.prompt := None;
                   Tokens.completion := None;
                   Tokens.total := Math_floor (r_tokens * inject_Z 200) + 50 |};
              cost := Some
                {| Cost.input := None;
                   Cost.output := None;
                   Cost.total := VStr (toFixed6 (Num (r_cost * (1 # 100)))) |};
              timestamp := now |} |}.

(** The real API call. *)
Definition live (startTime : Z) (prompt model : jsstring) (options : Options)
  : M Result :=
  response <- chat_completions_create
    {| Api.model := model;
       Api.content := prompt;
       Api.temperature := orQ (temperature options) (7 # 10);
       Api.max_tokens := orZ (Some (maxTokens options)) 500 |} ;;
  endTime <- Date_now ;;
  responseText <-
    match Api.choices response with
    | None => throw (TypeError_undefined "0")
    | Some choices =>
        ret (orS (chain (chain (nth_error choices 0) Api.message)
                        Api.message_content)
                 (lit "No response generated"))
    end ;;
  let usage :=
    match Api.usage response with
    | Some u => u
    | None => {| Api.prompt_tokens := None; Api.completion_tokens := None;
                 Api.total_tokens := None |}
    end in
  match or_found (get MODEL_PRICING model)
                 (get MODEL_PRICING (lit "gpt-3.5-turbo")) with
  | Undefined => throw (TypeError_undefined "input")
  | pricing =>
      let inputCost :=
        token_cost (orZ (Api.prompt_tokens usage) 0) (price_of input pricing) in
      let outputCost :=
        token_cost (orZ (Api.completion_tokens usage) 0)
                   (price_of output pricing) in
      let totalCost := add inputCost outputCost in
      now <- new_Date ;;
      ret {| success := true;
             model := model;
             provider := lit "OpenAI";
             prompt := prompt;
             response := Some responseText;
             error := None;
             errorCode := None;
             metadata := Some
               {| responseTime := endTime - startTime;
                  tokens := Some
                    {| Tokens.prompt := Some (orZ (Api.prompt_tokens usage) 0);
                       Tokens.completion :=
                         Some (orZ (Api.completion_tokens usage) 0);
                       Tokens.total := orZ (Api.total_tokens usage) 0 |};
                  cost := Some
                    {| Cost.input :=
                         Some (parseFloat (VStr (toFixed6 inputCost)));
                       Cost.output :=
                         Some (parseFloat (VStr (toFixed6 outputCost)));
                       Cost.total :=
                         VNum (parseFloat (VStr (toFixed6 totalCost))) |};
                  timestamp := now |} |}
  end.

(** The [catch (error)] block. *)
Definition failed (startTime : Z) (prompt model : jsstring) (error : Error)
  : M Result :=
  endTime <- Date_now ;;
  now <- new_Date ;;
  ret {| success := false;
         model := model;
         provider := lit "OpenAI";
         prompt := prompt;
         response := None;
         error := Some (message error);
         errorCode := None;
         metadata := Some
           {| responseTime := endTime - startTime;
              tokens := None;
              cost := None;
              timestamp := now |} |}.

(** [async function testPrompt(prompt, model, options)]; [openai] is the
    module's client, [null] when no usable API key was configured. *)
Definition testPrompt (openai : option Client)
  (prompt model : jsstring) (options : Options) : M Result :=
  enter OpenAIAdapter model ;;
  startTime <- Date_now ;;
  try_catch
    (match openai with
     | None => mock prompt model
     | Some _ => live startTime prompt model options
     end)
    (failed startTime prompt model).

(** Get available OpenAI models. *)
Definition getAvailableModels : completion (list Catalog.entry) :=
  match output_of MODEL_PRICING (lit "gpt-3.5-turbo") with
  | Throw e => Throw e
  | Return cost35 =>
      match output_of MODEL_PRICING (lit "gpt-4") with
      | Throw e => Throw e
      | Return cost4 =>
          Return
            [ {| Catalog.id := lit "gpt-3.5-turbo";
                 Catalog.name := lit "GPT-3.5 Turbo";
                 Catalog.provider := lit "OpenAI";
                 Catalog.description := lit "Fast and efficient for most tasks";
                 Catalog.maxTokens := 4096;
                 Catalog.costPer1kTokens := cost35;
                 Catalog.capabilities := [lit "chat"; lit "completion"];
                 Catalog.status := lit "available" |};
              {| Catalog.id := lit "gpt-4";
                 Catalog.name := lit "GPT-4";
                 Catalog.provider := lit "OpenAI";
                 Catalog.description := lit "Most capable model for complex tasks";
                 Catalog.maxTokens := 8192;
                 Catalog.costPer1kTokens := cost4;
                 Catalog.capabilities := [lit "chat"; lit "completion"];
                 Catalog.status := lit "available" |} ]
      end
  end.

Definition isModelSupported (model : jsstring) : bool :=
  has_key MODEL_PRICING model.

End OpenAI.

(** ** services/anthropic.js *)

Module Anthropic.

Definition MODEL_PRICING : list (jsstring * Pricing) :=
  [ (lit "claude-3-sonnet-20240229", {| input := 3 # 1000; output := 15 # 1000 |});
    (lit "claude-3-opus-20240229", {| input := 15 # 1000; output := 75 # 1000 |}) ].

(** Both branches answer with a mock; only the response text differs. *)
Definition mock (prompt model response_text : jsstring) : M Result :=
  r <- Math_random ;;
  let responseTime := inject_Z 1200 + r * inject_Z 1800 in
  sleep responseTime ;;
  r_tokens <- Math_random ;;
  r_cost <- Math_random ;;
  now <- new_Date ;;
  ret {| success := true;
         model := model;
         provider := lit "Anthropic";
         prompt := prompt;
         response := Some response_text;
         error := None;
         errorCode := None;
         metadata := Some
           {| responseTime := Math_round responseTime;
              tokens := Some
                {| Tokens.prompt := None;
                   Tokens.completion := None;
                   Tokens.total := Math_floor (r_tokens * inject_Z 250) + 60 |};
              cost := Some
                {| Cost.input := None;
                   Cost.output := None;
                   Cost.total := VStr (toFixed6 (Num (r_cost * (2 # 100)))) |};
              timestamp := now |} |}.

Definition failed (startTime : Z) (prompt model : jsstring) (error : Error)
  : M Result :=
  endTime <- Date_now ;;
  now <- new_Date ;;
  ret {| success := false;
         model := model;
         provider := lit "Anthropic";
         prompt := prompt;
         response := None;
         error := Some (message error);
         errorCode := None;
         metadata := Some
           {| responseTime := endTime - startTime;
              tokens := None;
              cost := None;
              timestamp := now |} |}.

(** [async function testPrompt(prompt, model, options)]; [anthropic] is the
    module's client. *)
Definition testPrompt (anthropic : option Client)
  (prompt model : jsstring) (options : Options) : M Result :=
  enter AnthropicAdapter model ;;
  startTime <- Date_now ;;
  try_catch
    (match anthropic with
     | None =>
         mock prompt model
           (lit "Mock response from " ++ model ++
            lit ": This would be a real Claude response if you had configured your Anthropic API key. Your prompt was: "
            ++ dquote ++ excerpt50 prompt ++ dquote)
     | Some _ =>
         mock prompt model
           (lit "Mock Claude response: I understand you want me to respond to "
            ++ dquote ++ substring0 30 prompt ++ lit "..." ++ dquote ++
            lit " - this would be a real Claude response with proper API integration.")
     end)
    (failed startTime prompt model).

(** Get available Anthropic models. *)
Definition getAvailableModels : completion (list Catalog.entry) :=
  match output_of MODEL_PRICING (lit "claude-3-sonnet-20240229") with
  | Throw e => Throw e
  | Return costSonnet =>
      match output_of MODEL_PRICING (lit "claude-3-opus-20240229") with
      | Throw e => Throw e
      | Return costOpus =>
          Return
            [ {| Catalog.id := lit "claude-3-sonnet-20240229";
                 Catalog.name := lit "Claude 3 Sonnet";
                 Catalog.provider := lit "Anthropic";
                 Catalog.description := lit "Balanced performance and speed";
                 Catalog.maxTokens := 200000;
                 Catalog.costPer1kTokens := costSonnet;
                 Catalog.capabilities := [lit "chat"; lit "completion"];
                 Catalog.status := lit "available" |};
              {| Catalog.id := lit "claude-3-opus-20240229";
                 Catalog.name := lit "Claude 3 Opus";
                 Catalog.provider := lit "Anthropic";
                 Catalog.description := lit "Most capable Claude model";
                 Catalog.maxTokens := 200000;
                 Catalog.costPer1kTokens := costOpus;
                 Catalog.capabilities := [lit "chat"; lit "completion"];
                 Catalog.status := lit "available" |} ]
      end
  end.

Definition isModelSupported (model : jsstring) : bool :=
  has_key MODEL_PRICING model.

End Anthropic.

(** ** server.js: [POST /api/prompts/test] *)

Module Server.

(** [req.body]: a field is [None] when the JSON body leaves it out. *)
Record RequestBody : Type := {
  body_prompt : option jsstring;
  body_models : option (list jsstring);
  body_iterations : option Z;
  body_temperature : option Q;
  body_maxTokens : option Z
}.

(** The clients of the two services, created when the modules load. *)
Record Services : Type := {
  openai : option Client;
  anthropic : option Client
}.

Record Summary : Type := {
  totalModels : nat;
  successfulModels : nat;
  failedModels : nat;
  totalTokens : Z;
  totalCost : number;
  avgResponseTime : Z
}.

Record TestReport : Type := {
  testId : Z;                  (* `test_${Date.now()}` *)
  report_prompt : jsstring;
  report_models : list jsstring;
  iterations : Z;
  results : list Result;
  summary : Summary;
  report_timestamp : Z
}.

(** [res.status(code).json(...)] *)
Inductive Response : Type :=
| Ok (report : TestReport)                         (* 200, success: true *)
| BadRequest (error : jsstring)                    (* 400 *)
| InternalError (error message : jsstring) (timestamp : Z).   (* 500 *)

Definition status (r : Response) : Z :=
  match r with
  | Ok _ => 200
  | BadRequest _ => 400
  | InternalError _ _ _ => 500
  end.

(** The result built in place for a model id no service claims. *)
Definition unsupported (prompt modelId : jsstring) : M Result :=
  now <- new_Date ;;
  ret {| success := false;
         model := modelId;
         provider := lit "Unknown";
         prompt := prompt;
         response := None;
         error := Some (lit "Unsupported model: " ++ modelId);
         errorCode := Some (lit "UNSUPPORTED_MODEL");
         metadata := Some
           {| responseTime := 0;
              tokens := None;
              cost := None;
              timestamp := now |} |}.

(** Route to appropriate service based on model: the body of the loop,
    up to [results.push(result)]. *)
Definition test_model (services : Services) (prompt : jsstring)
  (options : Options) (modelId : jsstring) : M Result :=
  if startsWith modelId (lit "gpt-") || includes modelId (lit "gpt") then
    OpenAI.testPrompt (openai services) prompt modelId options
  else if startsWith modelId (lit "claude-") then
    Anthropic.testPrompt (anthropic services) prompt modelId options
  else
    unsupported prompt modelId.

(** [r.metadata?.tokens?.total], [r.metadata?.cost?.total] and
    [r.metadata?.responseTime]. *)
Definition tokens_total (r : Result) : option Z :=
  chain (chain (metadata r) tokens) (fun t => Some (Tokens.total t)).

Definition cost_total (r : Result) : option jsval :=
  chain (chain (metadata r) cost) (fun c => Some (Cost.total c)).

Definition response_time (r : Result) : option Z :=
  chain (metadata r) (fun m => Some (responseTime m)).

(** [v || 0] for the cost, a Number or a String. *)
Definition or0 (v : option jsval) : jsval :=
  match v with
  | Some x => if truthy_val x then x else VNum zero
  | None => VNum zero
  end.

(** Calculate summary statistics. *)
Definition summarize (models : list jsstring) (results : list Result)
  : Summary :=
  let successfulResults := filter (fun r => success r) results in
  let failedResults := filter (fun r => negb (success r)) results in
  let totalTokens :=
    fold_left (fun sum r => let tokens := orZ (tokens_total r) 0 in
                            (sum + tokens)%Z)
              successfulResults 0%Z in
  let totalCostRaw :=
    fold_left (fun sum r => let cost := or0 (cost_total r) in
                            add sum (parseFloat cost))
              successfulResults zero in
  let avgResponseTime :=
    if (0 <? List.length successfulResults)%nat
    then Math_round
           (inject_Z (fold_left (fun sum r => (sum + orZ (response_time r) 0)%Z)
                                successfulResults 0%Z)
            / inject_Z (Z.of_nat (List.length successfulResults)))
    else 0%Z in
  {| totalModels := List.length models;
     successfulModels := List.length successfulResults;
     failedModels := List.length failedResults;
     totalTokens := totalTokens;
     totalCost := parseFloat (VStr (toFixed6 totalCostRaw));
     avgResponseTime := avgResponseTime |}.

(** The handler.  Defaults of the destructuring: [iterations = 1],
    [temperature = 0.7], [maxTokens = 500]. *)
Definition prompts_test (services : Services) (body : RequestBody)
  : M Response :=
  try_catch
    (let iterations := match body_iterations body with Some i => i | None => 1%Z end in
     let temperature := match body_temperature body with Some t => t | None => 7 # 10 end in
     let maxTokens := match body_maxTokens body with Some m => m | None => 500%Z end in
     match body_prompt body with
     | None => ret (BadRequest (lit "Prompt is required and cannot be empty"))
     | Some prompt =>
         if negb (truthy_string prompt) || negb (truthy_string (trim prompt))
         then ret (BadRequest (lit "Prompt is required and cannot be empty"))
         else
           match body_models body with
           | None => ret (BadRequest (lit "At least one model must be selected"))
           | Some models =>
               if (List.length models =? 0)%nat
               then ret (BadRequest (lit "At least one model must be selected"))
               else
                 let options := {| temperature := temperature;
                                   maxTokens := maxTokens |} in
                 results <-
                   for_of models
                     (fun modelId results =>
                        result <- test_model services prompt options modelId ;;
                        ret (results ++ [result]))
                     [] ;;
                 let summary := summarize models results in
                 id <- Date_now ;;
                 now <- new_Date ;;
                 ret (Ok {| testId := id;
                            report_prompt := prompt;
                            report_models := models;
                            iterations := iterations;
                            results := results;
                            summary := summary;
                            report_timestamp := now |})
           end
     end)
    (fun error =>
       now <- new_Date ;;
       ret (InternalError
              (lit "Internal server error during prompt testing")
              (message error) now)).

(** [GET /api/models] *)
Record ModelsReport : Type := {
  listed : list Catalog.entry;           (* models *)
  count : nat;
  providers_openai : nat;
  providers_anthropic : nat;
  models_timestamp : Z
}.

Inductive ModelsResponse : Type :=
| ModelsOk (report : ModelsReport)                  (* 200, success: true *)
| ModelsError (error message : jsstring).           (* 500 *)

Definition models : M ModelsResponse :=
  try_catch
    (openaiModels <- lift OpenAI.getAvailableModels ;;
     anthropicModels <- lift Anthropic.getAvailableModels ;;
     let allModels := openaiModels ++ anthropicModels in
     now <- new_Date ;;
     ret (ModelsOk {| listed := allModels;
                      count := List.length allModels;
                      providers_openai := List.length openaiModels;
                      providers_anthropic := List.length anthropicModels;
                      models_timestamp := now |}))
    (fun error =>
       ret (ModelsError (lit "Failed to fetch available models")
                        (message error))).

End Server.

(** ** The vocabulary of the specification *)

Definition starts_with (s p : jsstring) : Prop :=
  exists t, s = p ++ t.

Definition contains (s p : jsstring) : Prop :=
  exists a b, s = a ++ p ++ b.

(** Empty, or white space from end to end. *)
Definition whitespace_only (s : jsstring) : Prop :=
  Forall (fun c => In c whiteSpace) s.

(** A model id no classifier matches. *)
Definition unsupported_id (id : jsstring) : Prop :=
  ~ contains id (lit "gpt") /\ ~ starts_with id (lit "claude-").

(** [q] rounded to six decimal places: the nearest multiple of [10^-6], the
    one away from zero on a tie. *)
Definition round6 (q : Q) : Q :=
  (if Qlt_le_dec q 0 then - Z.of_N (micro q) else Z.of_N (micro q))%Z
  # 1000000.

Definition round6n (x : number) : number :=
  match x with
  | NaN => NaN
  | Num q => Num (round6 q)
  end.

(** Two Numbers with the same value. *)
Definition same_number (x y : number) : Prop :=
  match x, y with
  | NaN, NaN => True
  | Num p, Num q => p == q
  | _, _ => False
  end.

(** The fields of a ModelResult as the specification names them, read off
    the record: [tokensTotal] is [metadata.tokens.total], [costTotal] is
    [metadata.cost.total] as a number and [responseTimeMs] is
    [metadata.responseTime]; each is [0] where the result has no such
    field. *)
Definition tokensTotal (r : Result) : Z :=
  match metadata r with
  | Some md =>
      match tokens md with
      | Some tk => Tokens.total tk
      | None => 0
      end
  | None => 0
  end.

Definition costTotal (r : Result) : number :=
  match metadata r with
  | Some md =>
      match cost md with
      | Some c =>
          match Cost.total c with
          | VNum x => x
          | VStr s => parseFloat_string s
          end
      | None => zero
      end
  | None => zero
  end.

Definition responseTimeMs (r : Result) : Z :=
  match metadata r with
  | Some md => responseTime md
  | None => 0
  end.

Definition successes (results : list Result) : list Result :=
  filter (fun r => success r) results.

Definition failures (results : list Result) : list Result :=
  filter (fun r => negb (success r)) results.

Definition sumZ (l : list Z) : Z := fold_right Z.add 0%Z l.

Definition sum_numbers (l : list number) : number := fold_right add zero l.

(** The arithmetic mean of a non-empty list of integers. *)
Definition mean (l : list Z) : Q :=
  inject_Z (sumZ l) / inject_Z (Z.of_nat (List.length l)).

(** The run of the loop over the requested models: each model id in turn is
    handed to [step], which returns the result for it. *)
Inductive run_models (step : jsstring -> M Result)
  : list jsstring -> World -> list Result -> World -> Prop :=
| run_done w : run_models step [] w [] w
| run_next id ids w r w1 rs w2 :
    step id w = (Return r, w1) ->
    run_models step ids w1 rs w2 ->
    run_models step (id :: ids) w (r :: rs) w2.

(** The request passes validation. *)
Definition valid_request (body : Server.RequestBody)
  (prompt : jsstring) (models : list jsstring) : Prop :=
  Server.body_prompt body = Some prompt /\ ~ whitespace_only prompt /\
  Server.body_models body = Some models /\ models <> [].

(** The options the handler passes to the adapters. *)
Definition options_of (body : Server.RequestBody) : Options :=
  {| temperature :=
       match Server.body_temperature body with Some t => t | None => 7 # 10 end;
     maxTokens :=
       match Server.body_maxTokens body with Some m => m | None => 500%Z end |}.

(** The names of the providers, as results carry them. *)
Definition provider_name (a : adapter) : jsstring :=
  match a with
  | OpenAIAdapter => lit "OpenAI"
  | AnthropicAdapter => lit "Anthropic"
  end.

(** The two variants of a ModelResult. *)
Definition success_variant (r : Result) : Prop :=
  success r = true /\ (exists text, response r = Some text) /\ error r = None /\
  exists md tk c, metadata r = Some md /\ tokens md = Some tk /\ cost md = Some c.

Definition failure_variant (r : Result) : Prop :=
  success r = false /\ response r = None /\ (exists msg, error r = Some msg) /\
  exists md, metadata r = Some md /\ tokens md = None /\ cost md = None.

(** A result in one of the two variants, for adapter [a], model [m] and
    prompt [p]. *)
Definition normalized_result (a : adapter) (p m : jsstring) (r : Result)
  : Prop :=
  model r = m /\ prompt r = p /\ provider r = provider_name a /\
  errorCode r = None /\
  (success_variant r \/ failure_variant r).

(** The cost of [r] reads as a number, and the handler reads the same. *)
Definition cost_read_ok (r : Result) : Prop :=
  exists p q, parseFloat (Server.or0 (Server.cost_total r)) = Num p /\
              costTotal r = Num q /\ p == q.

(** A normalized result of adapter [a] for model [m] and prompt [p]. *)
Definition adapter_result (a : adapter) (p m : jsstring) (r : Result) : Prop :=
  model r = m /\ prompt r = p /\ provider r = provider_name a /\
  errorCode r = None /\
  (success_variant r /\ cost_read_ok r \/ failure_variant r).

(** The request [testPrompt] sends to the provider. *)
Definition chat_request (p model : jsstring) (options : Options)
  : Api.ChatRequest :=
  {| Api.model := model;
     Api.content := p;
     Api.temperature := orQ (temperature options) (7 # 10);
     Api.max_tokens := orZ (Some (maxTokens options)) 500 |}.

(** The failure built for an unsupported model id. *)
Definition unsupported_result (p id : jsstring) (r : Result) : Prop :=
  success r = false /\ model r = id /\ provider r = lit "Unknown" /\
  prompt r = p /\ response r = None /\
  error r = Some (lit "Unsupported model: " ++ id) /\
  errorCode r = Some (lit "UNSUPPORTED_MODEL") /\
  exists md, metadata r = Some md /\ responseTime md = 0%Z /\
             tokens md = None /\ cost md = None.

(** What one turn of the loop does for [id], by the class of the id. *)
Definition routed (services : Server.Services) (p : jsstring)
  (options : Options) (id : jsstring) (w : World) (r : Result) (w' : World)
  : Prop :=
  (contains id (lit "gpt") /\
   adapter_result OpenAIAdapter p id r /\
   invoked w' = invoked w ++ [(OpenAIAdapter, id)] /\
   (Server.openai services = None -> success r = true) /\
   (forall e, Server.openai services <> None ->
      upstream w (upstream_calls w) (chat_request p id options)
        = Api.Rejected e ->
      success r = false /\ error r = Some (message e)))
  \/
  (~ contains id (lit "gpt") /\ starts_with id (lit "claude-") /\
   adapter_result AnthropicAdapter p id r /\
   invoked w' = invoked w ++ [(AnthropicAdapter, id)] /\
   success r = true)
  \/
  (unsupported_id id /\ unsupported_result p id r /\ invoked w' = invoked w).

(** The request fails validation. *)
Definition invalid_request (body : Server.RequestBody) : Prop :=
  match Server.body_prompt body with
  | Some p => whitespace_only p
  | None => True
  end \/
  match Server.body_models body with
  | Some models => models = []
  | None => True
  end.

(** [r] is what some turn of the loop produced for [id]. *)
Definition produced (services : Server.Services) (p : jsstring)
  (options : Options) (id : jsstring) (r : Result) : Prop :=
  model r = id /\ prompt r = p /\
  exists w w', routed services p options id w r w'.

(** The loop hands [id] to adapter [a]. *)
Definition routes_to (a : adapter) (id : jsstring) : Prop :=
  forall services p options w,
    Server.test_model services p options id w
    = match a with
      | OpenAIAdapter =>
          OpenAI.testPrompt (Server.openai services) p id options w
      | AnthropicAdapter =>
          Anthropic.testPrompt (Server.anthropic services) p id options w
      end.

(** The error codes of the code base. *)
Definition error_codes : list jsstring := [lit "UNSUPPORTED_MODEL"].

(** ** Sample worlds and requests *)

Module Sample.

Definition usage : Api.Usage :=
  {| Api.prompt_tokens := Some 12%Z;
     Api.completion_tokens := Some 30%Z;
     Api.total_tokens := Some 42%Z |}.

Definition answer : Api.ChatCompletion :=
  {| Api.choices :=
       Some [ {| Api.message :=
                   Some {| Api.message_content := Some (lit "Hi there") |} |} ];
     Api.usage := Some usage |}.

(** The provider answers every call. *)
Definition answering : World :=
  {| random := fun n => 1 # Pos.of_succ_nat (S n);
     random_reads := 0;
     clock := fun n => Z.of_nat n;
     clock_reads := 0;
     upstream := fun _ _ => Api.Resolved answer;
     upstream_calls := 0;
     invoked := [] |}.

(** The provider rejects every call. *)
Definition rejecting : World :=
  {| random := fun n => 1 # Pos.of_succ_nat (S n);
     random_reads := 0;
     clock := fun n => Z.of_nat n;
     clock_reads := 0;
     upstream := fun _ _ => Api.Rejected (mkError (lit "Rate limit exceeded"));
     upstream_calls := 0;
     invoked := [] |}.

Definition no_keys : Server.Services :=
  {| Server.openai := init_client None;
     Server.anthropic := init_client None |}.

Definition with_keys : Server.Services :=
  {| Server.openai := init_client (Some (lit "sk-live"));
     Server.anthropic := init_client (Some (lit "sk-ant-live")) |}.

Definition request (prompt : string) (models : list string)
  : Server.RequestBody :=
  {| Server.body_prompt := Some (lit prompt);
     Server.body_models := Some (List.map lit models);
     Server.body_iterations := None;
     Server.body_temperature := None;
     Server.body_maxTokens := None |}.

Definition mixed : Server.RequestBody :=
  request "Hello" ["gpt-4"; "claude-3-opus-20240229"; "unknown-model"]%string.

Definition several : Server.RequestBody :=
  request "Hello"
    ["gpt-4"; "claude-3-opus-20240229"; "gpt-3.5-turbo"; "unknown-model"]%string.

(** The report of a run, when the handler answered 200. *)
Definition report_of (c : completion Server.Response * World)
  : option Server.TestReport :=
  match fst c with
  | Return (Server.Ok report) => Some report
  | _ => None
  end.

(** ASCII letters lowered, for the examples. *)
Definition ascii_lower (s : jsstring) : jsstring :=
  List.map (fun c => if ((65 <=? c) && (c <=? 90))%N then (c + 32)%N else c) s.

(** The catalog [GET /api/models] serves. *)
Definition catalog : list Catalog.entry :=
  match OpenAI.getAvailableModels, Anthropic.getAvailableModels with
  | Return openaiModels, Return anthropicModels =>
      openaiModels ++ anthropicModels
  | _, _ => []
  end.

End Sample.

(** ** More vocabulary: the services *)

(** The adapter the routing picks for a model id, if any. *)
Definition adapter_for (id : jsstring) : option adapter :=
  if startsWith id (lit "gpt-") || includes id (lit "gpt") then
    Some OpenAIAdapter
  else if startsWith id (lit "claude-") then Some AnthropicAdapter
  else None.

(** The adapter calls a list of model ids asks for, in order. *)
Definition expected_calls (models : list jsstring)
  : list (adapter * jsstring) :=
  flat_map (fun id => match adapter_for id with
                      | Some a => [(a, id)]
                      | None => []
                      end) models.

(** The prices a live OpenAI call is billed at, for a model id that names no
    member of [Object.prototype]. *)
Definition OpenAI_price (m : jsstring) : Pricing :=
  match lookup OpenAI.MODEL_PRICING m with
  | Some pricing => pricing
  | None => {| input := 1 # 1000; output := 2 # 1000 |}
  end.

(** The token counts of an answer, [0] where the provider gives none. *)
Definition usage_count (resp : Api.ChatCompletion)
  (field : Api.Usage -> option Z) : Z :=
  match Api.usage resp with
  | Some u => orZ (field u) 0
  | None => 0%Z
  end.

(** The text of the first choice of an answer, if it has one. *)
Definition first_content (choices : list Api.Choice) : option jsstring :=
  match choices with
  | [] => None
  | c :: _ =>
      match Api.message c with
      | Some msg =>
          match Api.message_content msg with
          | Some (ch :: text) => Some (ch :: text)
          | _ => None
          end
      | None => None
      end
  end.

(** The world with another provider behind the upstream call. *)
Definition with_upstream
  (f : nat -> Api.ChatRequest -> Api.outcome) (w : World) : World :=
  {| random := random w; random_reads := random_reads w;
     clock := clock w; clock_reads := clock_reads w;
     upstream := f; upstream_calls := upstream_calls w;
     invoked := invoked w |}.

(** The three random numbers a mock reads lie in [0, 1). *)
Definition unit_randoms (w : World) : Prop :=
  forall k, (k < 3)%nat ->
    0 <= random w (random_reads w + k) /\ random w (random_reads w + k) < 1.

(** ** config/database.js

    The module keeps one variable, [db], the handle of the open database.
    The file system and sqlite3 are oracles: [dir_exists] answers the
    successive [fs.existsSync] calls, [io_error] gives the outcome of the
    successive calls that can fail ([mkdirSync], opening, [run], [exec],
    [close]).  Callbacks run in the order the calls are made, one call of
    the module at a time; [journal] records the calls, as a spy on [fs] and
    [sqlite3] would. *)

Module Database.

(** The objects [new sqlite3.Database(...)] creates, numbered. *)
Inductive Handle : Type := handle (n : nat).

Inductive Op : Type :=
| Mkdir
| Open (h : Handle)
| Pragma (h : Handle)           (* PRAGMA foreign_keys = ON *)
| Exec (h : Handle)             (* the CREATE TABLE statements *)
| Close (h : Handle).

Record State : Type := {
  db : option Handle;
  created : nat;                         (* handles created so far *)
  dir_exists : nat -> bool;
  dir_checks : nat;
  io_error : nat -> option Error;
  io_calls : nat;
  journal : list Op
}.

Definition P (A : Type) : Type := State -> completion A * State.

(** [fs.existsSync(dbDir)] *)
Definition existsSync : State -> bool * State :=
  fun s =>
    (dir_exists s (dir_checks s),
     {| db := db s; created := created s;
        dir_exists := dir_exists s; dir_checks := S (dir_checks s);
        io_error := io_error s; io_calls := io_calls s;
        journal := journal s |}).

(** One call that can fail: it is journalled and the oracle gives the error,
    if any. *)
Definition io (op : Op) : State -> option Error * State :=
  fun s =>
    (io_error s (io_calls s),
     {| db := db s; created := created s;
        dir_exists := dir_exists s; dir_checks := dir_checks s;
        io_error := io_error s; io_calls := S (io_calls s);
        journal := journal s ++ [op] |}).

(** [db = new sqlite3.Database(...)]: a new object, assigned at once. *)
Definition new_Database : State -> Handle * State :=
  fun s =>
    (handle (created s),
     {| db := Some (handle (created s)); created := S (created s);
        dir_exists := dir_exists s; dir_checks := dir_checks s;
        io_error := io_error s; io_calls := io_calls s;
        journal := journal s |}).

(** [db = null] *)
Definition clear_db (s : State) : State :=
  {| db := None; created := created s;
     dir_exists := dir_exists s; dir_checks := dir_checks s;
     io_error := io_error s; io_calls := io_calls s;
     journal := journal s |}.

Definition null_exec : Error :=
  mkError (lit "Cannot read properties of null (reading 'exec')").

(** Create database tables: [db.exec(createTablesSQL, callback)] on the
    current [db]. *)
Definition createTables : P unit :=
  fun s =>
    match db s with
    | None => (Throw null_exec, s)
    | Some h =>
        match io (Exec h) s with
        | (Some err, s') => (Throw err, s')
        | (None, s') => (Return tt, s')
        end
    end.

(** Initialize database connection and create tables; resolves with [db]. *)
Definition initializeDatabase : P (option Handle) :=
  fun s =>
    (* create database directory if it doesn't exist *)
    let (found, s0) := existsSync s in
    let (failed, s1) := if negb found then io Mkdir s0 else (None, s0) in
    match failed with
    | Some err => (Throw err, s1)
    | None =>
        let (h, s2) := new_Database s1 in
        match io (Open h) s2 with
        | (Some err, s3) => (Throw err, s3)
        | (None, s3) =>
            (* enable foreign keys *)
            match io (Pragma h) s3 with
            | (Some err, s4) => (Throw err, s4)
            | (None, s4) =>
                match createTables s4 with
                | (Throw err, s5) => (Throw err, s5)
                | (Return _, s5) => (Return (db s5), s5)
                end
            end
        end
    end.

(** Get database instance. *)
Definition getDatabase : P Handle :=
  fun s =>
    match db s with
    | None =>
        (Throw (mkError
                  (lit "Database not initialized. Call initializeDatabase() first.")),
         s)
    | Some h => (Return h, s)
    end.

(** Close database connection. *)
Definition closeDatabase : P unit :=
  fun s =>
    match db s with
    | None => (Return tt, s)
    | Some h =>
        match io (Close h) s with
        | (Some err, s') => (Throw err, s')
        | (None, s') => (Return tt, clear_db s')
        end
    end.

(** The module as loaded: [let db = null]. *)
Definition loaded (dirs : nat -> bool) (errors : nat -> option Error) : State :=
  {| db := None; created := 0;
     dir_exists := dirs; dir_checks := 0;
     io_error := errors; io_calls := 0; journal := [] |}.

(** The calls [initializeDatabase] makes when nothing fails. *)
Definition init_calls (found : bool) (h : Handle) : list Op :=
  (if found then [] else [Mkdir]) ++ [Open h; Pragma h; Exec h].

(** Every handle held was created before. *)
Definition created_before (s : State) : Prop :=
  forall n, db s = Some (handle n) -> (n < created s)%nat.

End Database.

(** ** frontend/src/services/api.js *)

Module ApiService.

(** What [fetch] and [response.json()] give: [response.ok], the text
    [`HTTP ${response.status}: ${response.statusText}`] and the parsed
    body. *)
Record Fetched (D : Type) : Type := {
  ok : bool;
  status_line : jsstring;
  data : D
}.
Arguments ok {D} _.
Arguments status_line {D} _.
Arguments data {D} _.

(** Generic request method with error handling.  [fetch] is the call
    [fetch(url, config)] followed by [response.json()]; it throws when the
    network fails or the body is not JSON.  [error_of] reads [data.error]. *)
Definition request {D : Type} (error_of : D -> option jsstring)
  (fetch : M (Fetched D)) : M D :=
  try_catch
    (response <- fetch ;;
     if negb (ok response)
     then throw (mkError (orS (error_of (data response))
                              (status_line response)))
     else ret (data response))
    (fun error =>
       throw (mkError (orS (Some (message error))
                           (lit "Network request failed")))).

(** [data.error] of a body the test endpoint sends. *)
Definition test_error (body : Server.Response) : option jsstring :=
  match body with
  | Server.Ok _ => None
  | Server.BadRequest error => Some error
  | Server.InternalError error _ _ => Some error
  end.

(** What [apiService.testPrompt] returns. *)
Record TestOutcome : Type := {
  success : bool;
  testId : option Z;
  results : list Result;
  summary : option Server.Summary;
  timestamp : option Z;
  error : option jsstring
}.

(** [x || d] for an optional rational. *)
Definition orQ_opt (x : option Q) (d : Q) : Q :=
  match x with
  | Some q => orQ q d
  | None => d
  end.

(** Run prompt test across multiple models.  [post] is the [fetch] of
    [POST /api/prompts/test] with the body given. *)
Definition testPrompt
  (post : Server.RequestBody -> M (Fetched Server.Response))
  (promptData : Server.RequestBody) : M TestOutcome :=
  try_catch
    (match Server.body_prompt promptData with
     | None => throw (mkError (lit "Prompt is required"))
     | Some prompt =>
         if negb (truthy_string prompt) || negb (truthy_string (trim prompt))
         then throw (mkError (lit "Prompt is required"))
         else
           match Server.body_models promptData with
           | None => throw (mkError (lit "At least one model must be selected"))
           | Some models =>
               if (List.length models =? 0)%nat
               then throw (mkError (lit "At least one model must be selected"))
               else
                 let requestBody :=
                   {| Server.body_prompt := Some (trim prompt);
                      Server.body_models := Some models;
                      Server.body_iterations :=
                        Some (orZ (Server.body_iterations promptData) 1);
                      Server.body_temperature :=
                        Some (orQ_opt (Server.body_temperature promptData)
                                      (7 # 10));
                      Server.body_maxTokens :=
                        Some (orZ (Server.body_maxTokens promptData) 500) |} in
                 response <- request test_error (post requestBody) ;;
                 match response with
                 | Server.Ok report =>
                     ret {| success := true;
                            testId := Some (Server.testId report);
                            results := Server.results report;
                            summary := Some (Server.summary report);
                            timestamp := Some (Server.report_timestamp report);
                            error := None |}
                 | _ =>
                     throw (mkError (orS (test_error response)
                                         (lit "Test failed")))
                 end
           end
     end)
    (fun err =>
       ret {| success := false;
              testId := None;
              results := [];
              summary := None;
              timestamp := None;
              error := Some (message err) |}).

(** The test endpoint reached without loss: what [fetch] gives when the
    handler's answer arrives. *)
Definition served (handler : Server.RequestBody -> M Server.Response)
  (body : Server.RequestBody) : M (Fetched Server.Response) :=
  answer <- handler body ;;
  ret {| ok := (Server.status answer =? 200)%Z;
         status_line :=
           match answer with
           | Server.Ok _ => lit "HTTP 200: OK"
           | Server.BadRequest _ => lit "HTTP 400: Bad Request"
           | Server.InternalError _ _ _ =>
               lit "HTTP 500: Internal Server Error"
           end;
         data := answer |}.

End ApiService.

(** ** frontend/src/App.js *)

Module App.

(** Handle model selection toggle: the updater given to
    [setSelectedModels]. *)
Definition handleModelToggle (modelId : jsstring) (prev : list jsstring)
  : list jsstring :=
  if existsb (fun id => jseqb id modelId) prev
  then filter (fun id => negb (jseqb id modelId)) prev
  else prev ++ [modelId].

Record Stats : Type := {
  totalTests : Z;
  avgCost : number;
  successRate : number;
  bestModel : jsstring
}.

(** [useState] initial values. *)
Definition initialSelection : list jsstring := [lit "gpt-3.5-turbo"].

(** Update statistics after successful test. *)
Definition updateStats (data : ApiService.TestOutcome) (prevStats : Stats)
  : Stats :=
  let successful := filter (fun r => success r) (ApiService.results data) in
  let successRate :=
    match List.length (ApiService.results data) with
    | O => NaN                                          (* n / 0 *)
    | S _ =>
        Num (inject_Z
               (Math_round
                  (inject_Z (Z.of_nat (List.length successful))
                   / inject_Z (Z.of_nat (List.length (ApiService.results data)))
                   * inject_Z 100)))
    end in
  let avgCost :=
    match ApiService.summary data with
    | Some summary =>
        if truthy (Server.totalCost summary)
        then VNum (Server.totalCost summary) else VNum Num.zero
    | None => VNum Num.zero
    end in
  let bestModel :=
    match successful with
    | r :: _ => model r
    | [] => lit "-"
    end in
  {| totalTests := totalTests prevStats + 1;
     avgCost := parseFloat avgCost;
     successRate := successRate;
     bestModel := bestModel |}.

End App.

(** ** frontend/src/components/ModelSelector.js *)

Module ModelSelector.

(** The calls [onModelToggle(id)] queue updaters of the selection; they
    run in order, each on the state the one before left. *)

(** Handle deselect all models. *)
Definition handleDeselectAll (selectedModels : list jsstring)
  : list jsstring :=
  fold_left (fun state modelId => App.handleModelToggle modelId state)
            selectedModels selectedModels.

(** Handle select all models from a provider.  [toLowerCase] is
    [String.prototype.toLowerCase]; [availableModels] is the array of the
    state as it is held at the call ([getFilteredAndSortedModels] sorts it
    in place while rendering). *)
Definition handleSelectAllProvider (toLowerCase : jsstring -> jsstring)
  (availableModels : list Catalog.entry) (selectedModels : list jsstring)
  (provider : jsstring) : list jsstring :=
  let providerModels :=
    List.map Catalog.id
      (filter (fun m => jseqb (toLowerCase (Catalog.provider m))
                              (toLowerCase provider))
              availableModels) in
  fold_left
    (fun state modelId =>
       if negb (existsb (fun id => jseqb id modelId) selectedModels)
       then App.handleModelToggle modelId state
       else state)
    providerModels selectedModels.

End ModelSelector.

(** ** frontend/src/components/TestResults.js *)

Module TestResults.

(** Quality scoring function. *)
Definition calculateQualityScore (result : Result) : Z :=
  match response result with
  | Some (ch :: text) =>
      if negb (success result) then 0%Z
      else
        let response := ch :: text in
        let responseTime := orZ (Server.response_time result) 0 in
        let tokens := orZ (Server.tokens_total result) 0 in
        let length := Z.of_nat (List.length response) in
        let score := 70%Z in
        (* response length (optimal range: 50-500 characters) *)
        let score :=
          if (50 <=? length)%Z && (length <=? 500)%Z then (score + 15)%Z
          else if (20 <? length)%Z then (score + 10)%Z
          else score in
        (* response time (faster is better, but not too fast) *)
        let score :=
          if (500 <? responseTime)%Z && (responseTime <? 3000)%Z
          then (score + 10)%Z
          else if (3000 <=? responseTime)%Z then (score - 5)%Z
          else score in
        (* token efficiency *)
        let score :=
          if (0 <? tokens)%Z && (tokens <? 200)%Z then (score + 5)%Z
          else score in
        Z.min 100 (Z.max 0 score)
  | _ => 0%Z
  end.

(** Format cost for display; [None] is a value that is neither a number nor
    a string. *)
Definition formatCost (cost : option jsval) : jsstring :=
  match cost with
  | Some (VNum x) => toFixed6 x
  | Some (VStr s) => toFixed6 (parseFloat (VStr s))
  | None => lit "$0.000000"
  end.

End TestResults.

(** ** More vocabulary: the front end *)

(** [id] is selected. *)
Definition selected (id : jsstring) (selection : list jsstring) : Prop :=
  In id selection.

(** The body [apiService.testPrompt] sends for [promptData] with prompt
    [p] and models [models]. *)
Definition sent_body (promptData : Server.RequestBody)
  (p : jsstring) (models : list jsstring) : Server.RequestBody :=
  {| Server.body_prompt := Some (trim p);
     Server.body_models := Some models;
     Server.body_iterations :=
       Some (orZ (Server.body_iterations promptData) 1);
     Server.body_temperature :=
       Some (ApiService.orQ_opt (Server.body_temperature promptData) (7 # 10));
     Server.body_maxTokens :=
       Some (orZ (Server.body_maxTokens promptData) 500) |}.

(** The outcome [apiService.testPrompt] returns for an error. *)
Definition failed_outcome (msg : jsstring) : ApiService.TestOutcome :=
  {| ApiService.success := false;
     ApiService.testId := None;
     ApiService.results := [];
     ApiService.summary := None;
     ApiService.timestamp := None;
     ApiService.error := Some msg |}.

(** * Properties *)

(** Run the monadic code as far as the oracles are known. *)
Ltac run :=
  unfold bind, ret, throw, try_catch, sleep, enter, new_Date, Math_random,
    Date_now;
  cbv beta iota zeta;
  cbn [random random_reads clock clock_reads upstream upstream_calls invoked].

(** Split the conjunctions of the goal, and only those. *)
Ltac splits := repeat match goal with |- _ /\ _ => split end.

(** ** The primitives on examples *)

Example startsWith_gpt : startsWith (lit "gpt-4") (lit "gpt-") = true.
Proof. reflexivity. Qed.

Example includes_gpt : includes (lit "my-gpt-model") (lit "gpt") = true.
Proof. reflexivity. Qed.

Example includes_case : includes (lit "GPT-4") (lit "gpt") = false.
Proof. reflexivity. Qed.

Example trim_spaces : trim (lit "  hi there ") = lit "hi there".
Proof. reflexivity. Qed.

Example trim_blank : trim [9; 32; 160; 10]%N = [].
Proof. reflexivity. Qed.

Example toFixed6_rounds :
  toFixed6 (Num (1234567 # 1000000000)) = lit "0.001235".
Proof. reflexivity. Qed.

Example toFixed6_pads : toFixed6 (Num (12345 # 10)) = lit "1234.500000".
Proof. reflexivity. Qed.

Example toFixed6_negative :
  toFixed6 (Num (-5 # 10000000)) = lit "-0.000001".
Proof. reflexivity. Qed.

Example parseFloat_fixed :
  parseFloat_string (lit "0.001235") = Num (1235 # 1000000).
Proof. reflexivity. Qed.

Example parseFloat_prefix :
  parseFloat_string (lit " -12.5e3xyz") = Num (inject_Z (-12500)).
Proof. reflexivity. Qed.

Example parseFloat_bare_exponent :
  parseFloat_string (lit "1e") = Num (inject_Z 1).
Proof. reflexivity. Qed.

Example parseFloat_point : parseFloat_string (lit ".") = NaN.
Proof. reflexivity. Qed.

Example Math_round_half : Math_round (5 # 2) = 3%Z /\ Math_round (-5 # 2) = (-2)%Z.
Proof. split; reflexivity. Qed.

(** ** Decimal rendering and reading back *)

Lemma is_digit_code d : (d < 10)%N -> is_digit (digit_code d) = true.
Proof.
  unfold is_digit, digit_code. intros H.
  apply andb_true_intro. split; apply N.leb_le; lia.
Qed.

Lemma digit_val_code d : digit_val (digit_code d) = d.
Proof. unfold digit_val, digit_code. lia. Qed.

Lemma digits_value_snoc a d :
  digits_value (a ++ [d]) = (10 * digits_value a + d)%N.
Proof. unfold digits_value. rewrite fold_left_app. reflexivity. Qed.

Lemma digits_value_app a b :
  digits_value (a ++ b)
  = (digits_value a * 10 ^ N.of_nat (List.length b) + digits_value b)%N.
Proof.
  induction b as [|d b IH] using rev_ind.
  - rewrite app_nil_r. cbn. lia.
  - rewrite app_assoc, !digits_value_snoc, IH, length_app. cbn [List.length].
    rewrite Nat.add_1_r, Nat2N.inj_succ, N.pow_succ_r'. lia.
Qed.

(** What [digits_fuel] pushes on the accumulator, given fuel enough. *)
Lemma one_digit_spec n acc :
  (n < 10)%N ->
  exists ds, digit_code (n mod 10) :: acc = ds ++ acc /\ ds <> [] /\
             Forall (fun c => is_digit c = true) ds /\
             digits_value (List.map digit_val ds) = n.
Proof.
  intros Hn. exists [digit_code (n mod 10)].
  split; [reflexivity | split; [discriminate | split]].
  - constructor; [|constructor]. apply is_digit_code, N.mod_lt. lia.
  - cbn [List.map digits_value fold_left]. rewrite digit_val_code.
    rewrite N.mod_small; lia.
Qed.

Lemma digits_fuel_spec fuel :
  forall n acc, (n < 10 ^ N.of_nat (S fuel))%N ->
  exists ds, digits_fuel (S fuel) n acc = ds ++ acc /\ ds <> [] /\
             Forall (fun c => is_digit c = true) ds /\
             digits_value (List.map digit_val ds) = n.
Proof.
  induction fuel as [|fuel IH]; intros n acc Hn.
  - cbn [digits_fuel]. cbn in Hn.
    destruct (n / 10 =? 0)%N; now apply one_digit_spec.
  - assert (Hdm : n = (10 * (n / 10) + n mod 10)%N) by (apply N.div_mod; lia).
    assert (Hd : (n mod 10 < 10)%N) by (apply N.mod_lt; lia).
    change (digits_fuel (S (S fuel)) n acc)
      with (if (n / 10 =? 0)%N then digit_code (n mod 10) :: acc
            else digits_fuel (S fuel) (n / 10) (digit_code (n mod 10) :: acc)).
    destruct (N.eqb_spec (n / 10) 0) as [Hz|Hz].
    + apply one_digit_spec. lia.
    + assert (Hlt : (n / 10 < 10 ^ N.of_nat (S fuel))%N).
      { rewrite (Nat2N.inj_succ (S fuel)), N.pow_succ_r' in Hn.
        apply N.Div0.div_lt_upper_bound. lia. }
      destruct (IH (n / 10)%N (digit_code (n mod 10) :: acc) Hlt)
        as (ds & E & _ & Hall & Hv).
      exists (ds ++ [digit_code (n mod 10)]).
      split; [|split; [|split]].
      * rewrite E, <- app_assoc. reflexivity.
      * destruct ds; discriminate.
      * apply Forall_app. split; [assumption|].
        constructor; [now apply is_digit_code | constructor].
      * rewrite map_app. cbn [List.map].
        rewrite digits_value_snoc, Hv, digit_val_code. lia.
Qed.

Lemma digits_spec n :
  exists ds, digits n = ds /\ ds <> [] /\
             Forall (fun c => is_digit c = true) ds /\
             digits_value (List.map digit_val ds) = n.
Proof.
  unfold digits.
  destruct (digits_fuel_spec (N.to_nat (N.log2 n)) n []) as (ds & E & H).
  - rewrite Nat2N.inj_succ, N2Nat.id.
    destruct (N.eq_dec n 0) as [->|Hn]; [reflexivity|].
    apply N.lt_le_trans with (2 ^ N.succ (N.log2 n))%N.
    + apply N.log2_spec. lia.
    + apply N.pow_le_mono_l. lia.
  - exists ds. rewrite E, app_nil_r. auto.
Qed.

Lemma digits6_spec k :
  (k < 1000000)%N ->
  Forall (fun c => is_digit c = true) (digits6 k) /\
  List.length (digits6 k) = 6%nat /\
  digits_value (List.map digit_val (digits6 k)) = k.
Proof.
  intros Hk. unfold digits6. cbn [List.map]. repeat split.
  - repeat constructor; apply is_digit_code; apply N.mod_lt; lia.
  - rewrite !digit_val_code. cbn [digits_value fold_left].
    zify. Z.to_euclidean_division_equations. lia.
Qed.

Lemma scan_digits_app a b :
  Forall (fun c => is_digit c = true) a ->
  match b with [] => True | c :: _ => is_digit c = false end ->
  scan_digits (a ++ b) = (List.map digit_val a, b).
Proof.
  intros Ha Hb. induction Ha as [|c a Hc Ha IH].
  - cbn. destruct b as [|c b]; [reflexivity|]. cbn. now rewrite Hb.
  - cbn. rewrite Hc, IH. reflexivity.
Qed.

Lemma digit_not_space c : is_digit c = true -> isWhiteSpace c = false.
Proof.
  intros Hc. apply not_true_is_false. intros H.
  apply existsb_exists in H as (x & Hin & Heq).
  apply N.eqb_eq in Heq. subst x.
  cbn in Hin. repeat (destruct Hin as [<-|Hin]; [discriminate Hc|]). exact Hin.
Qed.

Lemma digit_bounds c : is_digit c = true -> (48 <= c <= 57)%N.
Proof.
  unfold is_digit. intros H. apply andb_prop in H as [H1 H2].
  apply N.leb_le in H1, H2. lia.
Qed.

(** Reading back [ds.d6], digits on both sides of the point, after the
    sign. *)
Lemma parse_unsigned (neg : bool) ds d6 :
  ds <> [] ->
  Forall (fun c => is_digit c = true) ds ->
  Forall (fun c => is_digit c = true) d6 ->
  (let (ip, s2) := scan_digits (ds ++ 46%N :: d6) in
   let (fp, s3) :=
     match s2 with
     | c :: t => if (c =? 46)%N then scan_digits t else ([], s2)
     | [] => ([], s2)
     end in
   match ip ++ fp with
   | [] => NaN
   | ds =>
       let m := Z.of_N (digits_value ds) in
       let e := (scan_exponent s3 - Z.of_nat (List.length fp))%Z in
       Num (scale10 (if neg then (- m)%Z else m) e)
   end)
  = Num (scale10 (let m := Z.of_N (digits_value (List.map digit_val (ds ++ d6))) in
                  if neg then (- m)%Z else m)
                 (- Z.of_nat (List.length d6))).
Proof.
  intros Hne Hds Hd6.
  rewrite scan_digits_app by (assumption || reflexivity).
  rewrite N.eqb_refl.
  rewrite <- (app_nil_r d6) at 1.
  rewrite scan_digits_app by (assumption || exact I).
  rewrite <- map_app.
  destruct (List.map digit_val (ds ++ d6)) eqn:E.
  - destruct ds; [contradiction | discriminate].
  - rewrite length_map. reflexivity.
Qed.

Lemma sign_of_digits ds rest :
  ds <> [] -> Forall (fun c => is_digit c = true) ds ->
  exists c t, ds ++ rest = c :: t /\ isWhiteSpace c = false /\
              (c =? 45)%N = false /\ (c =? 43)%N = false.
Proof.
  intros Hne Hds. destruct Hds as [|c ds Hc _]; [contradiction|].
  exists c, (ds ++ rest). split; [reflexivity|].
  split; [now apply digit_not_space|].
  apply digit_bounds in Hc. split; apply N.eqb_neq; lia.
Qed.

Lemma parseFloat_toFixed6 q :
  parseFloat_string (toFixed6 (Num q)) = Num (round6 q).
Proof.
  unfold toFixed6, round6.
  set (n := micro q).
  destruct (digits_spec (n / 1000000)) as (ds & -> & Hne & Hds & Hv).
  destruct (digits6_spec (n mod 1000000)) as (H6 & Hlen & H6v).
  { apply N.mod_lt. lia. }
  set (d6 := digits6 (n mod 1000000)) in *.
  assert (Hval : digits_value (List.map digit_val (ds ++ d6)) = n).
  { rewrite map_app, digits_value_app, length_map, Hlen, Hv, H6v.
    change (10 ^ N.of_nat 6)%N with 1000000%N.
    pose proof (N.div_mod n 1000000). lia. }
  change (lit ".") with [46%N]. cbn [app].
  destruct (sign_of_digits ds (46%N :: d6) Hne Hds) as (c & t & E & Hws & H45 & H43).
  unfold parseFloat_string.
  destruct (Qlt_le_dec q 0) as [Hneg|Hpos].
  - change (lit "-" ++ ds ++ 46%N :: d6) with (45%N :: ds ++ 46%N :: d6).
    cbn [trimStart]. change (isWhiteSpace 45) with false. cbn iota.
    rewrite N.eqb_refl.
    etransitivity; [exact (parse_unsigned true ds d6 Hne Hds H6)|].
    rewrite Hval, Hlen. reflexivity.
  - cbn [app]. rewrite E. cbn [trimStart]. rewrite Hws, H45, H43, <- E.
    etransitivity; [exact (parse_unsigned false ds d6 Hne Hds H6)|].
    rewrite Hval, Hlen. reflexivity.
Qed.

(** ** Strings *)

Lemma startsWith_iff s p : startsWith s p = true <-> starts_with s p.
Proof.
  unfold starts_with. revert s. induction p as [|c p IH]; intros s.
  - cbn. destruct s; split; eauto.
  - destruct s as [|d s]; cbn.
    + split; [discriminate | intros (t & E); discriminate E].
    + rewrite andb_true_iff, N.eqb_eq, IH. split.
      * intros (-> & t & ->). now exists t.
      * intros (t & E). injection E as -> ->. split; [reflexivity | now exists t].
Qed.

Lemma includes_iff s p : includes s p = true <-> contains s p.
Proof.
  unfold contains. split.
  - induction s as [|c s IH]; cbn [includes]; rewrite orb_true_iff; intros [H|H].
    + apply startsWith_iff in H as (t & ->). now exists [], t.
    + discriminate.
    + apply startsWith_iff in H as (t & ->). now exists [], t.
    + destruct (IH H) as (a & b & ->). now exists (c :: a), b.
  - intros (a & b & ->). induction a as [|c a IH].
    + cbn [app]. assert (H : startsWith (p ++ b) p = true)
        by (apply startsWith_iff; now exists b).
      destruct (p ++ b); cbn [includes]; rewrite H; reflexivity.
    + cbn [app includes]. rewrite IH. apply orb_true_r.
Qed.

Lemma isWhiteSpace_iff c : isWhiteSpace c = true <-> In c whiteSpace.
Proof.
  unfold isWhiteSpace. rewrite existsb_exists. split.
  - intros (x & Hin & E). apply N.eqb_eq in E. now subst.
  - intros H. exists c. split; [assumption | apply N.eqb_refl].
Qed.

Lemma trimStart_nil_iff s : trimStart s = [] <-> whitespace_only s.
Proof.
  unfold whitespace_only. induction s as [|c s IH]; cbn [trimStart].
  - split; [constructor | reflexivity].
  - destruct (isWhiteSpace c) eqn:E.
    + rewrite IH. split.
      * intros H. constructor; [now apply isWhiteSpace_iff | assumption].
      * intros H. now inversion H.
    + split; [discriminate|]. intros H. inversion H as [|? ? Hc _]; subst.
      apply isWhiteSpace_iff in Hc. congruence.
Qed.

(** What [trimStart] leaves does not start with white space. *)
Lemma trimStart_head s :
  match trimStart s with
  | [] => True
  | c :: _ => isWhiteSpace c = false
  end.
Proof.
  induction s as [|c s IH]; cbn [trimStart]; [exact I|].
  destruct (isWhiteSpace c) eqn:E; [assumption | exact E].
Qed.

Lemma trim_nil_iff s : trim s = [] <-> whitespace_only s.
Proof.
  unfold trim, trimEnd. split.
  - intros H. apply trimStart_nil_iff.
    assert (H' : trimStart (rev (trimStart s)) = []).
    { destruct (trimStart (rev (trimStart s))) as [|c t]; [reflexivity|].
      cbn in H. destruct (rev t); discriminate. }
    apply trimStart_nil_iff in H'. unfold whitespace_only in H'.
    apply Forall_rev in H'. rewrite rev_involutive in H'.
    pose proof (trimStart_head s) as Hh.
    destruct (trimStart s) as [|c t]; [reflexivity|].
    inversion H' as [|? ? Hc _]; subst.
    apply isWhiteSpace_iff in Hc. congruence.
  - intros H. apply trimStart_nil_iff in H. rewrite H. reflexivity.
Qed.

(** The first test of the handler rejects exactly the white-space prompts. *)
Lemma blank_prompt_iff prompt :
  negb (truthy_string prompt) || negb (truthy_string (trim prompt)) = true
  <-> whitespace_only prompt.
Proof.
  rewrite <- trim_nil_iff. split.
  - intros H. apply orb_true_iff in H as [H|H].
    + destruct prompt; [reflexivity | discriminate].
    + destruct (trim prompt); [reflexivity | discriminate].
  - intros ->. apply orb_true_r.
Qed.

(** The test of the first branch of the routing is [includes 'gpt'] alone. *)
Lemma gpt_test_iff id :
  startsWith id (lit "gpt-") || includes id (lit "gpt") = true
  <-> contains id (lit "gpt").
Proof.
  rewrite orb_true_iff, includes_iff, startsWith_iff. split.
  - intros [(t & ->)|H]; [|assumption].
    exists [], (lit "-" ++ t). reflexivity.
  - now right.
Qed.

(** ** Property reads *)

Lemma jseqb_eq s t : jseqb s t = true <-> s = t.
Proof.
  revert t. induction s as [|c s IH]; intros [|d t]; cbn; split;
    try discriminate; try reflexivity.
  - intros H. apply andb_prop in H as [H1 H2].
    apply N.eqb_eq in H1. apply IH in H2. congruence.
  - intros H. injection H as -> ->. rewrite N.eqb_refl. now apply IH.
Qed.

Lemma jseqb_refl s : jseqb s s = true.
Proof. now apply jseqb_eq. Qed.

Lemma jseqb_neq s t : jseqb s t = false <-> s <> t.
Proof.
  split.
  - intros H E. apply jseqb_eq in E. congruence.
  - intros H. destruct (jseqb s t) eqn:E; [|reflexivity].
    apply jseqb_eq in E. contradiction.
Qed.

Lemma has_key_lookup {V : Type} (table : list (jsstring * V)) key :
  has_key table key = true <-> exists v, lookup table key = Some v.
Proof.
  unfold has_key. induction table as [|[k v] table IH]; cbn.
  - split; [discriminate | intros (v & H); discriminate].
  - rewrite orb_true_iff, IH. destruct (jseqb k key) eqn:E.
    + split; [now exists v | intros _; left].
      apply jseqb_eq in E. subst. apply jseqb_refl.
    + split; [intros [H|H]; [|assumption] | now right].
      apply jseqb_eq in H. subst. rewrite jseqb_refl in E. discriminate.
Qed.

Lemma existsb_jseqb key l : existsb (jseqb key) l = true <-> In key l.
Proof.
  rewrite existsb_exists. split.
  - intros (x & Hin & E). apply jseqb_eq in E. now subst.
  - intros H. exists key. split; [assumption | apply jseqb_refl].
Qed.

Lemma inherited_iff key :
  existsb (jseqb key) Object_prototype = false <-> ~ In key Object_prototype.
Proof.
  rewrite <- existsb_jseqb. destruct (existsb (jseqb key) Object_prototype).
  - split; [discriminate | intros H; now contradiction H].
  - split; [discriminate | reflexivity].
Qed.

(** No price entry is named like a member of [Object.prototype]. *)
Lemma inherited_not_own m :
  In m Object_prototype -> lookup OpenAI.MODEL_PRICING m = None.
Proof.
  intros H. repeat (destruct H as [<-|H]; [reflexivity|]). destruct H.
Qed.

(** [MODEL_PRICING[model] || MODEL_PRICING['gpt-3.5-turbo']] *)
Lemma pricing_read m :
  or_found (get OpenAI.MODEL_PRICING m)
           (get OpenAI.MODEL_PRICING (lit "gpt-3.5-turbo"))
  = if existsb (jseqb m) Object_prototype then Inherited
    else Own (OpenAI_price m).
Proof.
  unfold get at 1, OpenAI_price.
  destruct (existsb (jseqb m) Object_prototype) eqn:I.
  - apply existsb_jseqb in I. now rewrite (inherited_not_own m I).
  - destruct (lookup OpenAI.MODEL_PRICING m); reflexivity.
Qed.

(** The ids the handler routes to the OpenAI adapter name no member of
    [Object.prototype]. *)
Lemma gpt_not_inherited id :
  contains id (lit "gpt") -> ~ In id Object_prototype.
Proof.
  intros G H. apply includes_iff in G.
  repeat (destruct H as [<-|H]; [vm_compute in G; discriminate G|]).
  destruct H.
Qed.

Lemma adapter_result_normalized a p m r :
  adapter_result a p m r -> normalized_result a p m r.
Proof.
  intros (Hm & Hp & Hv & Hc & [(V & _)|F]); repeat (split; [assumption|]);
    [now left | now right].
Qed.

Lemma adapter_result_intro a p m r :
  normalized_result a p m r -> (success r = true -> cost_read_ok r) ->
  adapter_result a p m r.
Proof.
  intros (Hm & Hp & Hv & Hc & [V|F]) C; repeat (split; [assumption|]).
  - left. split; [assumption|]. apply C. apply V.
  - now right.
Qed.

(** What the handler reads of a result, and the fields of the result. *)
Lemma orZ_zero x : orZ x 0 = match x with Some z => z | None => 0%Z end.
Proof.
  destruct x as [z|]; [|reflexivity]. cbn.
  destruct (Z.eqb_spec z 0); congruence.
Qed.

Lemma tokens_total_read r : orZ (Server.tokens_total r) 0 = tokensTotal r.
Proof.
  rewrite orZ_zero. unfold Server.tokens_total, tokensTotal, chain.
  destruct (metadata r) as [md|]; [|reflexivity].
  destruct (tokens md); reflexivity.
Qed.

Lemma response_time_read r : orZ (Server.response_time r) 0 = responseTimeMs r.
Proof.
  rewrite orZ_zero. unfold Server.response_time, responseTimeMs, chain.
  destruct (metadata r); reflexivity.
Qed.

Lemma cost_total_read r v :
  Server.cost_total r = Some v -> costTotal r = parseFloat v.
Proof.
  unfold Server.cost_total, costTotal, chain.
  destruct (metadata r) as [md|]; [|discriminate].
  destruct (cost md) as [c|]; [|discriminate].
  intros E. injection E as <-. destruct (Cost.total c); reflexivity.
Qed.

(** ** The adapters *)

Lemma toFixed6_truthy x : truthy_string (toFixed6 x) = true.
Proof.
  destruct x as [|q]; [reflexivity|]. unfold toFixed6.
  destruct (Qlt_le_dec q 0); [reflexivity|]. cbn [app].
  destruct (digits_spec (micro q / 1000000)) as (ds & -> & Hne & _).
  destruct ds; [contradiction | reflexivity].
Qed.

Lemma cost_string_ok r x :
  Server.cost_total r = Some (VStr (toFixed6 (Num x))) -> cost_read_ok r.
Proof.
  intros E. exists (round6 x), (round6 x).
  rewrite (cost_total_read r _ E). unfold Server.or0.
  rewrite E. cbn [truthy_val]. rewrite toFixed6_truthy. cbn [parseFloat].
  rewrite parseFloat_toFixed6. repeat split; reflexivity.
Qed.

Lemma cost_number_ok r q :
  Server.cost_total r = Some (VNum (Num q)) -> cost_read_ok r.
Proof.
  intros E. unfold cost_read_ok, Server.or0.
  rewrite (cost_total_read r _ E). rewrite E.
  cbn [truthy_val truthy]. destruct (Qeq_bool q 0) eqn:Z; cbn [negb parseFloat].
  - exists 0, q. repeat split. apply Qeq_bool_iff in Z. now symmetry.
  - exists q, q. repeat split; reflexivity.
Qed.

Lemma OpenAI_mock_run p m w :
  exists r w', OpenAI.mock p m w = (Return r, w') /\
    adapter_result OpenAIAdapter p m r /\ success r = true /\
    invoked w' = invoked w.
Proof.
  unfold OpenAI.mock. run.
  eexists. eexists. split; [reflexivity|].
  split; [|split; reflexivity].
  repeat (split; [reflexivity|]). left. split.
  - unfold success_variant. cbn [success response error metadata].
    split; [reflexivity|]. split; [eexists; reflexivity|]. split; [reflexivity|].
    do 3 eexists. repeat split; reflexivity.
  - eapply cost_string_ok. reflexivity.
Qed.

Lemma Anthropic_mock_run p m text w :
  exists r w', Anthropic.mock p m text w = (Return r, w') /\
    adapter_result AnthropicAdapter p m r /\ success r = true /\
    invoked w' = invoked w.
Proof.
  unfold Anthropic.mock. run.
  eexists. eexists. split; [reflexivity|].
  split; [|split; reflexivity].
  repeat (split; [reflexivity|]). left. split.
  - unfold success_variant. cbn [success response error metadata].
    split; [reflexivity|]. split; [eexists; reflexivity|]. split; [reflexivity|].
    do 3 eexists. repeat split; reflexivity.
  - eapply cost_string_ok. reflexivity.
Qed.

Lemma OpenAI_failed_run startTime p m e w :
  exists r w', OpenAI.failed startTime p m e w = (Return r, w') /\
    adapter_result OpenAIAdapter p m r /\ success r = false /\
    error r = Some (message e) /\ invoked w' = invoked w.
Proof.
  unfold OpenAI.failed. run.
  eexists. eexists. split; [reflexivity|].
  split; [|repeat split; reflexivity].
  repeat (split; [reflexivity|]). right.
  unfold failure_variant. cbn [success response error metadata].
  split; [reflexivity|]. split; [reflexivity|]. split; [eexists; reflexivity|].
  eexists. repeat split; reflexivity.
Qed.

Lemma OpenAI_live_run startTime p m options w :
  exists c w', OpenAI.live startTime p m options w = (c, w') /\
    invoked w' = invoked w /\
    match c with
    | Return r =>
        normalized_result OpenAIAdapter p m r /\ success r = true /\
        (~ In m Object_prototype -> cost_read_ok r)
    | Throw e =>
        upstream w (upstream_calls w) (chat_request p m options)
          = Api.Rejected e \/
        e = TypeError_undefined "0"
    end /\
    forall e, upstream w (upstream_calls w) (chat_request p m options)
                = Api.Rejected e -> c = Throw e.
Proof.
  unfold OpenAI.live, chat_completions_create. run.
  fold (chat_request p m options).
  destruct (upstream w (upstream_calls w) (chat_request p m options))
    as [resp|e] eqn:Up.
  - cbv beta iota zeta.
    destruct (Api.choices resp) as [choices|].
    + cbv beta iota zeta. rewrite pricing_read.
      destruct (existsb (jseqb m) Object_prototype) eqn:I;
        cbv beta iota zeta; cbn [price_of token_cost add];
        (eexists; eexists; split; [reflexivity|]; split; [reflexivity|];
         split; [|discriminate]; split; [|split; [reflexivity|]]).
      * repeat (split; [reflexivity|]). left.
        unfold success_variant. cbn [success response error metadata].
        split; [reflexivity|]. split; [eexists; reflexivity|].
        split; [reflexivity|]. do 3 eexists. repeat split; reflexivity.
      * intros N. apply inherited_iff in N. congruence.
      * repeat (split; [reflexivity|]). left.
        unfold success_variant. cbn [success response error metadata].
        split; [reflexivity|]. split; [eexists; reflexivity|].
        split; [reflexivity|]. do 3 eexists. repeat split; reflexivity.
      * intros _. eapply cost_number_ok.
        unfold Server.cost_total. cbn [metadata chain cost Cost.total parseFloat].
        rewrite parseFloat_toFixed6. reflexivity.
    + cbv beta iota zeta. eexists. eexists.
      split; [reflexivity|]. split; [reflexivity|].
      split; [now right | discriminate].
  - eexists. eexists. split; [reflexivity|]. split; [reflexivity|].
    split; [now left|]. intros e' E. congruence.
Qed.

Lemma OpenAI_testPrompt_run client p m options w :
  exists r w', OpenAI.testPrompt client p m options w = (Return r, w') /\
    normalized_result OpenAIAdapter p m r /\
    (client = None \/ ~ In m Object_prototype ->
     adapter_result OpenAIAdapter p m r) /\
    invoked w' = invoked w ++ [(OpenAIAdapter, m)] /\
    (client = None -> success r = true) /\
    (forall e, client <> None ->
       upstream w (upstream_calls w) (chat_request p m options)
         = Api.Rejected e ->
       success r = false /\ error r = Some (message e)) /\
    (success r = false ->
       exists e, error r = Some (message e) /\
         (upstream w (upstream_calls w) (chat_request p m options)
            = Api.Rejected e \/
          e = TypeError_undefined "0")).
Proof.
  unfold OpenAI.testPrompt. run. destruct client as [c|].
  - match goal with
    | |- context [OpenAI.live ?t ?p ?m ?o ?w0] =>
        destruct (OpenAI_live_run t p m o w0) as (c0 & w1 & -> & Hinv & Hc & Hrej)
    end.
    cbn [upstream upstream_calls invoked] in *.
    destruct c0 as [r|e].
    + exists r, w1. destruct Hc as (Hr & Hs & Hcost).
      split; [reflexivity|]. split; [assumption|].
      split.
      { intros [H|H]; [discriminate H|].
        apply adapter_result_intro; [assumption | intros _; now apply Hcost]. }
      split; [assumption|].
      split; [intros; assumption|].
      split; [|congruence].
      intros e _ Up. specialize (Hrej e Up). discriminate.
    + match goal with
      | |- context [OpenAI.failed ?t ?p ?m ?e ?w0] =>
          destruct (OpenAI_failed_run t p m e w0)
            as (r & w2 & -> & Hr & Hs & Herr & Hinv2)
      end.
      exists r, w2. split; [reflexivity|].
      split; [now apply adapter_result_normalized|].
      split; [intros _; assumption|].
      split; [congruence|]. split; [discriminate|].
      split; [|intros _; now exists e].
      intros e' _ Up. specialize (Hrej e' Up). injection Hrej as ->.
      now split.
  - match goal with
    | |- context [OpenAI.mock ?p ?m ?w0] =>
        destruct (OpenAI_mock_run p m w0) as (r & w1 & -> & Hr & Hs & Hinv)
    end.
    cbn [invoked] in Hinv.
    exists r, w1. split; [reflexivity|].
    split; [now apply adapter_result_normalized|].
    split; [intros _; assumption|].
    split; [assumption|]. split; [intros; assumption|].
    split; [|congruence].
    intros e Hc. now contradiction Hc.
Qed.

Lemma Anthropic_testPrompt_run client p m options w :
  exists r w', Anthropic.testPrompt client p m options w = (Return r, w') /\
    adapter_result AnthropicAdapter p m r /\
    invoked w' = invoked w ++ [(AnthropicAdapter, m)] /\
    success r = true.
Proof.
  unfold Anthropic.testPrompt. run.
  destruct client as [c|];
    match goal with
    | |- context [Anthropic.mock ?p ?m ?t ?w0] =>
        destruct (Anthropic_mock_run p m t w0) as (r & w1 & -> & Hr & Hs & Hinv)
    end;
    cbn [invoked] in Hinv; exists r, w1;
    (split; [reflexivity | split; [assumption | split; assumption]]).
Qed.

Lemma unsupported_run p id w :
  exists r w', Server.unsupported p id w = (Return r, w') /\
    unsupported_result p id r /\ invoked w' = invoked w.
Proof.
  unfold Server.unsupported. run. eexists. eexists.
  split; [reflexivity|]. split; [|reflexivity].
  unfold unsupported_result. cbn [success model provider prompt response error errorCode metadata].
  repeat (split; [reflexivity|]). eexists. repeat split; reflexivity.
Qed.

Lemma adapter_result_ids a p m r :
  adapter_result a p m r -> model r = m /\ prompt r = p.
Proof. intros (Hm & Hp & _). now split. Qed.

Lemma test_model_run services p options id w :
  exists r w', Server.test_model services p options id w = (Return r, w') /\
    model r = id /\ prompt r = p /\
    routed services p options id w r w'.
Proof.
  unfold Server.test_model.
  destruct (startsWith id (lit "gpt-") || includes id (lit "gpt")) eqn:G.
  - apply gpt_test_iff in G.
    destruct (OpenAI_testPrompt_run (Server.openai services) p id options w)
      as (r & w' & E & _ & Hr & Hinv & Hmock & Hrej & _).
    specialize (Hr (or_intror (gpt_not_inherited id G))).
    exists r, w'. split; [assumption|].
    destruct (adapter_result_ids _ _ _ _ Hr) as [Hm Hp].
    split; [assumption|]. split; [assumption|]. left.
    split; [assumption|]. split; [assumption|]. split; [assumption|].
    split; assumption.
  - assert (NG : ~ contains id (lit "gpt")).
    { intros H. apply gpt_test_iff in H. congruence. }
    destruct (startsWith id (lit "claude-")) eqn:C.
    + apply startsWith_iff in C.
      destruct (Anthropic_testPrompt_run (Server.anthropic services) p id options w)
        as (r & w' & E & Hr & Hinv & Hs).
      exists r, w'. split; [assumption|].
      destruct (adapter_result_ids _ _ _ _ Hr) as [Hm Hp].
      split; [assumption|]. split; [assumption|]. right; left.
      split; [assumption|]. split; [assumption|]. split; [assumption|].
      split; assumption.
    + assert (NC : ~ starts_with id (lit "claude-")).
      { intros H. apply startsWith_iff in H. congruence. }
      destruct (unsupported_run p id w) as (r & w' & E & Hr & Hinv).
      exists r, w'. split; [assumption|].
      split; [apply Hr|]. split; [apply Hr|]. right; right.
      split; [split; assumption|]. split; assumption.
Qed.

(** The loop runs to its end, one result per model id. *)
Lemma for_of_run (step : jsstring -> M Result) :
  (forall id w, exists r w', step id w = (Return r, w')) ->
  forall ids acc w, exists rs w',
    run_models step ids w rs w' /\
    for_of ids
      (fun modelId results =>
         result <- step modelId ;; ret (results ++ [result]))
      acc w
    = (Return (acc ++ rs), w').
Proof.
  intros total. induction ids as [|id ids IH]; intros acc w.
  - exists [], w. split; [constructor|]. cbn. unfold ret. now rewrite app_nil_r.
  - destruct (total id w) as (r & w1 & E).
    destruct (IH (acc ++ [r]) w1) as (rs & w2 & Hrun & Hfor).
    exists (r :: rs), w2. split; [econstructor; eassumption|].
    cbn [for_of]. unfold bind at 1. unfold bind at 1. rewrite E.
    unfold ret at 1. rewrite Hfor, <- app_assoc. reflexivity.
Qed.

(** ** The handler *)

Lemma prompts_test_valid services body p models w :
  valid_request body p models ->
  exists rs w1 report w2,
    run_models (Server.test_model services p (options_of body)) models w rs w1 /\
    Server.prompts_test services body w = (Return (Server.Ok report), w2) /\
    Server.results report = rs /\
    Server.summary report = Server.summarize models rs /\
    Server.report_models report = models /\
    Server.report_prompt report = p /\
    invoked w2 = invoked w1.
Proof.
  intros (Hp & Hblank & Hm & Hne).
  destruct (for_of_run (Server.test_model services p (options_of body))
              (fun id w => match test_model_run services p (options_of body) id w with
                           | ex_intro _ r (ex_intro _ w' (conj E _)) =>
                               ex_intro _ r (ex_intro _ w' E)
                           end)
              models [] w) as (rs & w1 & Hrun & Hfor).
  exists rs, w1. unfold Server.prompts_test. rewrite Hp, Hm.
  destruct (negb (truthy_string p) || negb (truthy_string (trim p))) eqn:B.
  { apply blank_prompt_iff in B. contradiction. }
  destruct models as [|id ids]; [contradiction|].
  cbn [List.length Nat.eqb]. cbv zeta.
  unfold try_catch, bind at 1. unfold options_of in Hfor. rewrite Hfor.
  run. eexists. eexists. split; [exact Hrun|]. split; [reflexivity|].
  repeat split; reflexivity.
Qed.

Lemma prompts_test_invalid services body w :
  invalid_request body ->
  exists e, Server.prompts_test services body w
            = (Return (Server.BadRequest e), w).
Proof.
  unfold invalid_request, Server.prompts_test, try_catch. intros H.
  destruct (Server.body_prompt body) as [p|]; [|eexists; reflexivity].
  destruct (negb (truthy_string p) || negb (truthy_string (trim p))) eqn:B;
    [eexists; reflexivity|].
  destruct H as [H|H].
  { apply blank_prompt_iff in H. congruence. }
  destruct (Server.body_models body) as [models|]; [|eexists; reflexivity].
  subst models. eexists; reflexivity.
Qed.

Lemma request_cases body :
  invalid_request body \/ exists p models, valid_request body p models.
Proof.
  unfold invalid_request, valid_request.
  destruct (Server.body_prompt body) as [p|]; [|now left; left].
  destruct (negb (truthy_string p) || negb (truthy_string (trim p))) eqn:B.
  { apply blank_prompt_iff in B. now left; left. }
  destruct (Server.body_models body) as [models|]; [|now left; right].
  destruct models as [|id ids]; [now left; right|].
  right. exists p, (id :: ids). repeat split; try discriminate.
  intros H. apply blank_prompt_iff in H. congruence.
Qed.

(** A 200 answer comes from a valid request and the run of the loop. *)
Lemma prompts_test_ok_inv services body w report w2 :
  Server.prompts_test services body w = (Return (Server.Ok report), w2) ->
  exists p models w1,
    valid_request body p models /\
    run_models (Server.test_model services p (options_of body)) models w
      (Server.results report) w1 /\
    Server.summary report = Server.summarize models (Server.results report) /\
    Server.report_models report = models /\
    Server.report_prompt report = p /\
    invoked w2 = invoked w1.
Proof.
  intros E. destruct (request_cases body) as [H|(p & models & H)].
  - destruct (prompts_test_invalid services body w H) as (e & E').
    congruence.
  - destruct (prompts_test_valid services body p models w H)
      as (rs & w1 & report' & w2' & Hrun & E' & Hrs & Hsum & Hms & Hpr & Hinv).
    rewrite E in E'. injection E' as -> ->.
    exists p, models, w1. subst rs. splits; assumption.
Qed.

(** ** The summary *)

Lemma round6_proper p q : p == q -> round6 p = round6 q.
Proof.
  intros H. unfold round6.
  assert (E : micro p = micro q) by (unfold micro; now rewrite H).
  rewrite E.
  destruct (Qlt_le_dec p 0) as [Hp|Hp], (Qlt_le_dec q 0) as [Hq|Hq];
    try reflexivity; rewrite H in Hp; lra.
Qed.

(** [round6 q] is a multiple of [10^-6] by its form, and it is within half
    a millionth of [q]. *)
Lemma round6_close q : Qabs (round6 q - q) <= 1 # 2000000.
Proof.
  unfold round6, micro.
  remember (Qabs q * inject_Z 1000000 + (1 # 2)) as x eqn:Ex.
  assert (Hx : 0 <= x).
  { subst x. pose proof (Qabs_nonneg q).
    assert (0 <= Qabs q * inject_Z 1000000)
      by (apply Qmult_le_0_compat; [assumption | discriminate]).
    lra. }
  assert (Hf : (0 <= Qfloor x)%Z).
  { change 0%Z with (Qfloor 0). now apply Qfloor_resp_le. }
  rewrite Z2N.id by assumption.
  pose proof (Qfloor_le x) as Hlo. pose proof (Qlt_floor x) as Hhi.
  rewrite inject_Z_plus in Hhi. change (inject_Z 1) with 1 in Hhi.
  assert (E : forall z : Z, z # 1000000 == inject_Z z * (1 # 1000000)).
  { intros z. unfold Qeq, Qmult, inject_Z. cbn. lia. }
  clear Hx Hf. revert Hlo Hhi. generalize (Qfloor x). intros n.
  subst x. change (inject_Z 1000000) with (1000000 # 1) in *. intros Hlo Hhi.
  apply Qabs_Qle_condition.
  destruct (Qlt_le_dec q 0) as [Hq|Hq].
  - assert (Ha : Qabs q == - q) by (apply Qabs_neg; lra).
    rewrite E, inject_Z_opp. revert Hlo Hhi Ha.
    generalize (inject_Z n), (Qabs q). intros a b Hlo Hhi Ha.
    split; lra.
  - assert (Ha : Qabs q == q) by (apply Qabs_pos; lra).
    rewrite E. revert Hlo Hhi Ha.
    generalize (inject_Z n), (Qabs q). intros a b Hlo Hhi Ha.
    split; lra.
Qed.

Lemma fold_left_sumZ (g : Z -> Result -> Z) (f : Result -> Z) :
  (forall sum r, g sum r = (sum + f r)%Z) ->
  forall l acc, fold_left g l acc = (acc + sumZ (List.map f l))%Z.
Proof.
  intros Hg. induction l as [|r l IH]; intros acc;
    cbn [fold_left List.map sumZ fold_right].
  - lia.
  - rewrite IH, Hg. unfold sumZ. lia.
Qed.

Lemma totalTokens_sum models results :
  Server.totalTokens (Server.summarize models results)
  = sumZ (List.map tokensTotal (successes results)).
Proof.
  unfold Server.summarize. cbn [Server.totalTokens]. fold (successes results).
  rewrite (fold_left_sumZ _ tokensTotal); [reflexivity|].
  intros sum r. cbv zeta. now rewrite tokens_total_read.
Qed.

Lemma filter_split_length (f : Result -> bool) l :
  (List.length (filter f l) + List.length (filter (fun r => negb (f r)) l)
   = List.length l)%nat.
Proof.
  induction l as [|r l IH]; cbn; [reflexivity|].
  destruct (f r); cbn; lia.
Qed.

(** The running total of the costs stays a number when every cost reads
    as one, and it is the sum the specification speaks of. *)
Lemma fold_left_costs l :
  Forall cost_read_ok l ->
  forall acc, exists qc qs,
    fold_left (fun sum r => add sum (parseFloat (Server.or0 (Server.cost_total r))))
              l (Num acc) = Num qc /\
    sum_numbers (List.map costTotal l) = Num qs /\
    qc == acc + qs.
Proof.
  induction 1 as [|r l (p & q & Hp & Hq & Hpq) _ IH]; intros acc.
  - exists acc, 0. cbn. repeat split. lra.
  - cbn [fold_left List.map sum_numbers fold_right]. rewrite Hp, Hq. cbn [add].
    destruct (IH (acc + p)) as (qc & qs & -> & Hs & Hc).
    fold (sum_numbers (List.map costTotal l)). rewrite Hs. cbn [add].
    exists qc, (q + qs). repeat split. lra.
Qed.

Lemma totalCost_round models results :
  Forall cost_read_ok (successes results) ->
  Server.totalCost (Server.summarize models results)
  = round6n (sum_numbers (List.map costTotal (successes results))).
Proof.
  intros H. unfold Server.summarize. cbv zeta. cbn [Server.totalCost].
  fold (successes results). change zero with (Num 0) at 1.
  destruct (fold_left_costs _ H 0) as (qc & qs & -> & -> & E).
  cbn [parseFloat round6n]. rewrite parseFloat_toFixed6.
  f_equal. apply round6_proper. lra.
Qed.

Lemma Math_round_nearest q :
  inject_Z (Math_round q) - (1 # 2) <= q /\ q < inject_Z (Math_round q) + (1 # 2).
Proof.
  unfold Math_round.
  pose proof (Qfloor_le (q + (1 # 2))) as Hlo.
  pose proof (Qlt_floor (q + (1 # 2))) as Hhi.
  rewrite inject_Z_plus in Hhi. change (inject_Z 1) with 1 in Hhi.
  split; lra.
Qed.

Lemma avgResponseTime_mean models results :
  Server.avgResponseTime (Server.summarize models results)
  = if (0 <? List.length (successes results))%nat
    then Math_round (mean (List.map responseTimeMs (successes results)))
    else 0%Z.
Proof.
  unfold Server.summarize. cbn [Server.avgResponseTime].
  fold (successes results).
  destruct (0 <? List.length (successes results))%nat; [|reflexivity].
  unfold mean. rewrite length_map.
  rewrite (fold_left_sumZ _ responseTimeMs); [reflexivity|].
  intros sum r. now rewrite response_time_read.
Qed.

(** ** The loop over the models *)

Lemma Forall2_nth_error_l {A B : Type} (P : A -> B -> Prop) l l' i a :
  Forall2 P l l' -> nth_error l i = Some a ->
  exists b, nth_error l' i = Some b /\ P a b.
Proof.
  intros H. revert i. induction H as [|x y l l' Hxy _ IH]; intros i Hi.
  - destruct i; discriminate.
  - destruct i as [|i]; cbn in *.
    + injection Hi as <-. now exists y.
    + now apply IH.
Qed.

Lemma Forall2_In_r {A B : Type} (P : A -> B -> Prop) l l' b :
  Forall2 P l l' -> In b l' -> exists a, In a l /\ P a b.
Proof.
  induction 1 as [|x y l l' Hxy _ IH]; intros Hin; [contradiction|].
  destruct Hin as [<-|Hin].
  - exists x. split; [now left | assumption].
  - destruct (IH Hin) as (a & Ha & Hp). exists a. split; [now right | assumption].
Qed.

Lemma unsupported_id_dec id : unsupported_id id \/ ~ unsupported_id id.
Proof.
  unfold unsupported_id.
  destruct (includes id (lit "gpt")) eqn:G.
  - apply includes_iff in G. right. intros (NG & _). contradiction.
  - destruct (startsWith id (lit "claude-")) eqn:C.
    + apply startsWith_iff in C. right. intros (_ & NC). contradiction.
    + left. split; intros H.
      * apply includes_iff in H. congruence.
      * apply startsWith_iff in H. congruence.
Qed.

Section Batch.

Variable services : Server.Services.
Variable p : jsstring.
Variable options : Options.

Lemma test_model_inv id w r w' :
  Server.test_model services p options id w = (Return r, w') ->
  model r = id /\ prompt r = p /\ routed services p options id w r w'.
Proof.
  intros E.
  destruct (test_model_run services p options id w) as (r0 & w0 & E0 & H).
  rewrite E in E0. injection E0 as <- <-. exact H.
Qed.

Lemma run_models_produced ids w rs w' :
  run_models (Server.test_model services p options) ids w rs w' ->
  Forall2 (produced services p options) ids rs.
Proof.
  induction 1 as [|id ids w r w1 rs w2 E _ IH]; constructor; [|assumption].
  apply test_model_inv in E as (Hm & Hp & Hr).
  split; [assumption|]. split; [assumption|]. now exists w, w1.
Qed.

Lemma produced_models ids rs :
  Forall2 (produced services p options) ids rs -> List.map model rs = ids.
Proof.
  induction 1 as [|id r ids rs (Hm & _) _ IH]; cbn; [reflexivity|].
  now rewrite Hm, IH.
Qed.

(** The adapters were entered for supported ids only. *)
Lemma run_models_invoked ids w rs w' :
  run_models (Server.test_model services p options) ids w rs w' ->
  exists calls, invoked w' = invoked w ++ calls /\
    Forall (fun c => ~ unsupported_id (snd c)) calls.
Proof.
  induction 1 as [w|id ids w r w1 rs w2 E _ (calls & Hc & Hall)].
  - exists []. split; [now rewrite app_nil_r | constructor].
  - apply test_model_inv in E as (_ & _ & [H|[H|H]]).
    + destruct H as (G & _ & Hinv & _).
      exists ((OpenAIAdapter, id) :: calls). split.
      * rewrite Hc, Hinv, <- app_assoc. reflexivity.
      * constructor; [|assumption]. intros (NG & _). contradiction.
    + destruct H as (_ & C & _ & Hinv & _).
      exists ((AnthropicAdapter, id) :: calls). split.
      * rewrite Hc, Hinv, <- app_assoc. reflexivity.
      * constructor; [|assumption]. intros (_ & NC). contradiction.
    + destruct H as (_ & _ & Hinv). exists calls. split; [congruence | assumption].
Qed.

(** What a result says about the id it was produced for. *)

Lemma produced_unsupported id r :
  produced services p options id r -> unsupported_id id ->
  unsupported_result p id r.
Proof.
  intros (_ & _ & w & w' & [H|[H|H]]) (NG & NC).
  - destruct H as (G & _). contradiction.
  - destruct H as (_ & C & _). contradiction.
  - apply H.
Qed.

Lemma produced_supported id r :
  produced services p options id r -> ~ unsupported_id id ->
  exists a, adapter_result a p id r.
Proof.
  intros (_ & _ & w & w' & [H|[H|H]]) N.
  - exists OpenAIAdapter. apply H.
  - exists AnthropicAdapter. apply H.
  - destruct H as (U & _). contradiction.
Qed.

Lemma produced_success id r :
  produced services p options id r -> success r = true ->
  success_variant r /\ cost_read_ok r.
Proof.
  intros H S. destruct (unsupported_id_dec id) as [U|N].
  - destruct (produced_unsupported _ _ H U) as (F & _). congruence.
  - destruct (produced_supported _ _ H N) as (a & _ & _ & _ & _ & [V|(F & _)]).
    + exact V.
    + congruence.
Qed.

Lemma successes_cost_ok ids rs :
  Forall2 (produced services p options) ids rs ->
  Forall cost_read_ok (successes rs).
Proof.
  intros H. apply Forall_forall. intros r Hin.
  apply filter_In in Hin as (Hin & S).
  destruct (Forall2_In_r _ _ _ _ H Hin) as (id & _ & Hp).
  eapply produced_success; eassumption.
Qed.

End Batch.

(** ** The scenarios of the specification *)

(** Prompt "Hello", models gpt-3.5-turbo and unknown-model: two results, the
    second an UNSUPPORTED_MODEL failure, totalModels 2. *)
Example scenario_unknown_model :
  option_map
    (fun report =>
       (List.map success (Server.results report),
        List.map errorCode (Server.results report),
        Server.totalModels (Server.summary report)))
    (Sample.report_of
       (Server.prompts_test Sample.no_keys
          (Sample.request "Hello" ["gpt-3.5-turbo"; "unknown-model"]%string)
          Sample.answering))
  = Some ([true; false], [None; Some (lit "UNSUPPORTED_MODEL")], 2%nat).
Proof. vm_compute. reflexivity. Qed.

(** Prompt "", model gpt-3.5-turbo: validation failure. *)
Example scenario_empty_prompt :
  fst (Server.prompts_test Sample.no_keys
         (Sample.request "" ["gpt-3.5-turbo"%string]) Sample.answering)
  = Return (Server.BadRequest (lit "Prompt is required and cannot be empty")).
Proof. reflexivity. Qed.

(** The provider rejects gpt-4 while claude-3-opus-20240229 succeeds: two
    results, one success, one failure. *)
Example scenario_one_adapter_fails :
  option_map
    (fun report =>
       (List.map success (Server.results report),
        Server.successfulModels (Server.summary report),
        Server.failedModels (Server.summary report)))
    (Sample.report_of
       (Server.prompts_test Sample.with_keys
          (Sample.request "Hello" ["gpt-4"; "claude-3-opus-20240229"]%string)
          Sample.rejecting))
  = Some ([false; true], 1%nat, 1%nat).
Proof. vm_compute. reflexivity. Qed.

(** The provider answers gpt-4: 12 prompt tokens and 30 completion tokens
    at the gpt-4 prices cost 0.00102. *)
Example scenario_live_cost :
  option_map
    (fun report =>
       (List.map costTotal (Server.results report),
        Server.totalTokens (Server.summary report),
        Server.totalCost (Server.summary report)))
    (Sample.report_of
       (Server.prompts_test Sample.with_keys
          (Sample.request "Hello" ["gpt-4"%string]) Sample.answering))
  = Some ([Num (1020 # 1000000)], 42%Z, Num (1020 # 1000000)).
Proof. vm_compute. reflexivity. Qed.

(** ** The properties of the specification *)

Lemma valid_request_intro body p models :
  Server.body_prompt body = Some p -> trim p <> [] ->
  Server.body_models body = Some models -> models <> [] ->
  valid_request body p models.
Proof.
  intros Hp Ht Hm Hne. unfold valid_request. splits; try assumption.
  intros H. apply trim_nil_iff in H. contradiction.
Qed.

Lemma dispatch_runs services body p models w :
  valid_request body p models ->
  exists report w',
    Server.prompts_test services body w = (Return (Server.Ok report), w') /\
    Forall2 (produced services p (options_of body)) models
      (Server.results report) /\
    Server.summary report = Server.summarize models (Server.results report) /\
    (forall c, In c (invoked w') ->
       In c (invoked w) \/ ~ unsupported_id (snd c)).
Proof.
  intros V.
  destruct (prompts_test_valid services body p models w V)
    as (rs & w1 & report & w2 & Hrun & E & Hrs & Hsum & _ & _ & Hinv).
  exists report, w2. subst rs. splits; try assumption.
  - eapply run_models_produced; eassumption.
  - destruct (run_models_invoked _ _ _ _ _ _ _ Hrun) as (calls & Hc & Hall).
    intros c Hin. rewrite Hinv, Hc in Hin. apply in_app_or in Hin as [Hin|Hin].
    + now left.
    + right. rewrite Forall_forall in Hall. now apply Hall.
Qed.

Lemma dispatched_inv services body w report w' :
  Server.prompts_test services body w = (Return (Server.Ok report), w') ->
  exists p models,
    valid_request body p models /\
    Forall2 (produced services p (options_of body)) models
      (Server.results report) /\
    Server.summary report = Server.summarize models (Server.results report) /\
    Server.report_models report = models /\
    Server.report_prompt report = p.
Proof.
  intros E.
  destruct (prompts_test_ok_inv services body w report w' E)
    as (p & models & w1 & V & Hrun & Hsum & Hms & Hp & _).
  exists p, models. splits; try assumption.
  eapply run_models_produced; eassumption.
Qed.

(** C1. A request with a prompt that is not blank and a non-empty list of
    models is answered with one result per requested model id, in the order
    of the list. *)
Theorem dispatch_one_result_per_model services body p models w :
  Server.body_prompt body = Some p -> trim p <> [] ->
  Server.body_models body = Some models -> models <> [] ->
  exists report w',
    Server.prompts_test services body w = (Return (Server.Ok report), w') /\
    List.length (Server.results report) = List.length models /\
    List.map model (Server.results report) = models.
Proof.
  intros Hp Ht Hm Hne.
  destruct (dispatch_runs services body p models w
              (valid_request_intro body p models Hp Ht Hm Hne))
    as (report & w' & E & Hprod & _).
  exists report, w'. split; [assumption|].
  apply produced_models in Hprod. split; [|assumption].
  rewrite <- Hprod. now rewrite length_map.
Qed.

Lemma dispatch_one_result_per_model_witness :
  exists report w',
    Server.prompts_test Sample.with_keys
      (Sample.request "Hello" ["gpt-3.5-turbo"; "unknown-model"]%string)
      Sample.rejecting
    = (Return (Server.Ok report), w') /\
    List.length (Server.results report) = 2%nat /\
    List.map model (Server.results report)
    = [lit "gpt-3.5-turbo"; lit "unknown-model"].
Proof.
  apply (dispatch_one_result_per_model Sample.with_keys
           (Sample.request "Hello" ["gpt-3.5-turbo"; "unknown-model"]%string)
           (lit "Hello") [lit "gpt-3.5-turbo"; lit "unknown-model"]
           Sample.rejecting).
  - reflexivity.
  - vm_compute. discriminate.
  - reflexivity.
  - discriminate.
Defined.

(** C2. A request whose prompt is empty or white space only, or whose list
    of models is empty, is answered 400: no report, no adapter entered, the
    world as it was. *)
Theorem blank_prompt_or_no_models_rejected services body w :
  (exists p, Server.body_prompt body = Some p /\ whitespace_only p) \/
  Server.body_models body = Some [] ->
  exists e,
    Server.prompts_test services body w = (Return (Server.BadRequest e), w) /\
    Server.status (Server.BadRequest e) = 400%Z /\
    Sample.report_of (Server.prompts_test services body w) = None /\
    invoked (snd (Server.prompts_test services body w)) = invoked w.
Proof.
  intros H.
  assert (I : invalid_request body).
  { destruct H as [(p & Hp & Hw)|Hm]; [left; now rewrite Hp | right; now rewrite Hm]. }
  destruct (prompts_test_invalid services body w I) as (e & E).
  exists e. rewrite E. splits; reflexivity.
Qed.

Lemma blank_prompt_or_no_models_rejected_witness :
  exists e,
    Server.prompts_test Sample.with_keys
      (Sample.request "   " ["gpt-3.5-turbo"%string]) Sample.answering
    = (Return (Server.BadRequest e), Sample.answering) /\
    Server.status (Server.BadRequest e) = 400%Z /\
    Sample.report_of
      (Server.prompts_test Sample.with_keys
         (Sample.request "   " ["gpt-3.5-turbo"%string]) Sample.answering) = None /\
    invoked (snd (Server.prompts_test Sample.with_keys
                    (Sample.request "   " ["gpt-3.5-turbo"%string]) Sample.answering))
    = invoked Sample.answering.
Proof.
  apply (blank_prompt_or_no_models_rejected Sample.with_keys
           (Sample.request "   " ["gpt-3.5-turbo"%string]) Sample.answering).
  left. exists (lit "   "). split; [reflexivity|].
  repeat constructor; vm_compute; tauto.
Defined.

(** C3. A model id that neither contains "gpt" nor starts with "claude-"
    gets, at its place in the results, a failure with errorCode
    UNSUPPORTED_MODEL and response time 0; no adapter is entered for it, and
    every other model of the list still gets its result. *)
Theorem unsupported_model_fails_inline services body p models w :
  Server.body_prompt body = Some p -> trim p <> [] ->
  Server.body_models body = Some models -> models <> [] ->
  exists report w',
    Server.prompts_test services body w = (Return (Server.Ok report), w') /\
    List.map model (Server.results report) = models /\
    forall i id,
      nth_error models i = Some id -> unsupported_id id ->
      (exists r,
         nth_error (Server.results report) i = Some r /\
         success r = false /\
         errorCode r = Some (lit "UNSUPPORTED_MODEL") /\
         Server.response_time r = Some 0%Z /\
         unsupported_result p id r) /\
      (forall a, In (a, id) (invoked w') -> In (a, id) (invoked w)).
Proof.
  intros Hp Ht Hm Hne.
  destruct (dispatch_runs services body p models w
              (valid_request_intro body p models Hp Ht Hm Hne))
    as (report & w' & E & Hprod & _ & Hinv).
  exists report, w'. split; [assumption|].
  split; [eapply produced_models; eassumption|].
  intros i id Hi U. split.
  - destruct (Forall2_nth_error_l _ _ _ _ _ Hprod Hi) as (r & Hr & Pr).
    pose proof (produced_unsupported _ _ _ _ _ Pr U) as Ur.
    exists r. split; [assumption|].
    split; [apply Ur|]. split; [apply Ur|]. split; [|exact Ur].
    destruct Ur as (_ & _ & _ & _ & _ & _ & _ & md & Hmd & T & _).
    unfold Server.response_time. rewrite Hmd. cbn [chain]. now rewrite T.
  - intros a Hin. destruct (Hinv _ Hin) as [H|H]; [assumption|].
    cbn in H. contradiction.
Qed.

Lemma unsupported_model_fails_inline_witness :
  exists report w',
    Server.prompts_test Sample.no_keys Sample.mixed Sample.answering
    = (Return (Server.Ok report), w') /\
    List.map model (Server.results report)
    = [lit "gpt-4"; lit "claude-3-opus-20240229"; lit "unknown-model"] /\
    forall i id,
      nth_error [lit "gpt-4"; lit "claude-3-opus-20240229"; lit "unknown-model"] i
      = Some id ->
      unsupported_id id ->
      (exists r,
         nth_error (Server.results report) i = Some r /\
         success r = false /\
         errorCode r = Some (lit "UNSUPPORTED_MODEL") /\
         Server.response_time r = Some 0%Z /\
         unsupported_result (lit "Hello") id r) /\
      (forall a, In (a, id) (invoked w') -> In (a, id) (invoked Sample.answering)).
Proof.
  apply (unsupported_model_fails_inline Sample.no_keys Sample.mixed
           (lit "Hello")
           [lit "gpt-4"; lit "claude-3-opus-20240229"; lit "unknown-model"]
           Sample.answering).
  - reflexivity.
  - vm_compute. discriminate.
  - reflexivity.
  - discriminate.
Defined.

(** C4. The summary of a dispatched batch counts every result once:
    totalModels is the number of results, and the successes and the failures
    among the results add up to it. *)
Theorem summary_counts services body w report w' :
  Server.prompts_test services body w = (Return (Server.Ok report), w') ->
  let s := Server.summary report in
  Server.totalModels s = List.length (Server.results report) /\
  Server.successfulModels s = List.length (successes (Server.results report)) /\
  Server.failedModels s = List.length (failures (Server.results report)) /\
  (Server.successfulModels s + Server.failedModels s = Server.totalModels s)%nat.
Proof.
  intros E. destruct (dispatched_inv services body w report w' E)
    as (p & models & _ & Hprod & Hsum & _).
  cbv zeta. rewrite Hsum. unfold Server.summarize.
  cbn [Server.totalModels Server.successfulModels Server.failedModels].
  assert (L : List.length models = List.length (Server.results report)).
  { apply produced_models in Hprod. rewrite <- Hprod. now rewrite length_map. }
  rewrite L. splits; try reflexivity.
  apply (filter_split_length (fun r => success r)).
Qed.

Lemma summary_counts_witness :
  exists report w',
    Server.prompts_test Sample.with_keys Sample.mixed Sample.rejecting
    = (Return (Server.Ok report), w') /\
    let s := Server.summary report in
    Server.totalModels s = List.length (Server.results report) /\
    Server.successfulModels s = List.length (successes (Server.results report)) /\
    Server.failedModels s = List.length (failures (Server.results report)) /\
    (Server.successfulModels s + Server.failedModels s = Server.totalModels s)%nat.
Proof.
  eexists. eexists. split.
  - vm_compute. reflexivity.
  - eapply (summary_counts Sample.with_keys Sample.mixed Sample.rejecting).
    vm_compute. reflexivity.
Defined.

(** C5. The total cost of a dispatched batch is the sum of costTotal over
    the successful results, rounded to six decimal places; with no
    successful result the total cost and the average response time are 0. *)
Theorem summary_total_cost services body w report w' :
  Server.prompts_test services body w = (Return (Server.Ok report), w') ->
  let s := Server.summary report in
  let ok := successes (Server.results report) in
  Server.totalCost s = round6n (sum_numbers (List.map costTotal ok)) /\
  (ok = [] ->
   same_number (Server.totalCost s) zero /\ Server.avgResponseTime s = 0%Z).
Proof.
  intros E. destruct (dispatched_inv services body w report w' E)
    as (p & models & _ & Hprod & Hsum & _).
  cbv zeta. rewrite Hsum. split.
  - apply totalCost_round. eapply successes_cost_ok; eassumption.
  - intros Hnone. split.
    + rewrite totalCost_round by (eapply successes_cost_ok; eassumption).
      rewrite Hnone. cbn. reflexivity.
    + rewrite avgResponseTime_mean, Hnone. reflexivity.
Qed.

Lemma summary_total_cost_witness :
  exists report w',
    Server.prompts_test Sample.with_keys Sample.several Sample.answering
    = (Return (Server.Ok report), w') /\
    List.map costTotal (successes (Server.results report))
    = [Num (1020 # 1000000); Num (5000 # 1000000); Num (72 # 1000000)] /\
    Server.totalCost (Server.summary report) = Num (6092 # 1000000) /\
    let s := Server.summary report in
    let ok := successes (Server.results report) in
    Server.totalCost s = round6n (sum_numbers (List.map costTotal ok)) /\
    (ok = [] ->
     same_number (Server.totalCost s) zero /\ Server.avgResponseTime s = 0%Z).
Proof.
  eexists. eexists. split; [vm_compute; reflexivity|].
  split; [vm_compute; reflexivity|]. split; [vm_compute; reflexivity|].
  eapply (summary_total_cost Sample.with_keys Sample.several Sample.answering).
  vm_compute. reflexivity.
Defined.

(** C6. The total of the tokens of a dispatched batch is the sum of
    tokensTotal over the successful results (0 where a result has none), and
    the average response time is the mean of responseTimeMs over the
    successful results rounded to the nearest integer, 0 when there is no
    successful result. *)
Theorem summary_tokens_and_average services body w report w' :
  Server.prompts_test services body w = (Return (Server.Ok report), w') ->
  let s := Server.summary report in
  let ok := successes (Server.results report) in
  Server.totalTokens s = sumZ (List.map tokensTotal ok) /\
  (ok <> [] ->
   inject_Z (Server.avgResponseTime s) - (1 # 2)
     <= mean (List.map responseTimeMs ok) /\
   mean (List.map responseTimeMs ok)
     < inject_Z (Server.avgResponseTime s) + (1 # 2)) /\
  (ok = [] -> Server.avgResponseTime s = 0%Z).
Proof.
  intros E. destruct (dispatched_inv services body w report w' E)
    as (p & models & _ & _ & Hsum & _).
  cbv zeta. rewrite Hsum. split; [apply totalTokens_sum|].
  rewrite avgResponseTime_mean. split.
  - intros Hsome.
    destruct (successes (Server.results report)) as [|r ok] eqn:Eok;
      [contradiction|].
    cbn [List.length Nat.ltb Nat.leb]. apply Math_round_nearest.
  - intros ->. reflexivity.
Qed.

Lemma summary_tokens_and_average_witness :
  exists report w',
    Server.prompts_test Sample.with_keys Sample.several Sample.answering
    = (Return (Server.Ok report), w') /\
    List.map tokensTotal (successes (Server.results report))
    = [42; 143; 42]%Z /\
    List.map responseTimeMs (successes (Server.results report))
    = [1; 2100; 1]%Z /\
    Server.totalTokens (Server.summary report) = 227%Z /\
    Server.avgResponseTime (Server.summary report) = 701%Z /\
    let s := Server.summary report in
    let ok := successes (Server.results report) in
    Server.totalTokens s = sumZ (List.map tokensTotal ok) /\
    (ok <> [] ->
     inject_Z (Server.avgResponseTime s) - (1 # 2)
       <= mean (List.map responseTimeMs ok) /\
     mean (List.map responseTimeMs ok)
       < inject_Z (Server.avgResponseTime s) + (1 # 2)) /\
    (ok = [] -> Server.avgResponseTime s = 0%Z).
Proof.
  eexists. eexists. split; [vm_compute; reflexivity|].
  split; [vm_compute; reflexivity|]. split; [vm_compute; reflexivity|].
  split; [vm_compute; reflexivity|]. split; [vm_compute; reflexivity|].
  eapply (summary_tokens_and_average Sample.with_keys Sample.several
            Sample.answering).
  vm_compute. reflexivity.
Defined.

(** C7 (amended). A model id that contains "gpt" is handed to the OpenAI
    adapter, also when it starts with "claude-"; a model id that starts with
    "claude-" and does not contain "gpt" is handed to the Anthropic
    adapter. *)
Theorem routing_by_model_id id :
  (contains id (lit "gpt") -> routes_to OpenAIAdapter id) /\
  (starts_with id (lit "claude-") -> ~ contains id (lit "gpt") ->
   routes_to AnthropicAdapter id).
Proof.
  unfold routes_to, Server.test_model. split.
  - intros G services p options w. apply gpt_test_iff in G. now rewrite G.
  - intros C NG services p options w.
    destruct (startsWith id (lit "gpt-") || includes id (lit "gpt")) eqn:G.
    + apply gpt_test_iff in G. contradiction.
    + apply startsWith_iff in C. now rewrite C.
Qed.

Lemma routing_by_model_id_witness :
  routes_to OpenAIAdapter (lit "gpt-4") /\
  routes_to AnthropicAdapter (lit "claude-3-opus-20240229").
Proof.
  split.
  - apply (proj1 (routing_by_model_id (lit "gpt-4"))).
    exists [], (lit "-4"). reflexivity.
  - apply (proj2 (routing_by_model_id (lit "claude-3-opus-20240229"))).
    + exists (lit "3-opus-20240229"). reflexivity.
    + intros H. apply includes_iff in H. vm_compute in H. discriminate H.
Defined.

(** C7 as stated fails: "claude-gpt" starts with "claude-" and is handed to
    the OpenAI adapter. *)
Lemma claude_gpt_goes_to_openai :
  starts_with (lit "claude-gpt") (lit "claude-") /\
  routes_to OpenAIAdapter (lit "claude-gpt") /\
  ~ routes_to AnthropicAdapter (lit "claude-gpt").
Proof.
  split; [|split].
  - exists (lit "gpt"). reflexivity.
  - intros services p options w. reflexivity.
  - intros H.
    specialize (H Sample.no_keys (lit "Hello") (options_of (Sample.request "Hello" []))
                  Sample.answering).
    apply (f_equal (fun c => match fst c with
                             | Return r => provider r
                             | Throw _ => []
                             end)) in H.
    vm_compute in H. discriminate H.
Qed.

(** C8. Neither adapter raises: [testPrompt] returns a normalized result in
    every world.  When the provider rejects the call, or the answer cannot be
    read, the OpenAI adapter returns the failure variant with the message of
    that error, and a batch with such a model still gets all its results.
    (The cost of a success reads as a number, except after a live OpenAI
    call for a model id named like a member of [Object.prototype].) *)
Theorem adapters_never_raise :
  (forall client p m options w,
     exists r w',
       OpenAI.testPrompt client p m options w = (Return r, w') /\
       normalized_result OpenAIAdapter p m r /\
       (client = None \/ ~ In m Object_prototype ->
        adapter_result OpenAIAdapter p m r) /\
       (forall e, client <> None ->
          upstream w (upstream_calls w) (chat_request p m options)
            = Api.Rejected e ->
          success r = false /\ error r = Some (message e)) /\
       (success r = false ->
          exists e, error r = Some (message e) /\
            (upstream w (upstream_calls w) (chat_request p m options)
               = Api.Rejected e \/
             e = TypeError_undefined "0"))) /\
  (forall client p m options w,
     exists r w',
       Anthropic.testPrompt client p m options w = (Return r, w') /\
       adapter_result AnthropicAdapter p m r) /\
  (forall services body p models w,
     valid_request body p models ->
     exists report w',
       Server.prompts_test services body w = (Return (Server.Ok report), w') /\
       List.map model (Server.results report) = models).
Proof.
  split; [|split].
  - intros client p m options w.
    destruct (OpenAI_testPrompt_run client p m options w)
      as (r & w' & E & Hn & Hr & _ & _ & Hrej & Hfail).
    exists r, w'. splits; assumption.
  - intros client p m options w.
    destruct (Anthropic_testPrompt_run client p m options w)
      as (r & w' & E & Hr & _).
    exists r, w'. now split.
  - intros services body p models w V.
    destruct (dispatch_runs services body p models w V)
      as (report & w' & E & Hprod & _).
    exists report, w'. split; [assumption|].
    eapply produced_models; eassumption.
Qed.

Lemma adapters_never_raise_witness :
  exists r w',
    OpenAI.testPrompt (init_client (Some (lit "sk-live"))) (lit "Hello")
      (lit "gpt-4") (options_of (Sample.request "Hello" [])) Sample.rejecting
    = (Return r, w') /\
    success r = false /\ error r = Some (lit "Rate limit exceeded").
Proof.
  destruct (proj1 adapters_never_raise
              (init_client (Some (lit "sk-live"))) (lit "Hello") (lit "gpt-4")
              (options_of (Sample.request "Hello" [])) Sample.rejecting)
    as (r & w' & E & _ & _ & Hrej & _).
  exists r, w'. split; [exact E|].
  apply (Hrej (mkError (lit "Rate limit exceeded"))).
  - discriminate.
  - reflexivity.
Defined.

(** C9 as stated fails: the failure that an adapter returns carries no
    errorCode. *)
Lemma adapter_failure_without_errorCode :
  exists report w' r,
    Server.prompts_test Sample.with_keys
      (Sample.request "Hello" ["gpt-4"%string]) Sample.rejecting
    = (Return (Server.Ok report), w') /\
    In r (Server.results report) /\
    success r = false /\
    error r = Some (lit "Rate limit exceeded") /\
    errorCode r = None.
Proof.
  eexists. eexists. eexists. split; [vm_compute; reflexivity|].
  split; [left; reflexivity|]. vm_compute. repeat split.
Qed.

(** C9 (amended). Every failure in a dispatched batch carries the model id,
    the provider, the prompt, an error message, a response time and a
    timestamp; it carries the errorCode UNSUPPORTED_MODEL when its model id
    is unsupported, and no errorCode when it comes from an adapter. *)
Theorem failure_results_shape services body w report w' :
  Server.prompts_test services body w = (Return (Server.Ok report), w') ->
  forall r, In r (Server.results report) -> success r = false ->
    In (model r) (Server.report_models report) /\
    prompt r = Server.report_prompt report /\
    In (provider r) [lit "OpenAI"; lit "Anthropic"; lit "Unknown"] /\
    (exists msg, error r = Some msg) /\
    (exists md, metadata r = Some md) /\
    (unsupported_id (model r) ->
     exists code, errorCode r = Some code /\ In code error_codes) /\
    (~ unsupported_id (model r) -> errorCode r = None).
Proof.
  intros E r Hin F.
  destruct (dispatched_inv services body w report w' E)
    as (p & models & _ & Hprod & _ & -> & ->).
  destruct (Forall2_In_r _ _ _ _ Hprod Hin) as (id & Hid & Pr).
  pose proof Pr as (Hm & Hp & _). rewrite Hm.
  split; [assumption|]. split; [assumption|].
  destruct (unsupported_id_dec id) as [U|N].
  - destruct (produced_unsupported _ _ _ _ _ Pr U)
      as (_ & _ & Pv & _ & _ & Er & C & md & Hmd & _).
    splits.
    + rewrite Pv. right; right; left. reflexivity.
    + eexists. exact Er.
    + now exists md.
    + intros _. eexists. split; [exact C | left; reflexivity].
    + intros N. contradiction.
  - destruct (produced_supported _ _ _ _ _ Pr N)
      as (a & _ & _ & Pv & C & [((S & _) & _)|V]); [congruence|].
    destruct V as (_ & _ & Er & md & Hmd & _).
    splits.
    + rewrite Pv. destruct a; [left | right; left]; reflexivity.
    + assumption.
    + now exists md.
    + intros U. contradiction.
    + intros _. assumption.
Qed.

Lemma failure_results_shape_witness :
  exists report w',
    Server.prompts_test Sample.with_keys Sample.mixed Sample.rejecting
    = (Return (Server.Ok report), w') /\
    forall r, In r (Server.results report) -> success r = false ->
      In (model r) (Server.report_models report) /\
      prompt r = Server.report_prompt report /\
      In (provider r) [lit "OpenAI"; lit "Anthropic"; lit "Unknown"] /\
      (exists msg, error r = Some msg) /\
      (exists md, metadata r = Some md) /\
      (unsupported_id (model r) ->
       exists code, errorCode r = Some code /\ In code error_codes) /\
      (~ unsupported_id (model r) -> errorCode r = None).
Proof.
  eexists. eexists. split.
  - vm_compute. reflexivity.
  - eapply (failure_results_shape Sample.with_keys Sample.mixed
              Sample.rejecting).
    vm_compute. reflexivity.
Defined.

(** C10. With no API key the OpenAI adapter answers every call with a
    success (a mock), and the Anthropic adapter does so with or without a
    key; so with no OpenAI key the only failures of a batch are those of
    unsupported model ids. *)
Theorem unconfigured_adapters_simulate :
  init_client None = None /\
  (forall p m options w,
     exists r w',
       OpenAI.testPrompt (init_client None) p m options w = (Return r, w') /\
       success_variant r) /\
  (forall key p m options w,
     exists r w',
       Anthropic.testPrompt (init_client key) p m options w = (Return r, w') /\
       success_variant r) /\
  (forall services body w report w',
     Server.openai services = None ->
     Server.prompts_test services body w = (Return (Server.Ok report), w') ->
     forall r, In r (Server.results report) -> success r = false ->
       unsupported_id (model r) /\
       errorCode r = Some (lit "UNSUPPORTED_MODEL")).
Proof.
  split; [reflexivity|]. split; [|split].
  - intros p m options w.
    destruct (OpenAI_testPrompt_run (init_client None) p m options w)
      as (r & w' & E & (_ & _ & _ & _ & [V|(F & _)]) & _ & _ & S & _).
    + exists r, w'. now split.
    + rewrite (S eq_refl) in F. discriminate.
  - intros key p m options w.
    destruct (Anthropic_testPrompt_run (init_client key) p m options w)
      as (r & w' & E & (_ & _ & _ & _ & [(V & _)|(F & _)]) & _ & S).
    + exists r, w'. now split.
    + congruence.
  - intros services body w report w' Hnone E r Hin F.
    destruct (dispatched_inv services body w report w' E)
      as (p & models & _ & Hprod & _).
    destruct (Forall2_In_r _ _ _ _ Hprod Hin)
      as (id & _ & Hm & _ & w0 & w1 & [H|[H|H]]).
    + destruct H as (_ & _ & _ & S & _). rewrite (S Hnone) in F. discriminate.
    + destruct H as (_ & _ & _ & _ & S). congruence.
    + destruct H as (U & (_ & _ & _ & _ & _ & _ & C & _) & _).
      rewrite Hm. now split.
Qed.

Lemma unconfigured_adapters_simulate_witness :
  exists report w',
    Server.prompts_test Sample.no_keys Sample.mixed Sample.answering
    = (Return (Server.Ok report), w') /\
    forall r, In r (Server.results report) -> success r = false ->
      unsupported_id (model r) /\
      errorCode r = Some (lit "UNSUPPORTED_MODEL").
Proof.
  eexists. eexists. split.
  - vm_compute. reflexivity.
  - eapply (proj2 (proj2 (proj2 unconfigured_adapters_simulate))
              Sample.no_keys Sample.mixed Sample.answering).
    + reflexivity.
    + vm_compute. reflexivity.
Defined.

(** * Further properties *)

(** ** The catalog and the routing *)

Lemma adapter_for_gpt id :
  contains id (lit "gpt") -> adapter_for id = Some OpenAIAdapter.
Proof. intros G. apply gpt_test_iff in G. unfold adapter_for. now rewrite G. Qed.

Lemma adapter_for_claude id :
  ~ contains id (lit "gpt") -> starts_with id (lit "claude-") ->
  adapter_for id = Some AnthropicAdapter.
Proof.
  intros NG C. unfold adapter_for.
  destruct (startsWith id (lit "gpt-") || includes id (lit "gpt")) eqn:G.
  - apply gpt_test_iff in G. contradiction.
  - apply startsWith_iff in C. now rewrite C.
Qed.

Lemma adapter_for_unsupported id :
  unsupported_id id -> adapter_for id = None.
Proof.
  intros (NG & NC). unfold adapter_for.
  destruct (startsWith id (lit "gpt-") || includes id (lit "gpt")) eqn:G.
  - apply gpt_test_iff in G. contradiction.
  - destruct (startsWith id (lit "claude-")) eqn:C; [|reflexivity].
    apply startsWith_iff in C. contradiction.
Qed.

(** X1. [GET /api/models] always answers 200; its count is the number of
    models listed, the sum of the two provider counts; and every model it
    lists is priced by the service of its provider at the listed cost and is
    routed by the dispatcher to that provider's adapter. *)
Theorem listed_models_are_served w :
  exists report w',
    Server.models w = (Return (Server.ModelsOk report), w') /\
    Server.count report = List.length (Server.listed report) /\
    (Server.providers_openai report + Server.providers_anthropic report
     = Server.count report)%nat /\
    forall m, In m (Server.listed report) ->
      (Catalog.provider m = lit "OpenAI" /\
       OpenAI.isModelSupported (Catalog.id m) = true /\
       (exists pricing,
          lookup OpenAI.MODEL_PRICING (Catalog.id m) = Some pricing /\
          Catalog.costPer1kTokens m = output pricing) /\
       routes_to OpenAIAdapter (Catalog.id m))
      \/
      (Catalog.provider m = lit "Anthropic" /\
       Anthropic.isModelSupported (Catalog.id m) = true /\
       (exists pricing,
          lookup Anthropic.MODEL_PRICING (Catalog.id m) = Some pricing /\
          Catalog.costPer1kTokens m = output pricing) /\
       routes_to AnthropicAdapter (Catalog.id m)).
Proof.
  eexists. eexists. split; [reflexivity|]. split; [reflexivity|].
  split; [reflexivity|].
  intros m Hin. cbn [Server.listed app] in Hin.
  destruct Hin as [<-|[<-|[<-|[<-|[]]]]].
  - left. split; [reflexivity|]. split; [reflexivity|].
    split; [eexists; split; reflexivity|]. intros services p options w0. reflexivity.
  - left. split; [reflexivity|]. split; [reflexivity|].
    split; [eexists; split; reflexivity|]. intros services p options w0. reflexivity.
  - right. split; [reflexivity|]. split; [reflexivity|].
    split; [eexists; split; reflexivity|]. intros services p options w0. reflexivity.
  - right. split; [reflexivity|]. split; [reflexivity|].
    split; [eexists; split; reflexivity|]. intros services p options w0. reflexivity.
Qed.

(** ** The order of the adapter calls *)

Lemma run_models_calls services p options ids w rs w' :
  run_models (Server.test_model services p options) ids w rs w' ->
  invoked w' = invoked w ++ expected_calls ids.
Proof.
  induction 1 as [w|id ids w r w1 rs w2 E _ IH].
  - cbn. now rewrite app_nil_r.
  - apply test_model_inv in E as (_ & _ & [H|[H|H]]);
      cbn [expected_calls flat_map]; fold (expected_calls ids).
    + destruct H as (G & _ & Hinv & _).
      rewrite (adapter_for_gpt id G), IH, Hinv, <- app_assoc. reflexivity.
    + destruct H as (NG & C & _ & Hinv & _).
      rewrite (adapter_for_claude id NG C), IH, Hinv, <- app_assoc. reflexivity.
    + destruct H as (U & _ & Hinv).
      rewrite (adapter_for_unsupported id U), IH, Hinv. reflexivity.
Qed.

(** X2. A batch enters the adapters once for every occurrence of a
    supported model id, in the order of the request, and for nothing else. *)
Theorem adapters_called_in_request_order services body p models w :
  Server.body_prompt body = Some p -> trim p <> [] ->
  Server.body_models body = Some models -> models <> [] ->
  exists report w',
    Server.prompts_test services body w = (Return (Server.Ok report), w') /\
    invoked w' = invoked w ++ expected_calls models.
Proof.
  intros Hp Ht Hm Hne.
  destruct (prompts_test_valid services body p models w
              (valid_request_intro body p models Hp Ht Hm Hne))
    as (rs & w1 & report & w2 & Hrun & E & _ & _ & _ & _ & Hinv).
  exists report, w2. split; [assumption|].
  rewrite Hinv. eapply run_models_calls; eassumption.
Qed.

Lemma adapters_called_in_request_order_witness :
  exists report w',
    Server.prompts_test Sample.no_keys
      (Sample.request "Hi" ["gpt-4"; "llama"; "claude-3"; "gpt-4"]%string)
      Sample.answering
    = (Return (Server.Ok report), w') /\
    invoked w'
    = [ (OpenAIAdapter, lit "gpt-4"); (AnthropicAdapter, lit "claude-3");
        (OpenAIAdapter, lit "gpt-4") ].
Proof.
  apply (adapters_called_in_request_order Sample.no_keys
           (Sample.request "Hi" ["gpt-4"; "llama"; "claude-3"; "gpt-4"]%string)
           (lit "Hi") (List.map lit ["gpt-4"; "llama"; "claude-3"; "gpt-4"]%string)
           Sample.answering).
  - reflexivity.
  - vm_compute. discriminate.
  - reflexivity.
  - discriminate.
Defined.

Lemma valid_not_invalid body p models :
  valid_request body p models -> ~ invalid_request body.
Proof.
  intros (Hp & Hb & Hm & Hne) [H|H].
  - rewrite Hp in H. contradiction.
  - rewrite Hm in H. contradiction.
Qed.

(** X3. The handler answers 400 exactly to the requests that fail
    validation (prompt missing or blank, models missing or empty) and 200 to
    all others; it never answers 500 and never lets an error escape. *)
Theorem handler_status services body w :
  let answer := fst (Server.prompts_test services body w) in
  (invalid_request body <-> exists e, answer = Return (Server.BadRequest e)) /\
  ((exists p models, valid_request body p models)
   <-> exists report, answer = Return (Server.Ok report)) /\
  (forall error msg t, answer <> Return (Server.InternalError error msg t)) /\
  (forall e, answer <> Throw e).
Proof.
  cbv zeta. destruct (request_cases body) as [I|(p & models & V)].
  - destruct (prompts_test_invalid services body w I) as (e & ->).
    cbn [fst]. splits.
    + split; [now exists e | intros _; exact I].
    + split.
      * intros (p & models & V). now apply valid_not_invalid in V.
      * intros (report & H). discriminate.
    + discriminate.
    + discriminate.
  - destruct (prompts_test_valid services body p models w V)
      as (rs & w1 & report & w2 & _ & -> & _).
    cbn [fst]. splits.
    + split.
      * intros I. now apply valid_not_invalid in V.
      * intros (e & H). discriminate.
    + split; [now exists report | intros _; now exists p, models].
    + discriminate.
    + discriminate.
Qed.

(** ** The live OpenAI call *)

Lemma first_content_orS choices :
  orS (chain (chain (nth_error choices 0) Api.message) Api.message_content)
      (lit "No response generated")
  = match first_content choices with
    | Some text => text
    | None => lit "No response generated"
    end.
Proof.
  destruct choices as [|c choices]; [reflexivity|]. cbn.
  destruct (Api.message c) as [msg|]; [|reflexivity]. cbn.
  destruct (Api.message_content msg) as [[|ch text]|]; reflexivity.
Qed.

(** X4. A live OpenAI call that the provider answers (with a choices array)
    is a success; its token counts are the provider's ([0] where missing, the
    total not recomputed) and the response time is the difference of the two
    clock readings.  For a model id that names no member of
    [Object.prototype], each cost is tokens x price / 1000 rounded to six
    decimal places, the total being the rounding of the sum, and a model
    without a price of its own is billed at the prices of gpt-3.5-turbo.  For
    a model id that names a member of [Object.prototype] ("constructor",
    "toString", ...) the three costs are NaN. *)
Theorem live_call_is_billed c p m options w resp choices :
  upstream w (upstream_calls w) (chat_request p m options) = Api.Resolved resp ->
  Api.choices resp = Some choices ->
  let pt := usage_count resp Api.prompt_tokens in
  let ct := usage_count resp Api.completion_tokens in
  let price := OpenAI_price m in
  let inputCost := inject_Z pt * input price / inject_Z 1000 in
  let outputCost := inject_Z ct * output price / inject_Z 1000 in
  exists r w' md,
    OpenAI.testPrompt (Some c) p m options w = (Return r, w') /\
    success r = true /\
    metadata r = Some md /\
    tokens md = Some {| Tokens.prompt := Some pt;
                        Tokens.completion := Some ct;
                        Tokens.total := usage_count resp Api.total_tokens |} /\
    responseTime md
    = (clock w (S (clock_reads w)) - clock w (clock_reads w))%Z /\
    (~ In m Object_prototype ->
     cost md = Some {| Cost.input := Some (Num (round6 inputCost));
                       Cost.output := Some (Num (round6 outputCost));
                       Cost.total :=
                         VNum (Num (round6 (inputCost + outputCost))) |}) /\
    (In m Object_prototype ->
     OpenAI.isModelSupported m = false /\
     cost md = Some {| Cost.input := Some NaN;
                       Cost.output := Some NaN;
                       Cost.total := VNum NaN |}) /\
    (OpenAI.isModelSupported m = false ->
     price = {| input := 1 # 1000; output := 2 # 1000 |}) /\
    (forall pricing, lookup OpenAI.MODEL_PRICING m = Some pricing ->
                     price = pricing).
Proof.
  intros Up Hch. cbv zeta.
  assert (Hdefault : OpenAI.isModelSupported m = false ->
                     OpenAI_price m = {| input := 1 # 1000; output := 2 # 1000 |}).
  { intros Hs. unfold OpenAI_price.
    destruct (lookup OpenAI.MODEL_PRICING m) as [pr|] eqn:L; [|reflexivity].
    assert (H : OpenAI.isModelSupported m = true)
      by (apply has_key_lookup; now exists pr).
    congruence. }
  assert (Hown : forall pricing, lookup OpenAI.MODEL_PRICING m = Some pricing ->
                                 OpenAI_price m = pricing).
  { intros pr L. unfold OpenAI_price. now rewrite L. }
  assert (Hnot : In m Object_prototype -> OpenAI.isModelSupported m = false).
  { intros H. destruct (OpenAI.isModelSupported m) eqn:S; [|reflexivity].
    apply has_key_lookup in S as (v & L).
    rewrite (inherited_not_own m H) in L. discriminate L. }
  unfold OpenAI.testPrompt, OpenAI.live, chat_completions_create. run.
  fold (chat_request p m options). rewrite Up. cbv beta iota zeta.
  rewrite Hch. cbv beta iota zeta.
  rewrite pricing_read.
  destruct (existsb (jseqb m) Object_prototype) eqn:I;
    cbv beta iota zeta; cbn [price_of token_cost add];
    (eexists; eexists; eexists; split; [reflexivity|]);
    cbn [success metadata tokens cost responseTime parseFloat];
    rewrite ?parseFloat_toFixed6;
    (split; [reflexivity|]); (split; [reflexivity|]);
    unfold usage_count;
    (split; [destruct (Api.usage resp); reflexivity|]);
    (split; [reflexivity|]).
  - apply existsb_jseqb in I. split; [intros N; contradiction|].
    split; [|split; assumption].
    intros _. split; [now apply Hnot | reflexivity].
  - apply inherited_iff in I.
    split; [intros _; destruct (Api.usage resp); reflexivity|].
    split; [intros H; contradiction|]. split; assumption.
Qed.

Lemma live_call_is_billed_witness :
  exists r w' md,
    OpenAI.testPrompt (Some (mkClient (lit "sk-live"))) (lit "Hello")
      (lit "gpt-4o") (options_of (Sample.request "Hello" [])) Sample.answering
    = (Return r, w') /\
    success r = true /\
    metadata r = Some md /\
    tokens md = Some {| Tokens.prompt := Some 12%Z;
                        Tokens.completion := Some 30%Z;
                        Tokens.total := 42%Z |} /\
    cost md = Some {| Cost.input := Some (Num (12 # 1000000));
                      Cost.output := Some (Num (60 # 1000000));
                      Cost.total := VNum (Num (72 # 1000000)) |}.
Proof.
  destruct (live_call_is_billed (mkClient (lit "sk-live")) (lit "Hello")
              (lit "gpt-4o") (options_of (Sample.request "Hello" []))
              Sample.answering Sample.answer
              [ {| Api.message :=
                     Some {| Api.message_content := Some (lit "Hi there") |} |} ]
              eq_refl eq_refl)
    as (r & w' & md & E & S & Hmd & Htk & _ & Hc & _).
  exists r, w', md. repeat split; try assumption.
  apply Hc. apply inherited_iff. reflexivity.
Defined.

(** A live call for the model id "constructor": [MODEL_PRICING[model]] is
    the function [Object], and the costs are NaN. *)
Example scenario_inherited_name :
  option_map costTotal
    (match fst (OpenAI.testPrompt (Some (mkClient (lit "sk-live"))) (lit "Hello")
                  (lit "constructor") (options_of (Sample.request "Hello" []))
                  Sample.answering) with
     | Return r => Some r
     | Throw _ => None
     end)
  = Some NaN.
Proof. vm_compute. reflexivity. Qed.

(** X5. What a live OpenAI call makes of the provider's answer: without a
    choices array it is a failure with the message of the TypeError; with
    one it is a success whose text is the content of the first choice, or
    "No response generated" when there is no first choice, no message, or no
    or empty content. *)
Theorem live_answer_text c p m options w resp :
  upstream w (upstream_calls w) (chat_request p m options) = Api.Resolved resp ->
  exists r w',
    OpenAI.testPrompt (Some c) p m options w = (Return r, w') /\
    match Api.choices resp with
    | None =>
        success r = false /\
        error r = Some (message (TypeError_undefined "0"))
    | Some choices =>
        success r = true /\
        response r = Some match first_content choices with
                          | Some text => text
                          | None => lit "No response generated"
                          end
    end.
Proof.
  intros Up.
  unfold OpenAI.testPrompt, OpenAI.live, OpenAI.failed, chat_completions_create.
  run. fold (chat_request p m options). rewrite Up. cbv beta iota zeta.
  destruct (Api.choices resp) as [choices|]; cbv beta iota zeta.
  - rewrite pricing_read.
    destruct (existsb (jseqb m) Object_prototype); cbv beta iota zeta;
      (eexists; eexists; split; [reflexivity|]); cbn [success response];
      rewrite first_content_orS; split; reflexivity.
  - eexists. eexists. split; [reflexivity|]. split; reflexivity.
Qed.

Lemma live_answer_text_witness :
  exists r w',
    OpenAI.testPrompt (Some (mkClient (lit "sk-live"))) (lit "Hello")
      (lit "gpt-4") (options_of (Sample.request "Hello" [])) Sample.answering
    = (Return r, w') /\
    success r = true /\ response r = Some (lit "Hi there").
Proof.
  apply (live_answer_text (mkClient (lit "sk-live")) (lit "Hello")
           (lit "gpt-4") (options_of (Sample.request "Hello" []))
           Sample.answering Sample.answer eq_refl).
Defined.

(** ** What is sent upstream *)

Lemma chat_request_nonzero p m options :
  ~ Api.temperature (chat_request p m options) == 0 /\
  Api.max_tokens (chat_request p m options) <> 0%Z.
Proof.
  unfold chat_request. cbn [Api.temperature Api.max_tokens]. split.
  - unfold orQ. destruct (Qeq_bool (temperature options) 0) eqn:E.
    + discriminate.
    + intros H. apply Qeq_bool_iff in H. congruence.
  - unfold orZ. destruct (Z.eqb_spec (maxTokens options) 0); [discriminate | assumption].
Qed.

(** X6. The OpenAI adapter never sends a temperature of 0 or a max_tokens of
    0 (either is replaced by the default, 0.7 or 500): how the provider
    treats such requests has no influence on the result. *)
Theorem zero_temperature_never_sent client p m options w f :
  (forall n req,
     ~ Api.temperature req == 0 -> Api.max_tokens req <> 0%Z ->
     f n req = upstream w n req) ->
  fst (OpenAI.testPrompt client p m options (with_upstream f w))
  = fst (OpenAI.testPrompt client p m options w).
Proof.
  intros Hf.
  destruct (chat_request_nonzero p m options) as [Ht Hm].
  pose proof (Hf (upstream_calls w) (chat_request p m options) Ht Hm) as E.
  unfold OpenAI.testPrompt, OpenAI.live, OpenAI.mock, OpenAI.failed,
    chat_completions_create, with_upstream.
  run. destruct client as [c|]; [|reflexivity].
  run. fold (chat_request p m options). rewrite E.
  destruct (upstream w (upstream_calls w) (chat_request p m options))
    as [resp|e]; cbv beta iota zeta; [|reflexivity].
  destruct (Api.choices resp); cbv beta iota zeta; [|reflexivity].
  rewrite !pricing_read.
  destruct (existsb (jseqb m) Object_prototype); reflexivity.
Qed.

Lemma zero_temperature_never_sent_witness :
  fst (OpenAI.testPrompt (Some (mkClient (lit "sk-live"))) (lit "Hello")
         (lit "gpt-4") {| temperature := 0; maxTokens := 0 |}
         (with_upstream
            (fun n req =>
               if Qeq_bool (Api.temperature req) 0 || (Api.max_tokens req =? 0)%Z
               then Api.Rejected (mkError (lit "temperature 0")) 
               else Api.Resolved Sample.answer)
            Sample.answering))
  = fst (OpenAI.testPrompt (Some (mkClient (lit "sk-live"))) (lit "Hello")
           (lit "gpt-4") {| temperature := 0; maxTokens := 0 |}
           Sample.answering).
Proof.
  apply (zero_temperature_never_sent (Some (mkClient (lit "sk-live")))
           (lit "Hello") (lit "gpt-4") {| temperature := 0; maxTokens := 0 |}
           Sample.answering).
  intros n req Ht Hm. cbn [Sample.answering upstream].
  destruct (Qeq_bool (Api.temperature req) 0) eqn:E.
  - apply Qeq_bool_iff in E. contradiction.
  - destruct (Z.eqb_spec (Api.max_tokens req) 0); [contradiction | reflexivity].
Defined.

(** ** The mock answers *)

Lemma Qfloor_between (q : Q) (a b : Z) :
  inject_Z a <= q -> q < inject_Z b + 1 -> (a <= Qfloor q <= b)%Z.
Proof.
  intros Ha Hb. split.
  - rewrite <- (Qfloor_Z a). now apply Qfloor_resp_le.
  - pose proof (Qfloor_le q) as H.
    assert (L : inject_Z (Qfloor q) < inject_Z (b + 1)).
    { rewrite inject_Z_plus. change (inject_Z 1) with 1. lra. }
    rewrite <- Zlt_Qlt in L. lia.
Qed.

Lemma scaled_between (r : Q) (base scale : Z) :
  0 <= r -> r < 1 -> (0 <= scale)%Z ->
  inject_Z base <= inject_Z base + r * inject_Z scale /\
  inject_Z base + r * inject_Z scale <= inject_Z (base + scale).
Proof.
  intros H0 H1 Hs. rewrite inject_Z_plus.
  assert (S0 : 0 <= inject_Z scale).
  { change 0 with (inject_Z 0). now rewrite <- Zle_Qle. }
  assert (P : 0 <= r * inject_Z scale) by (now apply Qmult_le_0_compat).
  assert (U : r * inject_Z scale <= 1 * inject_Z scale).
  { apply Qmult_le_compat_r; [lra | assumption]. }
  split; lra.
Qed.

(** The rounding of a cost in [0, cap] is a cost in [0, cap], [cap] a whole
    number of millionths. *)
Lemma round6_between (x : Q) (cap : Z) :
  0 <= x -> x <= cap # 1000000 ->
  0 <= round6 x /\ round6 x <= cap # 1000000.
Proof.
  intros H0 Hc. unfold round6.
  destruct (Qlt_le_dec x 0) as [Hn|_]; [lra|].
  unfold micro. rewrite (Qabs_pos x) by assumption.
  assert (E : cap # 1000000 == inject_Z cap * (1 # 1000000)).
  { unfold Qeq, Qmult, inject_Z. cbn. lia. }
  assert (B : (0 <= Qfloor (x * inject_Z 1000000 + (1 # 2)) <= cap)%Z).
  { apply Qfloor_between.
    - change (inject_Z 1000000) with (1000000 # 1).
      change (inject_Z 0) with 0. clear E Hc. lra.
    - change (inject_Z 1000000) with (1000000 # 1). rewrite E in Hc.
      clear E. revert Hc. generalize (inject_Z cap). intros k Hc. lra. }
  rewrite Z2N.id by lia.
  split; unfold Qle; cbn [Qnum Qden]; lia.
Qed.

(** X7. With random numbers in [0, 1), a mock answer of the OpenAI adapter
    reports a response time of 1000 to 2500 ms, 50 to 249 tokens and a cost
    between 0 and 0.01; a mock answer of the Anthropic adapter, with or
    without a key, 1200 to 3000 ms, 60 to 309 tokens and a cost between 0
    and 0.02. *)
Theorem mock_answers_within_bounds p m options w :
  unit_randoms w ->
  (exists r w' md tk c,
     OpenAI.testPrompt None p m options w = (Return r, w') /\
     success r = true /\
     metadata r = Some md /\ tokens md = Some tk /\ costTotal r = Num c /\
     (1000 <= responseTime md <= 2500)%Z /\
     (50 <= Tokens.total tk <= 249)%Z /\
     0 <= c /\ c <= 1 # 100) /\
  (forall client,
     exists r w' md tk c,
       Anthropic.testPrompt client p m options w = (Return r, w') /\
       success r = true /\
       metadata r = Some md /\ tokens md = Some tk /\ costTotal r = Num c /\
       (1200 <= responseTime md <= 3000)%Z /\
       (60 <= Tokens.total tk <= 309)%Z /\
       0 <= c /\ c <= 2 # 100).
Proof.
  intros R.
  destruct (R 0%nat ltac:(lia)) as [A0 A1].
  destruct (R 1%nat ltac:(lia)) as [B0 B1].
  destruct (R 2%nat ltac:(lia)) as [C0 C1].
  rewrite Nat.add_0_r in A0, A1.
  replace (random_reads w + 1)%nat with (S (random_reads w)) in B0, B1 by lia.
  replace (random_reads w + 2)%nat with (S (S (random_reads w))) in C0, C1 by lia.
  set (r0 := random w (random_reads w)) in *.
  set (r1 := random w (S (random_reads w))) in *.
  set (r2 := random w (S (S (random_reads w)))) in *.
  destruct (scaled_between r0 1000 1500 A0 A1 ltac:(lia)) as [La Ua].
  destruct (scaled_between r0 1200 1800 A0 A1 ltac:(lia)) as [Lb Ub].
  destruct (round6_between (r2 * (1 # 100)) 10000) as [L1 U1]; try lra.
  destruct (round6_between (r2 * (2 # 100)) 20000) as [L2 U2]; try lra.
  assert (Fa : (0 <= Math_floor (r1 * inject_Z 200) <= 199)%Z).
  { unfold Math_floor. apply Qfloor_between;
      change (inject_Z 200) with (200 # 1); change (inject_Z 0) with 0;
      change (inject_Z 199) with (199 # 1); lra. }
  assert (Fb : (0 <= Math_floor (r1 * inject_Z 250) <= 249)%Z).
  { unfold Math_floor. apply Qfloor_between;
      change (inject_Z 250) with (250 # 1); change (inject_Z 0) with 0;
      change (inject_Z 249) with (249 # 1); lra. }
  assert (Ra : (1000 <= Math_round (inject_Z 1000 + r0 * inject_Z 1500) <= 2500)%Z).
  { unfold Math_round. apply Qfloor_between;
      change (inject_Z 2500) with (inject_Z (1000 + 1500)); lra. }
  assert (Rb : (1200 <= Math_round (inject_Z 1200 + r0 * inject_Z 1800) <= 3000)%Z).
  { unfold Math_round. apply Qfloor_between;
      change (inject_Z 3000) with (inject_Z (1200 + 1800)); lra. }
  clear La Ua Lb Ub A0 A1 B0 B1 C0 C1.
  subst r0 r1 r2.
  split; [|intros client].
  - unfold OpenAI.testPrompt, OpenAI.mock. run.
    do 5 eexists. split; [reflexivity|].
    split; [reflexivity|]. split; [reflexivity|]. split; [reflexivity|].
    split; [unfold costTotal; cbn; apply parseFloat_toFixed6|].
    cbn [responseTime Tokens.total random random_reads].
    split; [exact Ra|]. split; [lia|].
    split; [exact L1 | eapply Qle_trans; [exact U1 | discriminate]].
  - unfold Anthropic.testPrompt, Anthropic.mock. run.
    destruct client; do 5 eexists;
      (split; [reflexivity|]);
      (split; [reflexivity|]); (split; [reflexivity|]); (split; [reflexivity|]);
      (split; [unfold costTotal; cbn; apply parseFloat_toFixed6|]);
      cbn [responseTime Tokens.total random random_reads];
      (split; [exact Rb|]); (split; [lia|]);
      (split; [exact L2 | eapply Qle_trans; [exact U2 | discriminate]]).
Qed.

Lemma mock_answers_within_bounds_witness :
  exists r w' md tk c,
    OpenAI.testPrompt None (lit "Hello") (lit "gpt-4")
      (options_of (Sample.request "Hello" [])) Sample.answering
    = (Return r, w') /\
    success r = true /\
    metadata r = Some md /\ tokens md = Some tk /\ costTotal r = Num c /\
    (1000 <= responseTime md <= 2500)%Z /\
    (50 <= Tokens.total tk <= 249)%Z /\
    0 <= c /\ c <= 1 # 100.
Proof.
  apply (mock_answers_within_bounds (lit "Hello") (lit "gpt-4")
           (options_of (Sample.request "Hello" [])) Sample.answering).
  intros k Hk. cbn [Sample.answering random random_reads Nat.add].
  split; [discriminate|]. unfold Qlt. cbn. lia.
Defined.

(** ** config/database.js *)

Module DatabaseFacts.
Import Database.

Ltac db_run :=
  unfold initializeDatabase, createTables, getDatabase, closeDatabase,
    existsSync, io, new_Database, clear_db;
  cbn [db created dir_exists dir_checks io_error io_calls journal negb].

(** Take the oracles of [initializeDatabase] apart. *)
Ltac db_cases s :=
  db_run;
  destruct (dir_exists s (dir_checks s)) eqn:?; cbn [negb];
  db_run;
  repeat match goal with
         | |- context [match io_error s ?n with _ => _ end] =>
             destruct (io_error s n) eqn:?; db_run
         end.

(** X8. When [initializeDatabase] resolves, it resolves with a new handle
    that [db] now holds and [getDatabase] returns; it has made the
    directory if it was missing, opened the database, enabled foreign keys
    and created the tables, in this order and nothing else. *)
Theorem initialized_database_is_served s r s' :
  initializeDatabase s = (Return r, s') ->
  let h := handle (created s) in
  r = Some h /\ db s' = Some h /\
  getDatabase s' = (Return h, s') /\
  journal s' = journal s ++ init_calls (dir_exists s (dir_checks s)) h.
Proof.
  intros E. cbv zeta. revert E. unfold init_calls.
  db_cases s; intros E; try discriminate E;
    injection E as <- <-; db_run;
    rewrite <- ?app_assoc; repeat split; reflexivity.
Qed.

Lemma initialized_database_is_served_witness :
  let s := loaded (fun _ => false) (fun _ => None) in
  let s' := snd (initializeDatabase s) in
  db s' = Some (handle 0) /\
  getDatabase s' = (Return (handle 0), s') /\
  journal s'
  = [Mkdir; Open (handle 0); Pragma (handle 0); Exec (handle 0)].
Proof.
  destruct (initialized_database_is_served
              (loaded (fun _ => false) (fun _ => None))
              (Some (handle 0))
              (snd (initializeDatabase (loaded (fun _ => false) (fun _ => None))))
              eq_refl)
    as (_ & Hdb & Hget & Hj).
  repeat split; assumption.
Defined.

(** X9. When [initializeDatabase] rejects, either [mkdirSync] failed and
    [db] is as it was, or the new handle stays in [db]: [getDatabase]
    then returns it and does not report that the database is not
    initialized, although opening it, the PRAGMA or the creation of the
    tables failed. *)
Theorem failed_initialization_keeps_handle s e s' :
  initializeDatabase s = (Throw e, s') ->
  (dir_exists s (dir_checks s) = false /\
   io_error s (io_calls s) = Some e /\
   db s' = db s /\ journal s' = journal s ++ [Mkdir])
  \/
  (db s' = Some (handle (created s)) /\
   getDatabase s' = (Return (handle (created s)), s') /\
   exists op, last (journal s') Mkdir = op /\
     In op [Open (handle (created s)); Pragma (handle (created s));
            Exec (handle (created s))]).
Proof.
  db_cases s; intros E; try discriminate E; injection E as <- <-; db_run;
    try (left; repeat split; reflexivity);
    right; (split; [reflexivity|]); (split; [reflexivity|]);
    eexists; rewrite ?last_last; (split; [reflexivity|]); cbn; tauto.
Qed.

Lemma failed_initialization_keeps_handle_witness :
  let s :=
    loaded (fun _ => true) (fun _ => Some (mkError (lit "SQLITE_CANTOPEN"))) in
  let s' := snd (initializeDatabase s) in
  fst (initializeDatabase s) = Throw (mkError (lit "SQLITE_CANTOPEN")) /\
  getDatabase s' = (Return (handle 0), s').
Proof.
  cbv zeta. split; [reflexivity|].
  destruct (failed_initialization_keeps_handle
              (loaded (fun _ => true)
                 (fun _ => Some (mkError (lit "SQLITE_CANTOPEN"))))
              (mkError (lit "SQLITE_CANTOPEN"))
              (snd (initializeDatabase
                      (loaded (fun _ => true)
                         (fun _ => Some (mkError (lit "SQLITE_CANTOPEN"))))))
              eq_refl)
    as [(H & _)|(_ & H & _)].
  - discriminate H.
  - exact H.
Defined.

(** X10. [closeDatabase] with no database open resolves at once and calls
    nothing.  When it resolves, [db] is null: [getDatabase] throws and a
    second [closeDatabase] resolves without a call.  When the close fails it
    rejects with that error and [db] keeps the handle. *)
Theorem close_database_cases s :
  (db s = None -> closeDatabase s = (Return tt, s)) /\
  match closeDatabase s with
  | (Return _, s') =>
      db s' = None /\
      (exists e, getDatabase s' = (Throw e, s')) /\
      closeDatabase s' = (Return tt, s') /\
      (forall h, db s = Some h -> journal s' = journal s ++ [Close h])
  | (Throw e, s') =>
      db s' = db s /\ io_error s (io_calls s) = Some e /\
      exists h, db s = Some h /\ journal s' = journal s ++ [Close h]
  end.
Proof.
  split.
  - intros H. unfold closeDatabase. now rewrite H.
  - db_run. destruct (db s) as [h|] eqn:D.
    + destruct (io_error s (io_calls s)) as [e|] eqn:Er; db_run.
      * split; [reflexivity|]. split; [reflexivity|]. now exists h.
      * split; [reflexivity|]. split; [eexists; reflexivity|].
        split; [reflexivity|]. intros h' H. now injection H as <-.
    + rewrite D. split; [reflexivity|]. split; [eexists; reflexivity|].
      split; [reflexivity|]. discriminate.
Qed.

Lemma initializeDatabase_new_handle s r s' :
  initializeDatabase s = (Return r, s') ->
  r = Some (handle (created s)) /\ db s' = Some (handle (created s)).
Proof.
  db_cases s; intros E; try discriminate E; injection E as <- <-; db_run;
    split; reflexivity.
Qed.

Lemma initializeDatabase_created s :
  created_before s -> created_before (snd (initializeDatabase s)).
Proof.
  unfold created_before. intros W.
  db_cases s; cbn [snd db created]; intros n H;
    try (injection H as <-; lia); now apply W.
Qed.

(** X11. [initializeDatabase] never closes a database, whatever its
    outcome; called while a database is open, it replaces the handle in [db]
    by a new, different one and leaves the old one open. *)
Theorem reinitialization_leaks_handle s h0 r s' :
  created_before s -> db s = Some h0 ->
  initializeDatabase s = (r, s') ->
  (forall h, In (Close h) (journal s') -> In (Close h) (journal s)) /\
  (forall h, r = Return (Some h) -> h <> h0 /\ db s' = Some h).
Proof.
  intros W D E. split.
  - revert E. db_cases s; intros E; injection E as <- <-; db_run;
      intros h Hin; rewrite ?in_app_iff in Hin; cbn [In] in Hin;
      intuition discriminate.
  - intros h ->.
    destruct (initializeDatabase_new_handle s (Some h) s' E) as (Hr & Hdb).
    injection Hr as ->. split; [|assumption].
    destruct h0 as [n0]. specialize (W n0 D). intros H. injection H as H. lia.
Qed.

Lemma reinitialization_leaks_handle_witness :
  let s :=
    {| db := Some (handle 0); created := 1;
       dir_exists := fun _ => true; dir_checks := 1;
       io_error := fun _ => None; io_calls := 3;
       journal := [Open (handle 0); Pragma (handle 0); Exec (handle 0)] |} in
  exists s',
    initializeDatabase s = (Return (Some (handle 1)), s') /\
    db s' = Some (handle 1) /\
    forall h, ~ In (Close h) (journal s').
Proof.
  cbv zeta. eexists. split; [vm_compute; reflexivity|].
  edestruct (reinitialization_leaks_handle
               {| db := Some (handle 0); created := 1;
                  dir_exists := fun _ => true; dir_checks := 1;
                  io_error := fun _ => None; io_calls := 3;
                  journal := [Open (handle 0); Pragma (handle 0);
                              Exec (handle 0)] |}
               (handle 0) (Return (Some (handle 1)))) as (Hc & Hh).
  - intros n H. cbn in H. injection H as <-. cbn. lia.
  - reflexivity.
  - vm_compute. reflexivity.
  - split; [apply (Hh (handle 1) eq_refl)|].
    intros h Hin. apply Hc in Hin. cbn in Hin. intuition discriminate.
Defined.

End DatabaseFacts.

(** ** The selection of models (App.js, ModelSelector.js) *)

Lemma includes_id id l :
  existsb (fun x => jseqb x id) l = true <-> In id l.
Proof.
  rewrite existsb_exists. split.
  - intros (x & Hin & E). apply jseqb_eq in E. now subst.
  - intros H. exists id. split; [assumption | apply jseqb_refl].
Qed.

Lemma remove_id_In id x l :
  In x (filter (fun y => negb (jseqb y id)) l) <-> In x l /\ x <> id.
Proof.
  rewrite filter_In, negb_true_iff, jseqb_neq. reflexivity.
Qed.

Lemma remove_absent id l :
  ~ In id l -> filter (fun y => negb (jseqb y id)) l = l.
Proof.
  induction l as [|x l IH]; intros H; cbn; [reflexivity|].
  destruct (jseqb x id) eqn:E.
  - apply jseqb_eq in E. subst. contradiction H. now left.
  - cbn. rewrite IH; [reflexivity|]. intros Hin. apply H. now right.
Qed.

Lemma toggle_absent id l :
  ~ In id l -> App.handleModelToggle id l = l ++ [id].
Proof.
  intros H. unfold App.handleModelToggle.
  destruct (existsb (fun x => jseqb x id) l) eqn:E; [|reflexivity].
  apply includes_id in E. contradiction.
Qed.

Lemma toggle_present id l :
  In id l ->
  App.handleModelToggle id l = filter (fun y => negb (jseqb y id)) l.
Proof.
  intros H. unfold App.handleModelToggle.
  apply includes_id in H. now rewrite H.
Qed.

Lemma In_dec_id (id : jsstring) l : In id l \/ ~ In id l.
Proof.
  destruct (existsb (fun x => jseqb x id) l) eqn:E.
  - left. now apply includes_id.
  - right. intros H. apply includes_id in H. congruence.
Qed.

Lemma toggle_NoDup id prev :
  NoDup prev -> NoDup (App.handleModelToggle id prev).
Proof.
  intros N. destruct (In_dec_id id prev) as [H|H].
  - rewrite (toggle_present id prev H). now apply NoDup_filter.
  - rewrite (toggle_absent id prev H).
    apply NoDup_app; [assumption | repeat constructor; intros [] |].
    intros x Hx [<-|[]]. contradiction.
Qed.

(** X12. Toggling a model id flips whether that id is selected and nothing
    else: every other id stays selected or unselected as it was, and a
    selection without duplicates stays without duplicates. *)
Theorem toggle_flips_one_model id prev :
  (selected id (App.handleModelToggle id prev) <-> ~ selected id prev) /\
  (forall other, other <> id ->
     (selected other (App.handleModelToggle id prev) <-> selected other prev)) /\
  (NoDup prev -> NoDup (App.handleModelToggle id prev)).
Proof.
  unfold selected. destruct (In_dec_id id prev) as [H|H].
  - rewrite (toggle_present id prev H). splits.
    + rewrite remove_id_In. tauto.
    + intros other Ho. rewrite remove_id_In. tauto.
    + intros N. rewrite <- (toggle_present id prev H). now apply toggle_NoDup.
  - rewrite (toggle_absent id prev H). splits.
    + rewrite in_app_iff. cbn. tauto.
    + intros other Ho. rewrite in_app_iff. cbn. split; [|tauto].
      intros [Hin|[E|[]]]; [assumption | congruence].
    + intros N. rewrite <- (toggle_absent id prev H). now apply toggle_NoDup.
Qed.

(** X13. Toggling an unselected model id twice gives back the selection as
    it was; toggling a selected one twice moves it to the end (all its
    occurrences removed, one added). *)
Theorem toggle_twice id prev :
  (~ selected id prev ->
   App.handleModelToggle id (App.handleModelToggle id prev) = prev) /\
  (selected id prev ->
   App.handleModelToggle id (App.handleModelToggle id prev)
   = filter (fun y => negb (jseqb y id)) prev ++ [id]).
Proof.
  unfold selected. split; intros H.
  - rewrite (toggle_absent id prev H).
    rewrite toggle_present by (rewrite in_app_iff; cbn; tauto).
    rewrite filter_app. cbn. rewrite jseqb_refl. cbn.
    rewrite (remove_absent id prev H). apply app_nil_r.
  - rewrite (toggle_present id prev H).
    apply toggle_absent. rewrite remove_id_In. tauto.
Qed.

Lemma toggle_twice_witness :
  App.handleModelToggle (lit "gpt-4")
    (App.handleModelToggle (lit "gpt-4") App.initialSelection)
  = App.initialSelection.
Proof.
  apply (proj1 (toggle_twice (lit "gpt-4") App.initialSelection)).
  unfold selected. cbn. intros [H|[]]. discriminate H.
Defined.

(** X14. "Deselect all" on a selection without duplicates leaves nothing
    selected. *)
Theorem deselect_all_empties selectedModels :
  NoDup selectedModels ->
  ModelSelector.handleDeselectAll selectedModels = [].
Proof.
  unfold ModelSelector.handleDeselectAll.
  induction 1 as [|id l Hnin _ IH]; [reflexivity|].
  cbn [fold_left]. rewrite toggle_present by now left.
  cbn [filter]. rewrite jseqb_refl. cbn [negb].
  rewrite (remove_absent id l Hnin). exact IH.
Qed.

Lemma deselect_all_empties_witness :
  ModelSelector.handleDeselectAll
    [lit "gpt-3.5-turbo"; lit "gpt-4"; lit "claude-3-opus-20240229"] = [].
Proof.
  apply deselect_all_empties.
  repeat constructor; cbn; intuition discriminate.
Defined.

Lemma select_all_fold selectedModels l :
  forall added,
    NoDup l -> (forall x, In x l -> ~ In x added) ->
    (forall x, In x added -> ~ In x selectedModels) ->
    fold_left
      (fun state modelId =>
         if negb (existsb (fun id => jseqb id modelId) selectedModels)
         then App.handleModelToggle modelId state
         else state)
      l (selectedModels ++ added)
    = selectedModels ++ added ++
      filter (fun id => negb (existsb (fun x => jseqb x id) selectedModels)) l.
Proof.
  induction l as [|id l IH]; intros added N D A; cbn [fold_left filter].
  - now rewrite app_nil_r.
  - inversion N as [|? ? Hnin N']; subst.
    destruct (existsb (fun x => jseqb x id) selectedModels) eqn:E; cbn [negb].
    + apply IH; [assumption | | assumption].
      intros x Hx. apply D. now right.
    + assert (Hs : ~ In id selectedModels).
      { intros H. apply includes_id in H. congruence. }
      rewrite toggle_absent.
      * rewrite <- app_assoc.
        rewrite (IH (added ++ [id])); [now rewrite <- app_assoc | assumption | |].
        -- intros x Hx Hin. apply in_app_or in Hin as [Hin|[<-|[]]].
           ++ apply (D x); [now right | assumption].
           ++ contradiction.
        -- intros x Hin. apply in_app_or in Hin as [Hin|[<-|[]]];
             [now apply A | assumption].
      * rewrite in_app_iff. intros [H|H]; [contradiction|].
        apply (D id); [now left | assumption].
Qed.

Lemma Permutation_filter {A : Type} (f : A -> bool) (l l' : list A) :
  Permutation l l' -> Permutation (filter f l) (filter f l').
Proof.
  induction 1 as [|x l l' _ IH|x y l|l l' l'' _ IH1 _ IH2]; cbn.
  - constructor.
  - destruct (f x); [now constructor | assumption].
  - destruct (f x), (f y); try apply Permutation_refl. apply perm_swap.
  - now transitivity (filter f l').
Qed.

(** X15.  Rendering sorts the array [availableModels] in place, so "select
    all" reads the loaded models in some other arrangement.  For a provider
    whose loaded model ids are distinct it keeps the selection and appends
    the models of that provider that were not selected, in the order in which
    the array holds them at the call; afterwards every loaded model of the
    provider is selected, and nothing else was added. *)
Theorem select_all_provider toLowerCase loadedModels availableModels
  selectedModels provider :
  let of_provider (m : Catalog.entry) :=
    jseqb (toLowerCase (Catalog.provider m)) (toLowerCase provider) in
  let providerModels :=
    List.map Catalog.id (filter of_provider availableModels) in
  let selection :=
    ModelSelector.handleSelectAllProvider toLowerCase availableModels
      selectedModels provider in
  Permutation loadedModels availableModels ->
  NoDup (List.map Catalog.id (filter of_provider loadedModels)) ->
  selection
  = selectedModels ++
    filter (fun id => negb (existsb (fun x => jseqb x id) selectedModels))
           providerModels /\
  (forall m, In m loadedModels -> of_provider m = true ->
     selected (Catalog.id m) selection) /\
  (forall id, selected id selection ->
     selected id selectedModels \/
     exists m, In m loadedModels /\ of_provider m = true /\ Catalog.id m = id).
Proof.
  cbv zeta. intros P N.
  set (of_provider := fun m : Catalog.entry =>
         jseqb (toLowerCase (Catalog.provider m)) (toLowerCase provider)) in *.
  assert (PM : Permutation
                 (List.map Catalog.id (filter of_provider loadedModels))
                 (List.map Catalog.id (filter of_provider availableModels))).
  { apply Permutation_map. now apply Permutation_filter. }
  assert (N' := Permutation_NoDup PM N).
  unfold ModelSelector.handleSelectAllProvider. fold of_provider.
  set (providerModels :=
         List.map Catalog.id (filter of_provider availableModels)) in *.
  assert (E := select_all_fold selectedModels providerModels [] N'
                 (fun _ _ H => H) (fun _ H => match H with end)).
  rewrite app_nil_r in E. cbn [app] in E. rewrite E. split; [reflexivity|].
  unfold selected. split.
  - intros m Hin Hp. rewrite in_app_iff.
    destruct (In_dec_id (Catalog.id m) selectedModels) as [H|H];
      [now left | right].
    apply filter_In. split.
    + apply (Permutation_in _ PM). apply in_map. apply filter_In. now split.
    + apply negb_true_iff.
      destruct (existsb _ selectedModels) eqn:X; [|reflexivity].
      apply includes_id in X. contradiction.
  - intros id Hin. apply in_app_or in Hin as [Hin|Hin]; [now left | right].
    apply filter_In in Hin as [Hin _].
    apply (Permutation_in _ (Permutation_sym PM)) in Hin.
    apply in_map_iff in Hin as (m & Hid & Hm).
    apply filter_In in Hm as [Hm Hp]. now exists m.
Qed.

Lemma select_all_provider_witness :
  ModelSelector.handleSelectAllProvider Sample.ascii_lower
    (rev Sample.catalog) [lit "claude-3-opus-20240229"] (lit "OPENAI")
  = [lit "claude-3-opus-20240229"; lit "gpt-4"; lit "gpt-3.5-turbo"].
Proof.
  apply (proj1 (select_all_provider Sample.ascii_lower Sample.catalog
                  (rev Sample.catalog) [lit "claude-3-opus-20240229"]
                  (lit "OPENAI")
                  (Permutation_rev Sample.catalog)
                  ltac:(vm_compute; repeat constructor; cbn;
                        intuition discriminate))).
Defined.

(** X16. Whatever models are toggled, in whatever order, starting from the
    initial selection, the selection never holds a model id twice. *)
Theorem selection_never_duplicates toggled :
  NoDup (fold_left (fun state id => App.handleModelToggle id state)
                   toggled App.initialSelection).
Proof.
  assert (N0 : NoDup App.initialSelection) by (repeat constructor; intros []).
  revert N0. generalize App.initialSelection.
  induction toggled as [|id toggled IH]; intros l N0; cbn [fold_left].
  - assumption.
  - apply IH. now apply toggle_NoDup.
Qed.

(** ** The quality score and the display of costs (TestResults.js) *)

(** X17. The quality score is 0 for a failure and for a result with no or
    an empty response; for every other result it lies between 65 and 100,
    and it is 100 exactly when the response has 50 to 500 characters, the
    response time is between 500 and 3000 ms (exclusive) and the tokens
    between 0 and 200 (exclusive). *)
Theorem quality_score_bounds r :
  let score := TestResults.calculateQualityScore r in
  (0 <= score <= 100)%Z /\
  (success r = false \/ response r = None \/ response r = Some [] ->
   score = 0%Z) /\
  (success r = true ->
   forall text, response r = Some text -> text <> [] ->
     (65 <= score)%Z /\
     (score = 100%Z <->
      (50 <= Z.of_nat (List.length text) <= 500)%Z /\
      (500 < responseTimeMs r < 3000)%Z /\
      (0 < tokensTotal r < 200)%Z)).
Proof.
  cbv zeta. unfold TestResults.calculateQualityScore.
  rewrite response_time_read, tokens_total_read.
  destruct (response r) as [[|ch text]|] eqn:R.
  - split; [lia|]. split; [reflexivity|].
    intros _ t E. injection E as <-. congruence.
  - destruct (success r) eqn:S; cbn [negb].
    + set (len := Z.of_nat (List.length (ch :: text))).
      set (rt := responseTimeMs r).
      set (tk := tokensTotal r).
      assert (T : forall t, Some (ch :: text) = Some t ->
                            Z.of_nat (List.length t) = len).
      { intros t E. now injection E as <-. }
      clearbody len rt tk.
      split; [|split; [|intros _ t E _; rewrite (T t E); clear T]];
        try (intros [H|[H|H]]; discriminate H);
        destruct (Z.ltb_spec 0 tk), (Z.ltb_spec tk 200), (Z.ltb_spec 500 rt),
          (Z.ltb_spec rt 3000), (Z.leb_spec 3000 rt), (Z.leb_spec 50 len),
          (Z.leb_spec len 500), (Z.ltb_spec 20 len); cbn [andb]; lia.
    + split; [lia|]. split; [reflexivity | discriminate].
  - split; [lia|]. split; [reflexivity | discriminate].
Qed.

(** ** Results on the screen *)

Lemma orS_text x :
  exists ch text, orS x (lit "No response generated") = ch :: text.
Proof.
  destruct x as [[|ch text]|]; unfold orS; cbn [truthy_string];
    now eexists; eexists.
Qed.

Lemma quality_score_range r :
  (success r = false -> TestResults.calculateQualityScore r = 0%Z) /\
  (forall ch text, success r = true -> response r = Some (ch :: text) ->
     (65 <= TestResults.calculateQualityScore r <= 100)%Z).
Proof.
  unfold TestResults.calculateQualityScore. split.
  - intros S. rewrite S. now destruct (response r) as [[|ch text]|].
  - intros ch text S R. rewrite S, R. cbn [negb].
    set (len := Z.of_nat (List.length (ch :: text))).
    set (rt := orZ (Server.response_time r) 0).
    set (tk := orZ (Server.tokens_total r) 0).
    clearbody len rt tk.
    destruct (Z.ltb_spec 0 tk), (Z.ltb_spec tk 200), (Z.ltb_spec 500 rt),
      (Z.ltb_spec rt 3000), (Z.leb_spec 3000 rt), (Z.leb_spec 50 len),
      (Z.leb_spec len 500), (Z.ltb_spec 20 len); cbn [andb]; lia.
Qed.

(** A success of either adapter, or of the loop, has a text. *)
Lemma test_model_text services p options id w r w' :
  Server.test_model services p options id w = (Return r, w') ->
  success r = true -> exists ch text, response r = Some (ch :: text).
Proof.
  unfold Server.test_model, Server.unsupported, OpenAI.testPrompt,
    Anthropic.testPrompt, OpenAI.mock, OpenAI.live, OpenAI.failed,
    Anthropic.mock, Anthropic.failed, chat_completions_create.
  destruct (startsWith id (lit "gpt-") || includes id (lit "gpt")).
  - destruct (Server.openai services) as [c|]; run.
    + run. destruct (upstream w (upstream_calls w) _) as [resp|e];
        cbv beta iota zeta.
      * destruct (Api.choices resp) as [choices|]; cbv beta iota zeta.
        -- rewrite pricing_read.
           assert (T := orS_text
                       (chain (chain match choices with
                                     | [] => None
                                     | x :: _ => Some x
                                     end Api.message) Api.message_content)).
           destruct (existsb (jseqb id) Object_prototype); cbv beta iota zeta;
             intros E _; injection E as <- _; cbn [response];
             destruct T as (ch & text & ->); now exists ch, text.
        -- intros E S. injection E as <- _. discriminate S.
      * intros E S. injection E as <- _. discriminate S.
    + intros E _. injection E as <- _. now eexists; eexists.
  - destruct (startsWith id (lit "claude-")).
    + destruct (Server.anthropic services); run;
        intros E _; injection E as <- _; now eexists; eexists.
    + run. intros E S. injection E as <- _. discriminate S.
Qed.

Lemma run_models_Forall (P : Result -> Prop) step ids w rs w' :
  (forall id w r w', step id w = (Return r, w') -> P r) ->
  run_models step ids w rs w' -> Forall P rs.
Proof.
  intros H. induction 1; constructor; eauto.
Qed.

(** X18. Every successful result of a dispatched batch carries a text that
    is not empty, so the results view scores it between 65 and 100; the
    failures of the batch score 0. *)
Theorem dispatched_results_score services body w report w' :
  Server.prompts_test services body w = (Return (Server.Ok report), w') ->
  forall r, In r (Server.results report) ->
    if success r
    then (exists ch text, response r = Some (ch :: text)) /\
         (65 <= TestResults.calculateQualityScore r <= 100)%Z
    else TestResults.calculateQualityScore r = 0%Z.
Proof.
  intros E r Hin.
  destruct (prompts_test_ok_inv services body w report w' E)
    as (p & models & w1 & _ & Hrun & _).
  pose proof (run_models_Forall
                (fun r => success r = true ->
                          exists ch text, response r = Some (ch :: text))
                _ _ _ _ _
                (test_model_text services p (options_of body)) Hrun) as F.
  rewrite Forall_forall in F. specialize (F r Hin).
  destruct (quality_score_range r) as (Z0 & Q).
  destruct (success r) eqn:S.
  - destruct (F eq_refl) as (ch & text & R). split; [now exists ch, text|].
    exact (Q ch text eq_refl R).
  - now apply Z0.
Qed.

Lemma dispatched_results_score_witness :
  exists report w',
    Server.prompts_test Sample.with_keys Sample.mixed Sample.rejecting
    = (Return (Server.Ok report), w') /\
    forall r, In r (Server.results report) ->
      if success r
      then (exists ch text, response r = Some (ch :: text)) /\
           (65 <= TestResults.calculateQualityScore r <= 100)%Z
      else TestResults.calculateQualityScore r = 0%Z.
Proof.
  eexists. eexists. split.
  - vm_compute. reflexivity.
  - eapply (dispatched_results_score Sample.with_keys Sample.mixed
              Sample.rejecting).
    vm_compute. reflexivity.
Defined.

Lemma micro_round6 q : 0 <= q -> micro (round6 q) = micro q.
Proof.
  intros H. unfold round6.
  destruct (Qlt_le_dec q 0) as [Hn|_]; [lra|].
  set (n := micro q). unfold micro.
  assert (E : Qabs (Z.of_N n # 1000000) * inject_Z 1000000 + (1 # 2)
              == inject_Z (Z.of_N n) + (1 # 2)).
  { rewrite Qabs_pos by (unfold Qle; cbn; lia).
    unfold Qeq, Qplus, Qmult, inject_Z. cbn. lia. }
  rewrite E.
  assert (F : Qfloor (inject_Z (Z.of_N n) + (1 # 2)) = Z.of_N n).
  { pose proof (Qfloor_le (inject_Z (Z.of_N n) + (1 # 2))) as Hlo.
    pose proof (Qlt_floor (inject_Z (Z.of_N n) + (1 # 2))) as Hhi.
    set (f := Qfloor _) in *.
    assert (L : inject_Z f < inject_Z (Z.of_N n + 1)).
    { rewrite inject_Z_plus. change (inject_Z 1) with 1. lra. }
    assert (U : inject_Z (Z.of_N n) < inject_Z (f + 1)).
    { rewrite inject_Z_plus in Hhi |- *. change (inject_Z 1) with 1 in *. lra. }
    rewrite <- Zlt_Qlt in L, U. lia. }
  rewrite F. apply N2Z.id.
Qed.

Lemma toFixed6_round6 q :
  0 <= q -> toFixed6 (Num (round6 q)) = toFixed6 (Num q).
Proof.
  intros H. unfold toFixed6. rewrite (micro_round6 q H).
  destruct (Qlt_le_dec q 0) as [Hn|_]; [lra|].
  destruct (Qlt_le_dec (round6 q) 0) as [Hr|_]; [|reflexivity].
  exfalso. revert Hr. unfold round6.
  destruct (Qlt_le_dec q 0) as [Hn|_]; [lra|].
  unfold Qlt. cbn. lia.
Qed.

(** X19. The results view shows a cost as the adapter rounded it: for a
    cost [q >= 0], the string a mock stored ([toFixed(6)]) and the number a
    live call stored ([parseFloat] of it) are both displayed as the six
    decimals of [q]. *)
Theorem cost_display_round_trip q :
  0 <= q ->
  TestResults.formatCost (Some (VStr (toFixed6 (Num q)))) = toFixed6 (Num q) /\
  TestResults.formatCost
    (Some (VNum (parseFloat (VStr (toFixed6 (Num q)))))) = toFixed6 (Num q).
Proof.
  intros H. unfold TestResults.formatCost. cbn [parseFloat].
  rewrite parseFloat_toFixed6. split; now apply toFixed6_round6.
Qed.

Lemma cost_display_round_trip_witness :
  TestResults.formatCost (Some (VStr (toFixed6 (Num (4567891 # 1000000000)))))
  = lit "0.004568".
Proof.
  apply (proj1 (cost_display_round_trip (4567891 # 1000000000) ltac:(discriminate))).
Defined.

(** ** The statistics of the page (App.js) *)

Lemma Math_round_Z z : Math_round (inject_Z z) = z.
Proof.
  unfold Math_round.
  pose proof (Qfloor_le (inject_Z z + (1 # 2))) as Hlo.
  pose proof (Qlt_floor (inject_Z z + (1 # 2))) as Hhi.
  set (f := Qfloor _) in *.
  assert (L : inject_Z f < inject_Z (z + 1)).
  { rewrite inject_Z_plus. change (inject_Z 1) with 1. lra. }
  assert (U : inject_Z z < inject_Z (f + 1)).
  { rewrite inject_Z_plus in Hhi |- *. change (inject_Z 1) with 1 in *. lra. }
  rewrite <- Zlt_Qlt in L, U. lia.
Qed.

Lemma rate_bounds (k n : nat) :
  (0 < n)%nat -> (k <= n)%nat ->
  let rate :=
    Math_round (inject_Z (Z.of_nat k) / inject_Z (Z.of_nat n) * inject_Z 100) in
  (0 <= rate <= 100)%Z /\ (k = n -> rate = 100%Z) /\ (k = 0%nat -> rate = 0%Z).
Proof.
  intros Hn Hk. cbv zeta.
  assert (Pn : 0 < inject_Z (Z.of_nat n)).
  { change 0 with (inject_Z 0). rewrite <- Zlt_Qlt. lia. }
  assert (Pk : 0 <= inject_Z (Z.of_nat k)).
  { change 0 with (inject_Z 0). rewrite <- Zle_Qle. lia. }
  assert (Kn : inject_Z (Z.of_nat k) <= inject_Z (Z.of_nat n)).
  { rewrite <- Zle_Qle. lia. }
  set (x := inject_Z (Z.of_nat k) / inject_Z (Z.of_nat n)).
  assert (X0 : 0 <= x).
  { unfold x. apply Qle_shift_div_l; [assumption | lra]. }
  assert (X1 : x <= 1).
  { unfold x. apply Qle_shift_div_r; [assumption | lra]. }
  change (inject_Z 100) with (100 # 1).
  split; [|split].
  - unfold Math_round. apply Qfloor_between.
    + change (inject_Z 0) with 0. lra.
    + change (inject_Z 100) with (100 # 1). lra.
  - intros ->.
    assert (E : x * (100 # 1) == inject_Z 100).
    { unfold x. change (inject_Z 100) with (100 # 1). field. lra. }
    unfold Math_round. rewrite E. apply Math_round_Z.
  - intros ->.
    assert (E : x * (100 # 1) == inject_Z 0).
    { unfold x. change (inject_Z (Z.of_nat 0)) with 0.
      change (inject_Z 0) with 0. field. lra. }
    unfold Math_round. rewrite E. apply Math_round_Z.
Qed.

(** X20. [updateStats] counts one more test; the success rate is NaN when
    the outcome has no results and otherwise a whole number from 0 to 100,
    which is 100 when every result is a success and 0 when none is; the
    model shown is that of the first success, "-" when there is none. *)
Theorem stats_after_test data prevStats :
  let stats := App.updateStats data prevStats in
  let rs := ApiService.results data in
  App.totalTests stats = (App.totalTests prevStats + 1)%Z /\
  (rs = [] -> App.successRate stats = NaN) /\
  (rs <> [] ->
   exists rate, App.successRate stats = Num (inject_Z rate) /\
     (0 <= rate <= 100)%Z /\
     (successes rs = rs -> rate = 100%Z) /\
     (successes rs = [] -> rate = 0%Z)) /\
  App.bestModel stats
  = match successes rs with r :: _ => model r | [] => lit "-" end.
Proof.
  cbv zeta. unfold App.updateStats. cbv zeta.
  cbn [App.totalTests App.successRate App.bestModel].
  fold (successes (ApiService.results data)).
  split; [reflexivity|]. split; [intros ->; reflexivity|].
  split; [|reflexivity].
  intros Hne.
  assert (Hn : (0 < List.length (ApiService.results data))%nat).
  { destruct (ApiService.results data); [contradiction | cbn; lia]. }
  assert (Hk : (List.length (successes (ApiService.results data))
                <= List.length (ApiService.results data))%nat).
  { unfold successes. apply filter_length_le. }
  destruct (rate_bounds _ _ Hn Hk) as (B & All & None).
  destruct (List.length (ApiService.results data)) as [|n] eqn:L; [lia|].
  eexists. split; [reflexivity|]. split; [exact B|]. split.
  - intros E. apply All. rewrite E. exact L.
  - intros E. apply None. now rewrite E.
Qed.

Lemma stats_after_test_witness :
  exists rate,
    App.successRate
      (App.updateStats
         {| ApiService.success := true; ApiService.testId := None;
            ApiService.results :=
              match Sample.report_of
                      (Server.prompts_test Sample.with_keys Sample.mixed
                         Sample.rejecting) with
              | Some report => Server.results report
              | None => []
              end;
            ApiService.summary := None; ApiService.timestamp := None;
            ApiService.error := None |}
         {| App.totalTests := 0; App.avgCost := Num.zero;
            App.successRate := Num.zero; App.bestModel := lit "-" |})
    = Num (inject_Z rate) /\ (0 <= rate <= 100)%Z.
Proof.
  destruct (stats_after_test
         {| ApiService.success := true; ApiService.testId := None;
            ApiService.results :=
              match Sample.report_of
                      (Server.prompts_test Sample.with_keys Sample.mixed
                         Sample.rejecting) with
              | Some report => Server.results report
              | None => []
              end;
            ApiService.summary := None; ApiService.timestamp := None;
            ApiService.error := None |}
         {| App.totalTests := 0; App.avgCost := Num.zero;
            App.successRate := Num.zero; App.bestModel := lit "-" |})
    as (_ & _ & H & _).
  destruct H as (rate & E & B & _).
  - vm_compute. discriminate.
  - exists rate. split; assumption.
Defined.

(** ** The client (services/api.js) *)

Lemma trim_not_blank p : ~ whitespace_only p -> ~ whitespace_only (trim p).
Proof.
  intros H B. apply H. apply trim_nil_iff.
  unfold trim, trimEnd in *.
  pose proof (trimStart_head (rev (trimStart p))) as Hh.
  destruct (trimStart (rev (trimStart p))) as [|c u]; [reflexivity|].
  unfold whitespace_only in B. apply Forall_rev in B.
  rewrite rev_involutive in B. inversion B as [|? ? Hc _]; subst.
  apply isWhiteSpace_iff in Hc. congruence.
Qed.

Ltac client_run :=
  unfold ApiService.testPrompt, ApiService.request, try_catch, bind, throw, ret.

(** X21. The client validates like the server: for a prompt that is missing
    or blank, or a list of models that is missing or empty, it returns a
    failure with the message of the first check that fails, and sends
    nothing. *)
Theorem client_validates_before_sending post promptData w :
  invalid_request promptData ->
  exists msg,
    ApiService.testPrompt post promptData w = (Return (failed_outcome msg), w) /\
    msg = if match Server.body_prompt promptData with
             | Some p => negb (truthy_string p) || negb (truthy_string (trim p))
             | None => true
             end
          then lit "Prompt is required"
          else lit "At least one model must be selected".
Proof.
  intros I. client_run.
  destruct (Server.body_prompt promptData) as [p|] eqn:P;
    [|eexists; split; reflexivity].
  destruct (negb (truthy_string p) || negb (truthy_string (trim p))) eqn:B;
    [eexists; split; reflexivity|].
  destruct I as [I|I].
  { rewrite P in I. apply blank_prompt_iff in I. congruence. }
  destruct (Server.body_models promptData) as [models|];
    [|eexists; split; reflexivity].
  subst models. eexists; split; reflexivity.
Qed.

Lemma client_validates_before_sending_witness :
  ApiService.testPrompt
    (ApiService.served (Server.prompts_test Sample.with_keys))
    (Sample.request "  " ["gpt-4"%string]) Sample.answering
  = (Return (failed_outcome (lit "Prompt is required")), Sample.answering).
Proof.
  destruct (client_validates_before_sending
              (ApiService.served (Server.prompts_test Sample.with_keys))
              (Sample.request "  " ["gpt-4"%string]) Sample.answering)
    as (msg & E & ->).
  - left. cbn. repeat constructor; vm_compute; tauto.
  - exact E.
Defined.

(** X22. [apiService.testPrompt] never throws.  When the request cannot be
    made (the network fails) the outcome is a failure with the message of the
    error, "Network request failed" if it has none; when the server answers
    with an error status, a failure with the [error] of the body, the status
    line if there is none. *)
Theorem client_reports_transport_errors post promptData p models w :
  valid_request promptData p models ->
  match post (sent_body promptData p models) w with
  | (Throw e, w') =>
      ApiService.testPrompt post promptData w
      = (Return (failed_outcome
                   (orS (Some (message e)) (lit "Network request failed"))),
         w')
  | (Return response, w') =>
      if ApiService.ok response then
        exists outcome,
          ApiService.testPrompt post promptData w = (Return outcome, w')
      else
        ApiService.testPrompt post promptData w
        = (Return (failed_outcome
                     (orS (Some (orS (ApiService.test_error
                                        (ApiService.data response))
                                     (ApiService.status_line response)))
                          (lit "Network request failed"))),
           w')
  end.
Proof.
  intros (P & B & Ms & Ne). client_run. rewrite P, Ms.
  destruct (negb (truthy_string p) || negb (truthy_string (trim p))) eqn:Bl.
  { apply blank_prompt_iff in Bl. contradiction. }
  destruct models as [|id ids]; [contradiction|]. cbn [List.length Nat.eqb].
  cbv zeta. fold (sent_body promptData p (id :: ids)).
  destruct (post (sent_body promptData p (id :: ids)) w) as [[response|e] w'].
  - destruct (ApiService.ok response); cbn [negb message].
    + destruct (ApiService.data response); eexists; reflexivity.
    + reflexivity.
  - reflexivity.
Qed.

Lemma client_reports_transport_errors_witness :
  ApiService.testPrompt
    (fun _ w => (Throw (mkError (lit "Failed to fetch")), w))
    (Sample.request "Hello" ["gpt-4"%string]) Sample.answering
  = (Return (failed_outcome (lit "Failed to fetch")), Sample.answering).
Proof.
  apply (client_reports_transport_errors
           (fun _ w => (Throw (mkError (lit "Failed to fetch")), w))
           (Sample.request "Hello" ["gpt-4"%string])
           (lit "Hello") [lit "gpt-4"] Sample.answering).
  unfold valid_request. splits.
  - reflexivity.
  - intros H. apply trim_nil_iff in H. vm_compute in H. discriminate H.
  - reflexivity.
  - discriminate.
Defined.

(** X23. Through the client, a request with a prompt that is not blank and
    a non-empty list of models always succeeds: the server never answers it
    with 400, the outcome has one result per model in the order of the list,
    and every result carries the trimmed prompt. *)
Theorem client_through_server services promptData p models w :
  valid_request promptData p models ->
  exists outcome w',
    ApiService.testPrompt
      (ApiService.served (Server.prompts_test services)) promptData w
    = (Return outcome, w') /\
    ApiService.success outcome = true /\
    ApiService.error outcome = None /\
    List.map model (ApiService.results outcome) = models /\
    (forall r, In r (ApiService.results outcome) -> prompt r = trim p) /\
    option_map Server.totalModels (ApiService.summary outcome)
    = Some (List.length models).
Proof.
  intros V. pose proof V as (P & B & Ms & Ne).
  assert (V' : valid_request (sent_body promptData p models) (trim p) models).
  { unfold valid_request. splits; try reflexivity; try assumption.
    now apply trim_not_blank. }
  destruct (prompts_test_valid services _ _ _ w V')
    as (rs & w1 & report & w2 & Hrun & E & Hrs & Hsum & _).
  apply run_models_produced in Hrun.
  client_run. rewrite P, Ms.
  destruct (negb (truthy_string p) || negb (truthy_string (trim p))) eqn:Bl.
  { apply blank_prompt_iff in Bl. contradiction. }
  destruct models as [|id ids]; [contradiction|]. cbn [List.length Nat.eqb].
  cbv zeta. fold (sent_body promptData p (id :: ids)).
  unfold ApiService.served, bind, ret. rewrite E.
  cbn [ApiService.ok ApiService.data Server.status Z.eqb Pos.eqb negb].
  eexists. eexists. split; [reflexivity|].
  cbn [ApiService.success ApiService.error ApiService.results
       ApiService.summary option_map].
  rewrite Hrs, Hsum. splits; try reflexivity.
  - eapply produced_models; eassumption.
  - intros r Hin.
    destruct (Forall2_In_r _ _ _ _ Hrun Hin) as (m & _ & _ & Hp & _).
    exact Hp.
Qed.

Lemma client_through_server_witness :
  exists outcome w',
    ApiService.testPrompt
      (ApiService.served (Server.prompts_test Sample.no_keys))
      (Sample.request "  Hello " ["gpt-4"; "unknown-model"]%string)
      Sample.answering
    = (Return outcome, w') /\
    ApiService.success outcome = true /\
    ApiService.error outcome = None /\
    List.map model (ApiService.results outcome)
    = [lit "gpt-4"; lit "unknown-model"] /\
    (forall r, In r (ApiService.results outcome) ->
               prompt r = trim (lit "  Hello ")) /\
    option_map Server.totalModels (ApiService.summary outcome) = Some 2%nat.
Proof.
  apply (client_through_server Sample.no_keys
           (Sample.request "  Hello " ["gpt-4"; "unknown-model"]%string)
           (lit "  Hello ") [lit "gpt-4"; lit "unknown-model"]
           Sample.answering).
  unfold valid_request. splits.
  - reflexivity.
  - intros H. apply trim_nil_iff in H. vm_compute in H. discriminate H.
  - reflexivity.
  - discriminate.
Defined.
